(** * GitHub PR Branch Creator: a shallow embedding of
      [scripts/github_pr_branch_creator.py] and the properties of its
      URL resolver, commit locator, branch materializers and orchestrator. *)

From Stdlib Require Import ZArith NArith List Bool Ascii String Lia.
From Stdlib Require Import Numbers.DecimalString.
From Stdlib Require Numbers.DecimalPos.
Import ListNotations.

Local Open Scope list_scope.
Local Open Scope string_scope.
Local Open Scope Z_scope.

(** ** Python values

    A Python [str] is modelled by a Rocq [string] whose characters are the
    code points 0..255 (Latin-1).  On that range the character classes used
    below ([\d], [str.isspace], [str.lower]) are exactly the ones written
    here.  Strings with other characters are outside the model: so are the
    decimal digits and the blanks beyond Latin-1, which [\d], [int] and
    [str.strip] accept as well. *)

Module Py.

Definition code (c : ascii) : N := N_of_ascii c.

Definition in_range (lo hi : N) (c : ascii) : bool :=
  (N.leb lo (code c) && N.leb (code c) hi)%bool.

(** [c.isspace()]: TAB..CR, FS..US, space, NEL and NBSP. *)
Definition isspace (c : ascii) : bool :=
  (in_range 9 13 c || in_range 28 32 c || N.eqb (code c) 133
   || N.eqb (code c) 160)%bool.

(** Decimal digits: the characters [\d] and [int()] accept. *)
Definition isdigit (c : ascii) : bool := in_range 48 57 c.

(** [c.lower()] for one character: A-Z and the accented capitals
    U+00C0..U+00DE (except the multiplication sign) move up by 32. *)
Definition lower_char (c : ascii) : ascii :=
  if (in_range 65 90 c || in_range 192 214 c || in_range 216 222 c)%bool
  then ascii_of_N (code c + 32)
  else c.

(** [s.lower()] *)
Fixpoint lower (s : string) : string :=
  match s with
  | EmptyString => EmptyString
  | String c s' => String (lower_char c) (lower s')
  end.

(** [s.startswith(p)] *)
Fixpoint startswith (p s : string) : bool :=
  match p, s with
  | EmptyString, _ => true
  | String _ _, EmptyString => false
  | String a p', String b s' => (Ascii.eqb a b && startswith p' s')%bool
  end.

(** [s[n:]] *)
Fixpoint drop (n : nat) (s : string) : string :=
  match n, s with
  | O, _ => s
  | S _, EmptyString => EmptyString
  | S n', String _ s' => drop n' s'
  end.

(** [s[:n]] *)
Fixpoint take (n : nat) (s : string) : string :=
  match n, s with
  | O, _ => EmptyString
  | S _, EmptyString => EmptyString
  | S n', String c s' => String c (take n' s')
  end.

(** [sub in s] *)
Fixpoint contains (sub s : string) : bool :=
  (startswith sub s
   || match s with
      | EmptyString => false
      | String _ s' => contains sub s'
      end)%bool.

(** [s.lstrip()] *)
Fixpoint lstrip (s : string) : string :=
  match s with
  | EmptyString => EmptyString
  | String c s' => if isspace c then lstrip s' else s
  end.

(** [s.rstrip()]: a character goes when it is white space and everything
    after it went too. *)
Fixpoint rstrip (s : string) : string :=
  match s with
  | EmptyString => EmptyString
  | String c s' =>
      match rstrip s' with
      | EmptyString => if isspace c then EmptyString else String c EmptyString
      | r => String c r
      end
  end.

(** [s.strip()] *)
Definition strip (s : string) : string := rstrip (lstrip s).

(** [s.replace(old, new)] for a non-empty [old]: occurrences are replaced
    from left to right without overlap.  [skip] counts the characters of an
    occurrence still to be passed over. *)
Fixpoint replace_from (old new : string) (skip : nat) (s : string) : string :=
  match s with
  | EmptyString => EmptyString
  | String c s' =>
      match skip with
      | S k => replace_from old new k s'
      | O =>
          if startswith old s
          then new ++ replace_from old new (Nat.pred (String.length old)) s'
          else String c (replace_from old new O s')
      end
  end.

Definition replace (old new s : string) : string := replace_from old new O s.

(** Truth value of an [Optional[str]]: [None] and [''] are false. *)
Definition truthy (o : option string) : bool :=
  match o with
  | None => false
  | Some EmptyString => false
  | Some (String _ _) => true
  end.

(** [str(n)] and the [{n}] of an f-string, for an [int]. *)
Definition str_of_int (n : Z) : string := NilZero.string_of_int (Z.to_int n).

Definition digit_value (c : ascii) : Z := Z.of_N (code c) - 48.

Fixpoint int_digits (acc : Z) (s : string) : Z :=
  match s with
  | EmptyString => acc
  | String c s' => int_digits (10 * acc + digit_value c) s'
  end.

Fixpoint all_chars (p : ascii -> bool) (s : string) : bool :=
  match s with
  | EmptyString => true
  | String c s' => (p c && all_chars p s')%bool
  end.

(** [os.path.join(a, b)] on POSIX. *)
Definition endswith_sep (a : string) : bool :=
  match String.get (Nat.pred (String.length a)) a with
  | Some c => Ascii.eqb c "/"
  | None => false
  end.

Definition path_join (a b : string) : string :=
  if startswith "/" b then b
  else if (String.eqb a "" || endswith_sep a)%bool then a ++ b
  else a ++ "/" ++ b.

End Py.

(** ** Exceptions and results *)

Inductive exn : Type :=
| ValueError (msg : string)
| TypeError
| KeyError (key : string)
| OSError
| RequestException.

Inductive Result (A : Type) : Type :=
| Ok (a : A)
| Raise (e : exn).

Arguments Ok {A} a.
Arguments Raise {A} e.

(** The interpreter's limit on the number of digits [int] converts, at its
    default value ([sys.int_info.default_max_str_digits]). *)
Definition max_str_digits : Z := 4300.

(** The message of the [ValueError] raised beyond that limit. *)
Definition digit_limit_message (s : string) : string :=
  "Exceeds the limit (4300 digits) for integer string conversion: value has "
  ++ Py.str_of_int (Z.of_nat (String.length s))
  ++ " digits; use sys.set_int_max_str_digits() to increase the limit".

(** [int(s)] on a string of decimal digits, the only kind the URL pattern
    hands to it (Python's [int] also takes signs, blanks and underscores,
    which [\d+] never produces).  A string of more than [max_str_digits]
    digits, leading zeros included, is refused with a [ValueError]. *)
Definition int (s : string) : Result Z :=
  match s with
  | EmptyString => Raise (ValueError "invalid literal for int()")
  | String _ _ =>
      if Py.all_chars Py.isdigit s then
        if max_str_digits <? Z.of_nat (String.length s)
        then Raise (ValueError (digit_limit_message s))
        else Ok (Py.int_digits 0 s)
      else Raise (ValueError "invalid literal for int()")
  end.

(** ** Regular expressions

    The fragment of Python's [re] the URL pattern is written in, with the
    backtracking semantics of [re.match]: the match is anchored at the start
    of the string, need not reach its end, and every quantifier is greedy. *)

Module Re.

Inductive regex : Type :=
| Lit (s : string)               (* literal text *)
| Plus (cls : ascii -> bool)     (* [cls]+ *)
| Group (i : nat) (r : regex)    (* ( r ), the i-th capturing group *)
| Seq (r1 r2 : regex)            (* r1 r2 *)
| Opt (r : regex).               (* (?: r )? *)

Definition captures : Type := nat -> option string.

Definition no_captures : captures := fun _ => None.

Definition set_group (i : nat) (v : string) (c : captures) : captures :=
  fun j => if Nat.eqb j i then Some v else c j.

(** What a sub-match starting at [s] and leaving [rest] has consumed. *)
Definition consumed (s rest : string) : string :=
  Py.take (String.length s - String.length rest) s.

(** [cls*] followed by [k]: longest first, then shorter ones. *)
Fixpoint star {R : Type} (cls : ascii -> bool) (s : string)
  (k : string -> option R) : option R :=
  match s with
  | EmptyString => k s
  | String c s' =>
      if cls c
      then match star cls s' k with
           | Some r => Some r
           | None => k s
           end
      else k s
  end.

(** [cls+] followed by [k]. *)
Definition plus {R : Type} (cls : ascii -> bool) (s : string)
  (k : string -> option R) : option R :=
  match s with
  | EmptyString => None
  | String c s' => if cls c then star cls s' k else None
  end.

Fixpoint exec {R : Type} (r : regex) (s : string) (caps : captures)
  (k : string -> captures -> option R) : option R :=
  match r with
  | Lit p =>
      if Py.startswith p s then k (Py.drop (String.length p) s) caps else None
  | Plus cls => plus cls s (fun rest => k rest caps)
  | Group i r' =>
      exec r' s caps (fun rest caps' => k rest (set_group i (consumed s rest) caps'))
  | Seq r1 r2 => exec r1 s caps (fun rest caps' => exec r2 rest caps' k)
  | Opt r' =>
      match exec r' s caps k with
      | Some x => Some x
      | None => k s caps
      end
  end.

(** [re.match(r, s)] followed by [.groups()] for a pattern with [n] groups:
    [None] when there is no match, else the tuple of the groups. *)
Definition match_groups (n : nat) (r : regex) (s : string)
  : option (list (option string)) :=
  exec r s no_captures (fun _ caps => Some (map caps (seq 1 n))).

Definition not_slash (c : ascii) : bool := negb (Ascii.eqb c "/").

(** [[a-f0-9]] *)
Definition lower_hex (c : ascii) : bool :=
  (Py.in_range 97 102 c || Py.in_range 48 57 c)%bool.

End Re.

(** [r'https://github\.com/([^/]+)/([^/]+)/pull/(\d+)(?:/commits/([a-f0-9]+))?'] *)
Definition pattern : Re.regex :=
  Re.Seq (Re.Lit "https://github.com/")
    (Re.Seq (Re.Group 1 (Re.Plus Re.not_slash))
       (Re.Seq (Re.Lit "/")
          (Re.Seq (Re.Group 2 (Re.Plus Re.not_slash))
             (Re.Seq (Re.Lit "/pull/")
                (Re.Seq (Re.Group 3 (Re.Plus Py.isdigit))
                   (Re.Opt
                      (Re.Seq (Re.Lit "/commits/")
                         (Re.Group 4 (Re.Plus Re.lower_hex))))))))).

(** [GitHubPRBranchCreator._parse_pr_url] *)
Definition _parse_pr_url (url : string)
  : Result (string * string * Z * option string) :=
  match Re.match_groups 4 pattern (Py.strip url) with
  | None => Raise (ValueError ("Invalid GitHub PR URL format: " ++ url))
  | Some [Some owner; Some repo; Some pr_number; commit_sha] =>
      match int pr_number with
      | Ok n => Ok (owner, repo, n, commit_sha)
      | Raise e => Raise e
      end
  | Some _ => Raise TypeError
  end.

(** ** The JSON documents of the REST collaborator

    A response body is typed by the keys the program reads from it: a
    pull-request object, or any other JSON object, of which only string
    members are read.  Every response is taken to carry a JSON body, as the
    REST collaborator promises. *)

Module Api.

Record Owner : Type := { login : string }.

Record Repository : Type :=
  { full_name : string; owner : Owner; name : string }.

(** The [base] and [head] members of a pull request. *)
Record BranchRef : Type :=
  { ref : string; sha : string; repo : Repository }.

(** [title], [body], [html_url] and [merged] are read with [dict.get]:
    [None] stands for a missing key (and, for [body], also for [null]). *)
Record PullRequestInfo : Type :=
  { state : string;
    merged : option bool;
    base : BranchRef;
    head : BranchRef;
    title : option string;
    body : option string;
    html_url : option string }.

(** A JSON object other than a pull request is given by what [d.get(key)]
    answers for its string members. *)
Inductive Json : Type :=
| JsonPull (pr : PullRequestInfo)
| JsonObject (members : string -> option string).

(** The objects [{}] and [{key: value}]. *)
Definition no_members : string -> option string := fun _ => None.

Definition member (key value : string) : string -> option string :=
  fun k => if String.eqb k key then Some value else None.

(** [d.get('message', default)]: a pull-request object has no such member. *)
Definition get_message (d : Json) (default : string) : string :=
  match d with
  | JsonPull _ => default
  | JsonObject members =>
      match members "message" with
      | Some v => v
      | None => default
      end
  end.

Record Response : Type :=
  { status_code : Z; text : string; json : Json }.

End Api.

(** [subprocess.CompletedProcess] *)
Record CompletedProcess : Type :=
  { returncode : Z; stdout : string; stderr : string }.

Definition Headers : Type := list (string * string).

(** The [json=] argument of the two POST requests. *)
Inductive PostData : Type :=
| RepoData (name description : string)
    (private has_issues has_projects has_wiki : bool)
| PullData (title body head base : string).

(** ** The outside world

    Every call that leaves the program (HTTP, subprocess, file system) is
    answered by an environment over an abstract world state, and is recorded
    with its answer.  An answer [None] means that the call raised:
    [requests.RequestException] for HTTP, [OSError] for the others.
    Progress narration on standard output is not part of the model. *)

Inductive Event : Type :=
| EvGet (url : string) (hdrs : Headers) (r : option Api.Response)
| EvPost (url : string) (data : PostData) (hdrs : Headers)
    (r : option Api.Response)
| EvRun (argv : list string) (cwd : string) (input : option string)
    (r : option CompletedProcess)
| EvTempDir (r : option string)
| EvCleanup (dir : string)
| EvListdir (path : string) (r : option (list string))
| EvIsdir (path : string) (r : bool)
| EvExists (path : string) (r : bool)
| EvRmtree (path : string) (r : option unit)
| EvRemove (path : string) (r : option unit)
| EvMakedirs (path : string) (r : option unit).

Record Env (World : Type) : Type :=
  { requests_get : string -> Headers -> World -> option Api.Response * World;
    requests_post :
      string -> PostData -> Headers -> World -> option Api.Response * World;
    subprocess_run :
      list string -> string -> option string -> World
      -> option CompletedProcess * World;
    tempdir_create : World -> option string * World;
    tempdir_cleanup : string -> World -> World;
    os_listdir : string -> World -> option (list string) * World;
    os_path_isdir : string -> World -> bool * World;
    os_path_exists : string -> World -> bool * World;
    shutil_rmtree : string -> World -> option unit * World;
    os_remove : string -> World -> option unit * World;
    os_makedirs : string -> World -> option unit * World }.

Arguments requests_get {World} _ _ _ _.
Arguments requests_post {World} _ _ _ _ _.
Arguments subprocess_run {World} _ _ _ _ _.
Arguments tempdir_create {World} _ _.
Arguments tempdir_cleanup {World} _ _ _.
Arguments os_listdir {World} _ _ _.
Arguments os_path_isdir {World} _ _ _.
Arguments os_path_exists {World} _ _ _.
Arguments shutil_rmtree {World} _ _ _.
Arguments os_remove {World} _ _ _.
Arguments os_makedirs {World} _ _ _.

Declare Scope py_scope.
Delimit Scope py_scope with py.

(** [self]: the token and the constants [__init__] derives from it. *)
Record GitHubPRBranchCreator : Type :=
  { github_token : string; target_org : string; headers : Headers }.

(** [GitHubPRBranchCreator.__init__]; [environ] is
    [os.environ.get('GITHUB_TOKEN')]. *)
Definition __init__ (github_token environ : option string)
  : Result GitHubPRBranchCreator :=
  let token := if Py.truthy github_token then github_token else environ in
  match token with
  | Some (String c t) =>
      Ok {| github_token := String c t;
            target_org := "JulianEgbertMasterThesis";
            headers := [("Authorization", "token " ++ String c t);
                        ("Accept", "application/vnd.github.v3+json")] |}
  | _ =>
      Raise (ValueError
        "GitHub token is required. Set GITHUB_TOKEN environment variable.")
  end.

(** [a or b] for an optional string [a]. *)
Definition py_or (a : option string) (b : string) : string :=
  match a with
  | Some (String c s) => String c s
  | _ => b
  end.

(** [GitHubPRBranchCreator._get_commit_repo_info] *)
Definition _get_commit_repo_info (pr_info : Api.PullRequestInfo)
  (target_commit_sha : option string) : string * string * string :=
  let commit_sha := py_or target_commit_sha (Api.sha (Api.head pr_info)) in
  let head_repo := Api.repo (Api.head pr_info) in
  let base_repo := Api.repo (Api.base pr_info) in
  if negb (String.eqb (Api.full_name head_repo) (Api.full_name base_repo))
  then (Api.login (Api.owner head_repo), Api.name head_repo, commit_sha)
  else (Api.login (Api.owner base_repo), Api.name base_repo, commit_sha).

Section Program.

Context {World : Type} (env : Env World).

(** ** The monad of the program: world state, exceptions, and the trace of
    the calls made. *)

Definition M (A : Type) : Type :=
  World -> Result A * World * list Event.

Definition ret {A : Type} (a : A) : M A :=
  fun w => (Ok a, w, []).

Definition raise {A : Type} (e : exn) : M A :=
  fun w => (Raise e, w, []).

Definition bind {A B : Type} (m : M A) (k : A -> M B)
  : M B :=
  fun w =>
    let '(r, w1, t1) := m w in
    match r with
    | Ok a => let '(r2, w2, t2) := k a w1 in (r2, w2, (t1 ++ t2)%list)
    | Raise e => (Raise e, w1, t1)
    end.

(** [try: m  except ...: h e] *)
Definition try_except {A : Type} (m : M A) (h : exn -> M A)
  : M A :=
  fun w =>
    let '(r, w1, t1) := m w in
    match r with
    | Ok a => (Ok a, w1, t1)
    | Raise e => let '(r2, w2, t2) := h e w1 in (r2, w2, (t1 ++ t2)%list)
    end.

Definition lift {A : Type} (r : Result A) : M A :=
  fun w => (r, w, []).

Notation "x <- m ;; k" := (bind m (fun x => k))
  (at level 61, m at next level, right associativity) : py_scope.
Notation "' p <- m ;; k" := (bind m (fun x => match x with p => k end))
  (at level 61, p pattern, m at next level, right associativity) : py_scope.
Notation "m ;; k" := (bind m (fun _ => k))
  (at level 61, right associativity) : py_scope.

Definition result_of {A : Type} (x : Result A * World * list Event)
  : Result A := fst (fst x).

Definition trace_of {A : Type} (x : Result A * World * list Event)
  : list Event := snd x.

Local Open Scope py_scope.

(** *** Calls to the collaborators *)

Definition http_get (url : string) (hdrs : Headers) : M Api.Response :=
  fun w =>
    let '(r, w') := requests_get env url hdrs w in
    (match r with Some x => Ok x | None => Raise RequestException end,
     w', [EvGet url hdrs r]).

Definition http_post (url : string) (data : PostData) (hdrs : Headers)
  : M Api.Response :=
  fun w =>
    let '(r, w') := requests_post env url data hdrs w in
    (match r with Some x => Ok x | None => Raise RequestException end,
     w', [EvPost url data hdrs r]).

(** [subprocess.run(argv, cwd=cwd, input=input, capture_output=True)] *)
Definition run (argv : list string) (cwd : string) (input : option string)
  : M CompletedProcess :=
  fun w =>
    let '(r, w') := subprocess_run env argv cwd input w in
    (match r with Some x => Ok x | None => Raise OSError end,
     w', [EvRun argv cwd input r]).

Definition listdir (path : string) : M (list string) :=
  fun w =>
    let '(r, w') := os_listdir env path w in
    (match r with Some x => Ok x | None => Raise OSError end,
     w', [EvListdir path r]).

Definition isdir (path : string) : M bool :=
  fun w => let '(r, w') := os_path_isdir env path w in (Ok r, w', [EvIsdir path r]).

Definition path_exists (path : string) : M bool :=
  fun w =>
    let '(r, w') := os_path_exists env path w in (Ok r, w', [EvExists path r]).

Definition rmtree (path : string) : M unit :=
  fun w =>
    let '(r, w') := shutil_rmtree env path w in
    (match r with Some x => Ok x | None => Raise OSError end,
     w', [EvRmtree path r]).

Definition remove (path : string) : M unit :=
  fun w =>
    let '(r, w') := os_remove env path w in
    (match r with Some x => Ok x | None => Raise OSError end,
     w', [EvRemove path r]).

Definition makedirs (path : string) : M unit :=
  fun w =>
    let '(r, w') := os_makedirs env path w in
    (match r with Some x => Ok x | None => Raise OSError end,
     w', [EvMakedirs path r]).

(** [with tempfile.TemporaryDirectory() as temp_dir: body]: the directory is
    removed however [body] ends; the removal itself is taken not to fail. *)
Definition with_tempdir {A : Type} (body : string -> M A) : M A :=
  fun w =>
    let '(r, w1) := tempdir_create env w in
    match r with
    | None => (Raise OSError, w1, [EvTempDir r])
    | Some temp_dir =>
        let '(res, w2, t) := body temp_dir w1 in
        (res, tempdir_cleanup env temp_dir w2,
         (EvTempDir r :: t ++ [EvCleanup temp_dir])%list)
    end.

(** [for x in xs: body x] *)
Fixpoint for_each {A : Type} (xs : list A) (body : A -> M unit) : M unit :=
  match xs with
  | [] => ret tt
  | x :: xs' => body x ;; for_each xs' body
  end.

(** [except requests.RequestException: h] *)
Definition except_request {A : Type} (m : M A) (h : M A) : M A :=
  try_except m
    (fun e => match e with RequestException => h | _ => raise e end).

(** [except Exception: h] *)
Definition except_any {A : Type} (m : M A) (h : M A) : M A :=
  try_except m (fun _ => h).

(** [response.raise_for_status()] *)
Definition raise_for_status (response : Api.Response) : M unit :=
  if ((400 <=? Api.status_code response)
      && (Api.status_code response <? 600))%bool
  then raise RequestException
  else ret tt.

(** *** The methods *)

(** The [url] of [check_repo_exists]. *)
Definition repo_url (self : GitHubPRBranchCreator) (owner repo : string)
  : string :=
  let target_repo_name := owner ++ "-" ++ repo in
  "https://api.github.com/repos/" ++ target_org self ++ "/"
  ++ target_repo_name.

Definition check_repo_exists (self : GitHubPRBranchCreator)
  (owner repo : string) : M bool :=
  let url := repo_url self owner repo in
  except_request
    (response <- http_get url (headers self) ;;
     ret (Api.status_code response =? 200))
    (ret false).

(** The [url] of [_get_pr_info]. *)
Definition pr_info_url (owner repo : string) (pr_number : Z) : string :=
  "https://api.github.com/repos/" ++ owner ++ "/" ++ repo ++ "/pulls/"
  ++ Py.str_of_int pr_number.

Definition _get_pr_info (self : GitHubPRBranchCreator) (owner repo : string)
  (pr_number : Z) : M Api.Json :=
  let url := pr_info_url owner repo pr_number in
  response <- http_get url (headers self) ;;
  raise_for_status response ;;
  ret (Api.json response).

(** The [url] of [_create_empty_repository]. *)
Definition org_repos_url (self : GitHubPRBranchCreator) : string :=
  "https://api.github.com/orgs/" ++ target_org self ++ "/repos".

Definition _create_empty_repository (self : GitHubPRBranchCreator)
  (repo_name description : string) : M bool :=
  let url := org_repos_url self in
  let data := RepoData repo_name description true true false false in
  except_request
    (response <- http_post url data (headers self) ;;
     if Api.status_code response =? 201 then ret true else ret false)
    (ret false).

Definition _create_repository (self : GitHubPRBranchCreator)
  (owner repo : string) : M bool :=
  let target_repo_name := owner ++ "-" ++ repo in
  _create_empty_repository self target_repo_name
    ("Copy of " ++ owner ++ "/" ++ repo).

(** The [url] of [_check_branch_exists]. *)
Definition branch_url (self : GitHubPRBranchCreator)
  (target_repo branch_name : string) : string :=
  "https://api.github.com/repos/" ++ target_org self ++ "/" ++ target_repo
  ++ "/branches/" ++ branch_name.

Definition _check_branch_exists (self : GitHubPRBranchCreator)
  (target_repo branch_name : string) : M bool :=
  let url := branch_url self target_repo branch_name in
  except_request
    (response <- http_get url (headers self) ;;
     ret (Api.status_code response =? 200))
    (ret false).

Definition newline : string := String (ascii_of_nat 10) EmptyString.

(** The [url] and the [data] of [_create_pull_request]. *)
Definition pull_request_url (self : GitHubPRBranchCreator)
  (target_repo : string) : string :=
  "https://api.github.com/repos/" ++ target_org self ++ "/" ++ target_repo
  ++ "/pulls".

Definition pull_request_data (head_branch base_branch : string)
  (pr_info : Api.PullRequestInfo) : PostData :=
  let title :=
    match Api.title pr_info with
    | Some t => t
    | None => "PR from " ++ head_branch
    end in
  let body := py_or (Api.body pr_info) "" in
  let original_pr_url :=
    match Api.html_url pr_info with Some u => u | None => "" end in
  let metadata := newline ++ newline ++ "---" ++ newline
                  ++ "**Original PR:** `" ++ original_pr_url ++ "`" in
  PullData title (body ++ metadata) head_branch base_branch.

Definition _create_pull_request (self : GitHubPRBranchCreator)
  (target_repo head_branch base_branch : string)
  (pr_info : Api.PullRequestInfo) : M bool :=
  let url := pull_request_url self target_repo in
  let data := pull_request_data head_branch base_branch pr_info in
  except_request
    (response <- http_post url data (headers self) ;;
     if Api.status_code response =? 201 then ret true
     else if Api.status_code response =? 422 then
       let error_data := Api.json response in
       if Py.contains "already exists"
            (Py.lower (Api.get_message error_data ""))
       then ret true
       else ret false
     else ret false)
    (ret false).

Definition git_config_user (dir : string) : M unit :=
  run ["git"; "config"; "user.name"; "PR Branch Creator"] dir None ;;
  run ["git"; "config"; "user.email"; "pr-branch-creator@example.com"]
    dir None ;;
  ret tt.

Definition failed (p : CompletedProcess) : bool := negb (returncode p =? 0).

Definition _create_branch_from_base (self : GitHubPRBranchCreator)
  (owner repo target_repo branch_name commit_sha base_branch : string)
  : M bool :=
  except_any
    (with_tempdir (fun temp_dir =>
       let original_url := "https://github.com/" ++ owner ++ "/" ++ repo
                           ++ ".git" in
       let target_url := "https://github.com/" ++ target_org self ++ "/"
                         ++ target_repo ++ ".git" in
       let auth_target_url :=
         Py.replace "https://" ("https://" ++ github_token self ++ "@")
           target_url in
       clone_result <- run ["git"; "clone"; auth_target_url; "target"]
                         temp_dir None ;;
       if failed clone_result then ret false else
       let target_dir := Py.path_join temp_dir "target" in
       git_config_user target_dir ;;
       checkout_result <- run ["git"; "checkout"; base_branch]
                            target_dir None ;;
       if failed checkout_result then ret false else
       branch_result <- run ["git"; "checkout"; "-b"; branch_name]
                          target_dir None ;;
       if failed branch_result then ret false else
       original_clone_result <- run ["git"; "clone"; original_url; "original"]
                                  temp_dir None ;;
       if failed original_clone_result then ret false else
       let original_dir := Py.path_join temp_dir "original" in
       archive_result <- run ["git"; "archive"; "--format=tar"; commit_sha]
                           original_dir None ;;
       if failed archive_result then ret false else
       items <- listdir target_dir ;;
       for_each items (fun item =>
         if negb (String.eqb item ".git") then
           let item_path := Py.path_join target_dir item in
           is_dir <- isdir item_path ;;
           if is_dir then rmtree item_path else remove item_path
         else ret tt) ;;
       extract_result <- run ["tar"; "-xf"; "-"] target_dir
                           (Some (stdout archive_result)) ;;
       if failed extract_result then ret false else
       has_github <- path_exists (Py.path_join target_dir ".github") ;;
       (if has_github then rmtree (Py.path_join target_dir ".github")
        else ret tt) ;;
       add_result <- run ["git"; "add"; "-A"] target_dir None ;;
       if failed add_result then ret false else
       let commit_message := "Commit " ++ commit_sha in
       commit_result <- run ["git"; "commit"; "-m";
                             "[PR Changes] " ++ commit_message]
                          target_dir None ;;
       if failed commit_result then
         if Py.contains "nothing to commit" (stdout commit_result) then
           push_result <- run ["git"; "push"; "origin"; branch_name]
                            target_dir None ;;
           if failed push_result then ret false else ret true
         else ret false
       else
       push_result <- run ["git"; "push"; "origin"; branch_name]
                        target_dir None ;;
       if failed push_result then ret false else ret true))
    (ret false).

Definition _create_orphan_branch_with_commit (self : GitHubPRBranchCreator)
  (owner repo target_repo branch_name commit_sha : string) : M bool :=
  except_any
    (with_tempdir (fun temp_dir =>
       let original_url := "https://github.com/" ++ owner ++ "/" ++ repo
                           ++ ".git" in
       let target_url := "https://github.com/" ++ target_org self ++ "/"
                         ++ target_repo ++ ".git" in
       let auth_target_url :=
         Py.replace "https://" ("https://" ++ github_token self ++ "@")
           target_url in
       clone_result <- run ["git"; "clone"; original_url; "source"]
                         temp_dir None ;;
       if failed clone_result then ret false else
       let source_dir := Py.path_join temp_dir "source" in
       let work_dir := Py.path_join temp_dir "work" in
       makedirs work_dir ;;
       init_result <- run ["git"; "init"] work_dir None ;;
       if failed init_result then ret false else
       git_config_user work_dir ;;
       archive_result <- run ["git"; "archive"; "--format=tar"; commit_sha]
                           source_dir None ;;
       if failed archive_result then ret false else
       extract_result <- run ["tar"; "-xf"; "-"] work_dir
                           (Some (stdout archive_result)) ;;
       if failed extract_result then ret false else
       let github_path := Py.path_join work_dir ".github" in
       has_github <- path_exists github_path ;;
       (if has_github then rmtree github_path else ret tt) ;;
       add_result <- run ["git"; "add"; "."] work_dir None ;;
       if failed add_result then ret false else
       let commit_message := "Commit " ++ commit_sha in
       commit_result <- run ["git"; "commit"; "-m";
                             "[Orphan] " ++ commit_message]
                          work_dir None ;;
       if failed commit_result then ret false else
       remote_result <- run ["git"; "remote"; "add"; "origin";
                             auth_target_url]
                          work_dir None ;;
       if failed remote_result then ret false else
       push_result <- run ["git"; "push"; "origin"; "HEAD:" ++ branch_name]
                        work_dir None ;;
       if failed push_result then ret false else ret true))
    (ret false).

(** [pr_info['state']], the first subscript [process_pr] applies to the
    fetched document: it needs a pull-request object. *)
Definition as_pull (j : Api.Json) : M Api.PullRequestInfo :=
  match j with
  | Api.JsonPull pr => ret pr
  | Api.JsonObject _ => raise (KeyError "state")
  end.

(** Steps 3 to 6 of [process_pr] (from "Fetching PR information" on), which
    both arms of the repository check of step 2 continue with. *)
Definition process_pr_from_step3 (self : GitHubPRBranchCreator)
  (owner repo : string) (pr_number : Z) (target_commit_sha : option string)
  (target_repo_name : string) : M bool :=
  fetched <- _get_pr_info self owner repo pr_number ;;
  pr_info <- as_pull fetched ;;
  let base_branch := Api.ref (Api.base pr_info) in
  let '(commit_owner, commit_repo, pr_sha) :=
    _get_commit_repo_info pr_info target_commit_sha in
  let main_sha := Api.sha (Api.base pr_info) in
  let main_branch_name :=
    Api.ref (Api.base pr_info) ++ "-" ++ Py.str_of_int pr_number in
  let pr_branch_name := "pr-" ++ Py.str_of_int pr_number in
  let pr_branch_name :=
    if Py.truthy target_commit_sha
    then pr_branch_name ++ "-" ++ Py.take 8 (py_or target_commit_sha "")
    else pr_branch_name in
  let success := true in
  main_exists <- _check_branch_exists self target_repo_name main_branch_name ;;
  success <-
    (if main_exists then ret success
     else
       created <- _create_orphan_branch_with_commit self owner repo
                    target_repo_name main_branch_name main_sha ;;
       if negb created then ret false else ret success) ;;
  pr_exists <- _check_branch_exists self target_repo_name pr_branch_name ;;
  success <-
    (if pr_exists then ret success
     else
       created <- _create_branch_from_base self owner repo target_repo_name
                    pr_branch_name pr_sha main_branch_name ;;
       if negb created then ret false else ret success) ;;
  (if success
   then
     _create_pull_request self target_repo_name pr_branch_name
       main_branch_name pr_info ;;
     ret tt
   else ret tt) ;;
  ret success.

(** [GitHubPRBranchCreator.process_pr] *)
Definition process_pr (self : GitHubPRBranchCreator) (pr_url : string)
  : M bool :=
  try_except
    ('(owner, repo, pr_number, target_commit_sha) <-
       lift (_parse_pr_url pr_url) ;;
     let target_repo_name := owner ++ "-" ++ repo in
     repo_exists <- check_repo_exists self owner repo ;;
     if negb repo_exists then
       created <- _create_repository self owner repo ;;
       if negb created then ret false
       else process_pr_from_step3 self owner repo pr_number target_commit_sha
              target_repo_name
     else process_pr_from_step3 self owner repo pr_number target_commit_sha
            target_repo_name)
    (fun e =>
       match e with
       | ValueError _ => ret false
       | RequestException => ret false
       | _ => ret false
       end).

End Program.

Arguments M : clear implicits.

(** ** A scripted environment

    A stateless collaborator whose answers are functions of the request, to
    run the program on concrete inputs.  The scratch directory is
    [/tmp/work]; it holds [.git] and one file, and no [.github] folder. *)

Definition scripted_env (get : string -> option Api.Response)
  (post : string -> PostData -> option Api.Response)
  (proc : list string -> option CompletedProcess) : Env unit :=
  {| requests_get := fun url _ w => (get url, w);
     requests_post := fun url data _ w => (post url data, w);
     subprocess_run := fun argv _ _ w => (proc argv, w);
     tempdir_create := fun w => (Some "/tmp/work", w);
     tempdir_cleanup := fun _ w => w;
     os_listdir := fun _ w => (Some [".git"; "README.md"], w);
     os_path_isdir := fun _ w => (false, w);
     os_path_exists := fun _ w => (false, w);
     shutil_rmtree := fun _ w => (Some tt, w);
     os_remove := fun _ w => (Some tt, w);
     os_makedirs := fun _ w => (Some tt, w) |}.

Definition demo_self : GitHubPRBranchCreator :=
  {| github_token := "tok";
     target_org := "JulianEgbertMasterThesis";
     headers := [("Authorization", "token tok");
                 ("Accept", "application/vnd.github.v3+json")] |}.

Definition demo_repo (o n : string) : Api.Repository :=
  {| Api.full_name := o ++ "/" ++ n;
     Api.owner := {| Api.login := o |};
     Api.name := n |}.

(** A pull request from the fork [alice/widget] into [org/widget]. *)
Definition fork_pr : Api.PullRequestInfo :=
  {| Api.state := "open";
     Api.merged := Some false;
     Api.base := {| Api.ref := "main"; Api.sha := "b0b0b0b0b0b0";
                    Api.repo := demo_repo "org" "widget" |};
     Api.head := {| Api.ref := "feature"; Api.sha := "cafe0123cafe";
                    Api.repo := demo_repo "alice" "widget" |};
     Api.title := Some "Add gadget";
     Api.body := None;
     Api.html_url := Some "https://github.com/org/widget/pull/42" |}.

(** The same pull request opened from a branch of [org/widget] itself. *)
Definition same_repo_pr : Api.PullRequestInfo :=
  {| Api.state := "open";
     Api.merged := Some false;
     Api.base := Api.base fork_pr;
     Api.head := {| Api.ref := "feature"; Api.sha := "cafe0123cafe";
                    Api.repo := demo_repo "org" "widget" |};
     Api.title := Some "Add gadget";
     Api.body := None;
     Api.html_url := Some "https://github.com/org/widget/pull/42" |}.

Definition reply (status : Z) (j : Api.Json) : Api.Response :=
  {| Api.status_code := status; Api.text := ""; Api.json := j |}.

Definition exit_code (rc : Z) (out : string) : CompletedProcess :=
  {| returncode := rc; stdout := out; stderr := "" |}.

(** ** Vocabulary of the statements *)

(** An HTTP answer with status 200. *)
Definition answered_200 (answer : option Api.Response) : bool :=
  match answer with
  | Some response => Api.status_code response =? 200
  | None => false
  end.

(** The longest prefix of [s] made of characters of the class [p], and
    what follows it. *)
Fixpoint take_while (p : ascii -> bool) (s : string) : string :=
  match s with
  | EmptyString => EmptyString
  | String c s' => if p c then String c (take_while p s') else EmptyString
  end.

Fixpoint drop_while (p : ascii -> bool) (s : string) : string :=
  match s with
  | EmptyString => EmptyString
  | String c s' => if p c then drop_while p s' else s
  end.

Definition is_empty (s : string) : bool :=
  match s with EmptyString => true | String _ _ => false end.

(** The pinned commit read at the point [t] where the PR number ends: the
    longest run of lower-case hexadecimal digits after [/commits/], if that
    run is not empty. *)
Definition scan_commit (t : string) : option string :=
  if Py.startswith "/commits/" t
  then let h := take_while Re.lower_hex (Py.drop 9 t) in
       if is_empty h then None else Some h
  else None.

(** A left-to-right scan of a PR reference, without backtracking: what the
    pattern is shown to compute. *)
Definition scan_pr_url (s : string) : option (list (option string)) :=
  if Py.startswith "https://github.com/" s then
    let s1 := Py.drop 19 s in
    let owner := take_while Re.not_slash s1 in
    let s2 := drop_while Re.not_slash s1 in
    if is_empty owner then None
    else if Py.startswith "/" s2 then
      let s3 := Py.drop 1 s2 in
      let repo := take_while Re.not_slash s3 in
      let s4 := drop_while Re.not_slash s3 in
      if is_empty repo then None
      else if Py.startswith "/pull/" s4 then
        let s5 := Py.drop 6 s4 in
        let number := take_while Py.isdigit s5 in
        let s6 := drop_while Py.isdigit s5 in
        if is_empty number then None
        else Some [Some owner; Some repo; Some number; scan_commit s6]
      else None
    else None
  else None.

(** The class of the first character of [s], false on the empty string. *)
Definition first_in (p : ascii -> bool) (s : string) : bool :=
  match s with
  | EmptyString => false
  | String c _ => p c
  end.

(** An owner or repository segment: not empty, no slash. *)
Definition segment (s : string) : Prop :=
  s <> "" /\ Py.all_chars Re.not_slash s = true.

(** A PR number as written: not empty, decimal digits only. *)
Definition digits (s : string) : Prop :=
  s <> "" /\ Py.all_chars Py.isdigit s = true.

(** [s] begins with [https://github.com/<owner>/<repo>/pull/<digits>]. *)
Definition reference_prefix (s : string) : Prop :=
  exists owner repo number rest : string,
    s = "https://github.com/" ++ owner ++ "/" ++ repo ++ "/pull/" ++ number
        ++ rest
    /\ segment owner /\ segment repo /\ digits number.

(** The same, [number] being the whole run of digits: what follows it does
    not begin with a digit. *)
Definition reference_number (s number : string) : Prop :=
  exists owner repo rest : string,
    s = "https://github.com/" ++ owner ++ "/" ++ repo ++ "/pull/" ++ number
        ++ rest
    /\ segment owner /\ segment repo /\ digits number
    /\ first_in Py.isdigit rest = false.

(** The number of characters of [s], as [len(s)]. *)
Definition len (s : string) : Z := Z.of_nat (String.length s).

(** [s * n]: [n] copies of [s]. *)
Fixpoint copies (n : nat) (s : string) : string :=
  match n with
  | O => ""
  | S n' => s ++ copies n' s
  end.



(** HTTP events, as opposed to the subprocess and file-system events of the
    materializers. *)
Definition is_http (e : Event) : bool :=
  match e with
  | EvGet _ _ _ | EvPost _ _ _ _ => true
  | _ => false
  end.

(** [git commit ...] and [git push ...] subprocess events. *)
Definition is_commit (e : Event) : bool :=
  match e with
  | EvRun ("git" :: "commit" :: _) _ _ _ => true
  | _ => false
  end.

Definition is_push (e : Event) : bool :=
  match e with
  | EvRun ("git" :: "push" :: _) _ _ _ => true
  | _ => false
  end.

(** Whether a subprocess call came back with exit status 0. *)
Definition succeeded (answer : option CompletedProcess) : bool :=
  match answer with
  | Some p => returncode p =? 0
  | None => false
  end.

(** One [Ensure*Branch] step of the orchestrator, seen from outside: given
    the answer to the existence check, the events of the materializer and
    whether the step succeeded.  A branch reported present costs no event;
    otherwise the events and the outcome are those of a call of [create]. *)
Inductive ensure_step {World : Type}
  (create : World -> Result bool * World * list Event)
  (answer : option Api.Response) : list Event -> bool -> Prop :=
| step_present :
    answered_200 answer = true -> ensure_step create answer [] true
| step_created (w w' : World) (created : bool) (work : list Event) :
    answered_200 answer = false ->
    create w = (Ok created, w', work) ->
    ensure_step create answer work created.

(** The branch steps of one run of [process_pr]. *)
Record BranchSteps : Type :=
  { main_branch_name : string;
    pr_branch_name : string;
    main_answer : option Api.Response;
    main_work : list Event;
    main_ok : bool;
    pr_answer : option Api.Response;
    pr_work : list Event;
    pr_ok : bool;
    opening : list Event }.

(** Their events, in order: check and materialization of the base-state
    branch, check and materialization of the PR-state branch, opening of the
    pull request. *)
Definition steps_trace (self : GitHubPRBranchCreator) (target_repo : string)
  (b : BranchSteps) : list Event :=
  ((EvGet (branch_url self target_repo (main_branch_name b)) (headers self)
      (main_answer b)
    :: main_work b)
   ++ (EvGet (branch_url self target_repo (pr_branch_name b)) (headers self)
         (pr_answer b)
       :: pr_work b)
   ++ opening b)%list.

(** [emits P m]: every event of every run of [m] satisfies [P]. *)
Definition emits {World A : Type} (P : Event -> Prop) (m : M World A)
  : Prop :=
  forall w : World, Forall P (trace_of (m w)).

(** Neither a commit nor a push. *)
Definition quiet (e : Event) : Prop := is_commit e = false /\ is_push e = false.

(** The boolean a materializer returns for the outcome of its body: an
    exception is caught and turned into [False]. *)
Definition caught (r : Result bool) : bool :=
  match r with
  | Ok b => b
  | Raise _ => false
  end.

(** [after target post x]: in the run [x], an event satisfying [target] is
    preceded by quiet events only, and what follows it and the outcome of
    the run satisfy [post]. *)
Definition after {World : Type} (target : Event -> Prop)
  (post : Event -> list Event -> bool -> Prop)
  (x : Result bool * World * list Event) : Prop :=
  forall e : Event,
    In e (trace_of x) -> target e ->
    exists pre suf : list Event,
      trace_of x = (pre ++ e :: suf)%list
      /\ Forall quiet pre
      /\ post e suf (caught (result_of x)).

(** A [git commit] that exits with a failure. *)
Definition failed_commit (e : Event) : Prop :=
  exists argv cwd p,
    e = EvRun ("git" :: "commit" :: argv) cwd None (Some p)
    /\ returncode p <> 0.

(** A [git commit] that exits with a failure and reports
    "nothing to commit" on standard output. *)
Definition nothing_to_commit (e : Event) : Prop :=
  exists argv cwd p,
    e = EvRun ("git" :: "commit" :: argv) cwd None (Some p)
    /\ returncode p <> 0
    /\ Py.contains "nothing to commit" (stdout p) = true.

(** The directory a subprocess event ran in. *)
Definition cwd_of (e : Event) : string :=
  match e with
  | EvRun _ cwd _ _ => cwd
  | _ => ""
  end.

(** A collaborator in which [git commit] finds nothing to commit and every
    other subprocess succeeds. *)
Definition nothing_to_commit_exit : CompletedProcess :=
  exit_code 1 "On branch pr-42 nothing to commit, working tree clean".

Definition no_op_env : Env unit :=
  scripted_env (fun _ => None) (fun _ _ => None)
    (fun argv =>
       match argv with
       | "git" :: "commit" :: _ => Some nothing_to_commit_exit
       | _ => Some (exit_code 0 "")
       end).

Definition no_op_commit (kind cwd : string) : Event :=
  EvRun ["git"; "commit"; "-m"; kind ++ " Commit cafe0123cafe"] cwd None
    (Some nothing_to_commit_exit).

(** The name [process_pr] gives the PR-state branch. *)
Definition pr_branch_name_of (pr_number : Z) (target_commit_sha : option string)
  : string :=
  if Py.truthy target_commit_sha
  then ("pr-" ++ Py.str_of_int pr_number) ++ "-"
       ++ Py.take 8 (py_or target_commit_sha "")
  else "pr-" ++ Py.str_of_int pr_number.

(** [b] describes the branch steps [process_pr] runs for the pull request
    [pr_info]: the two names, one [Ensure*Branch] step for each branch, the
    pull request opened when both succeeded, and their conjunction. *)
Definition branch_steps_of {World : Type} (env : Env World)
  (self : GitHubPRBranchCreator) (owner repo : string) (pr_number : Z)
  (target_commit_sha : option string) (pr_info : Api.PullRequestInfo)
  (b : BranchSteps) : Prop :=
  let target_repo_name := owner ++ "-" ++ repo in
  main_branch_name b
  = Api.ref (Api.base pr_info) ++ "-" ++ Py.str_of_int pr_number
  /\ pr_branch_name b = pr_branch_name_of pr_number target_commit_sha
  /\ ensure_step
       (_create_orphan_branch_with_commit env self owner repo
          target_repo_name (main_branch_name b) (Api.sha (Api.base pr_info)))
       (main_answer b) (main_work b) (main_ok b)
  /\ ensure_step
       (_create_branch_from_base env self owner repo target_repo_name
          (pr_branch_name b)
          (snd (_get_commit_repo_info pr_info target_commit_sha))
          (main_branch_name b))
       (pr_answer b) (pr_work b) (pr_ok b)
  /\ exists answer,
       opening b
       = if (main_ok b && pr_ok b)%bool
         then [EvPost (pull_request_url self target_repo_name)
                 (pull_request_data (pr_branch_name b) (main_branch_name b)
                    pr_info)
                 (headers self) answer]
         else [].

(** An HTTP answer with status 201. *)
Definition answered_201 (answer : option Api.Response) : bool :=
  match answer with
  | Some response => Api.status_code response =? 201
  | None => false
  end.

(** The [data] of the request that creates the mirror repository. *)
Definition repository_data (owner repo : string) : PostData :=
  RepoData (owner ++ "-" ++ repo) ("Copy of " ++ owner ++ "/" ++ repo)
    true true false false.

(** The pull request read from the answer to the fetch of step 3, if any:
    the request must be answered, with a status outside 400..599 and a
    pull-request object. *)
Definition fetched (answer : option Api.Response)
  : option Api.PullRequestInfo :=
  match answer with
  | None => None
  | Some response =>
      if ((400 <=? Api.status_code response)
          && (Api.status_code response <? 600))%bool
      then None
      else match Api.json response with
           | Api.JsonPull pr_info => Some pr_info
           | Api.JsonObject _ => None
           end
  end.

(** The events of a step 2 of [process_pr] that succeeds: the repository
    check answered with status 200, or that check answered otherwise and
    followed by the creation request answered with status 201. *)
Definition provisioning (self : GitHubPRBranchCreator) (owner repo : string)
  (pre : list Event) : Prop :=
  exists a0,
    (answered_200 a0 = true
     /\ pre = [EvGet (repo_url self owner repo) (headers self) a0])
    \/ (answered_200 a0 = false
        /\ exists a1,
             answered_201 a1 = true
             /\ pre = [EvGet (repo_url self owner repo) (headers self) a0;
                       EvPost (org_repos_url self)
                         (repository_data owner repo) (headers self) a1]).

(** A run of [process_pr] that ends before the branch steps, and why.  The
    result is [False] and one of three things happened: the URL does not
    parse, and nothing was requested; or the repository was reported
    missing and its creation was not answered with status 201, and that
    request is the last; or, the repository being there, the fetch of the
    pull request gave no pull request, and that request is the last. *)
Definition early_exit {World : Type} (self : GitHubPRBranchCreator)
  (url : string) (x : Result bool * World * list Event) : Prop :=
  result_of x = Ok false
  /\ ((exists e, _parse_pr_url url = Raise e /\ trace_of x = [])
      \/ exists owner repo n sha,
           _parse_pr_url url = Ok (owner, repo, n, sha)
           /\ ((exists a0 a1,
                   answered_200 a0 = false
                   /\ answered_201 a1 = false
                   /\ trace_of x
                      = [EvGet (repo_url self owner repo) (headers self) a0;
                         EvPost (org_repos_url self)
                           (repository_data owner repo) (headers self) a1])
               \/ exists pre a,
                    provisioning self owner repo pre
                    /\ fetched a = None
                    /\ trace_of x
                       = (pre ++ [EvGet (pr_info_url owner repo n)
                                    (headers self) a])%list)).

(** A run of [process_pr] that reaches the branch steps for the pull request
    [pr_info]: the URL parses, step 2 succeeds, the fetch gives [pr_info],
    and the steps [b] follow. *)
Definition reaches_branch_steps {World : Type} (env : Env World)
  (self : GitHubPRBranchCreator) (url : string)
  (x : Result bool * World * list Event)
  (owner repo : string) (n : Z) (sha : option string)
  (pr_info : Api.PullRequestInfo) (b : BranchSteps) : Prop :=
  _parse_pr_url url = Ok (owner, repo, n, sha)
  /\ branch_steps_of env self owner repo n sha pr_info b
  /\ result_of x = Ok (main_ok b && pr_ok b)%bool
  /\ exists pre response,
       provisioning self owner repo pre
       /\ fetched (Some response) = Some pr_info
       /\ Api.json response = Api.JsonPull pr_info
       /\ trace_of x
          = (pre ++ EvGet (pr_info_url owner repo n) (headers self)
                      (Some response)
                    :: steps_trace self (owner ++ "-" ++ repo) b)%list.

(** What the collaborators answer to the first requests of a run on the
    repository [owner/repo] and the pull request [n], started in the world
    [w]: the repository check, the creation request that follows a check
    not answered with status 200, and the fetch of the pull request. *)
Definition check_answer {World : Type} (env : Env World)
  (self : GitHubPRBranchCreator) (owner repo : string) (w : World)
  : option Api.Response * World :=
  requests_get env (repo_url self owner repo) (headers self) w.

Definition creation_answer {World : Type} (env : Env World)
  (self : GitHubPRBranchCreator) (owner repo : string) (w : World)
  : option Api.Response * World :=
  requests_post env (org_repos_url self) (repository_data owner repo)
    (headers self) (snd (check_answer env self owner repo w)).

Definition provisioned {World : Type} (env : Env World)
  (self : GitHubPRBranchCreator) (owner repo : string) (w : World) : bool :=
  (answered_200 (fst (check_answer env self owner repo w))
   || answered_201 (fst (creation_answer env self owner repo w)))%bool.

Definition fetch_answer {World : Type} (env : Env World)
  (self : GitHubPRBranchCreator) (owner repo : string) (n : Z) (w : World)
  : option Api.Response :=
  let w1 :=
    if answered_200 (fst (check_answer env self owner repo w))
    then snd (check_answer env self owner repo w)
    else snd (creation_answer env self owner repo w) in
  fst (requests_get env (pr_info_url owner repo n) (headers self) w1).

(** A collaborator for a rerun: the repository and every branch exist, the
    pull request is [same_repo_pr], and opening a pull request answers
    201. *)
Definition rerun_env : Env unit :=
  scripted_env
    (fun url =>
       if String.eqb url (pr_info_url "org" "widget" 42)
       then Some (reply 200 (Api.JsonPull same_repo_pr))
       else Some (reply 200 (Api.JsonObject Api.no_members)))
    (fun _ _ => Some (reply 201 (Api.JsonObject Api.no_members)))
    (fun _ => None).

(** A collaborator for a first run in which nothing exists yet and [git]
    cannot even clone: both materializers fail. *)
Definition broken_git_env : Env unit :=
  scripted_env
    (fun url =>
       if String.eqb url (pr_info_url "org" "widget" 42)
       then Some (reply 200 (Api.JsonPull same_repo_pr))
       else if String.eqb url (repo_url demo_self "org" "widget")
       then Some (reply 200 (Api.JsonObject Api.no_members))
       else Some (reply 404
                   (Api.JsonObject (Api.member "message" "Not Found"))))
    (fun _ _ => Some (reply 201 (Api.JsonObject Api.no_members)))
    (fun _ => Some (exit_code 128 "")).

(** The answer of the REST collaborator when the pull request is there
    already. *)
Definition already_exists_422 : Api.Response :=
  reply 422
    (Api.JsonObject
       (Api.member "message" "A pull request already exists for org:pr-42.")).

(** ** The script's entry point *)

(** How a run of the script ends: [main] returns, [sys.exit(code)] is
    called, or an exception reaches the top level. *)
Inductive Termination : Type :=
| Returned
| SystemExit (code : Z)
| Uncaught (e : exn).

(** The exit status the interpreter reports for each. *)
Definition exit_status (t : Termination) : Z :=
  match t with
  | Returned => 0
  | SystemExit code => code
  | Uncaught _ => 1
  end.

Section Script.

Context {World : Type} (env : Env World).

(** [main]; [environ] is [os.environ.get('GITHUB_TOKEN')] and [line] is the
    line [input] reads from the user. *)
Definition main (environ : option string) (line : string)
  : World -> Termination * World * list Event :=
  fun w =>
    let github_token := environ in
    let pr_url := Py.strip line in
    if negb (Py.truthy (Some pr_url)) then (SystemExit 1, w, [])
    else
      match __init__ github_token environ with
      | Raise e => (Uncaught e, w, [])
      | Ok processor =>
          let '(r, w', t) := process_pr env processor pr_url w in
          match r with
          | Ok success =>
              if success then (Returned, w', t) else (SystemExit 1, w', t)
          | Raise e => (Uncaught e, w', t)
          end
      end.

End Script.

(** ** Vocabulary of the further statements *)

(** The commands whose exit status a materializer does not look at. *)
Definition is_config (argv : list string) : bool :=
  match argv with
  | "git" :: "config" :: _ => true
  | _ => false
  end.

Definition is_commit_argv (argv : list string) : bool :=
  match argv with
  | "git" :: "commit" :: _ => true
  | _ => false
  end.

(** A step that makes a materializer give up: a call that raises, or a
    subprocess that exits with a failure which [tolerated] does not
    excuse. *)
Definition step_failed (tolerated : list string -> CompletedProcess -> bool)
  (e : Event) : bool :=
  match e with
  | EvRun argv _ _ None => true
  | EvRun argv _ _ (Some p) =>
      (negb (returncode p =? 0) && negb (tolerated argv p))%bool
  | EvListdir _ None | EvRmtree _ None | EvRemove _ None
  | EvMakedirs _ None => true
  | _ => false
  end.

(** What [_create_orphan_branch_with_commit] lets pass: a failing
    [git config]. *)
Definition orphan_tolerates (argv : list string) (p : CompletedProcess)
  : bool := is_config argv.

(** What [_create_branch_from_base] lets pass: a failing [git config], and
    a commit that reports "nothing to commit". *)
Definition from_base_tolerates (argv : list string) (p : CompletedProcess)
  : bool :=
  (is_config argv
   || (is_commit_argv argv
       && Py.contains "nothing to commit" (stdout p)))%bool.

(** [at_event target P t0 x]: at every occurrence of a [target] event in
    the run [x], which comes after the events [t0], [P] holds of the events
    before it, the event, the events after it and the boolean made of the
    outcome. *)
Definition at_event {World : Type} (target : Event -> bool)
  (P : list Event -> Event -> list Event -> bool -> Prop)
  (t0 : list Event) (x : Result bool * World * list Event) : Prop :=
  forall (pre : list Event) (e : Event) (suf : list Event),
    trace_of x = (pre ++ e :: suf)%list ->
    target e = true ->
    P (t0 ++ pre)%list e suf (caught (result_of x)).

(** [fragile target m]: a run of [m] that returns has no [target] event,
    and one that raises has none before its last event. *)
Definition fragile {World A : Type} (target : Event -> bool) (m : M World A)
  : Prop :=
  forall w : World,
    match m w with
    | (Ok _, _, t) => Forall (fun e => target e = false) t
    | (Raise _, _, t) =>
        exists pre e,
          t = (pre ++ [e])%list /\ Forall (fun e => target e = false) pre
    end.

(** [git add ...] and [git push ...] events, and a push that exited with
    status 0. *)
Definition is_add (e : Event) : bool :=
  match e with
  | EvRun ("git" :: "add" :: _) _ _ _ => true
  | _ => false
  end.


(** The workflow folder of the directory [git add] runs in was looked for
    just before, and removed if it was there. *)
Definition workflows_cleared (pre : list Event) (e : Event) : Prop :=
  let path := Py.path_join (cwd_of e) ".github" in
  exists pre0 : list Event,
    pre = (pre0 ++ [EvExists path false])%list
    \/ pre = (pre0 ++ [EvExists path true; EvRmtree path (Some tt)])%list.

(** The request that creates a repository. *)
Definition is_repo_creation (e : Event) : bool :=
  match e with
  | EvPost _ (RepoData _ _ _ _ _ _) _ _ => true
  | _ => false
  end.


(** What [P] has to hold of for it to hold of every event of steps 3 to 6
    of [process_pr] on the repository [owner/repo] and the pull request
    [n]: the requests and the two materializers. *)
Definition holds_from_step3 {World : Type} (env : Env World)
  (P : Event -> Prop) (self : GitHubPRBranchCreator) (owner repo : string)
  (n : Z) : Prop :=
  let target := owner ++ "-" ++ repo in
  (forall a, P (EvGet (pr_info_url owner repo n) (headers self) a))
  /\ (forall branch a,
         P (EvGet (branch_url self target branch) (headers self) a))
  /\ (forall head base pr_info a,
         P (EvPost (pull_request_url self target)
              (pull_request_data head base pr_info) (headers self) a))
  /\ (forall branch commit_sha,
         emits P (_create_orphan_branch_with_commit env self owner repo
                    target branch commit_sha))
  /\ (forall branch commit_sha base,
         emits P (_create_branch_from_base env self owner repo target
                    branch commit_sha base)).

(** The same for a whole run: the two requests of step 2 come first. *)
Definition holds_of_the_parts {World : Type} (env : Env World)
  (P : Event -> Prop) (self : GitHubPRBranchCreator) (owner repo : string)
  (n : Z) : Prop :=
  (forall a, P (EvGet (repo_url self owner repo) (headers self) a))
  /\ (forall a,
         P (EvPost (org_repos_url self)
              (RepoData (owner ++ "-" ++ repo)
                 ("Copy of " ++ owner ++ "/" ++ repo) true true false false)
              (headers self) a))
  /\ holds_from_step3 env P self owner repo n.

(** The repository a [git clone] event clones. *)
Definition clone_source (e : Event) : option string :=
  match e with
  | EvRun ("git" :: "clone" :: source :: _) _ _ _ => Some source
  | _ => None
  end.

(** The [original_url] and the [auth_target_url] of the materializers. *)
Definition source_clone_url (owner repo : string) : string :=
  "https://github.com/" ++ owner ++ "/" ++ repo ++ ".git".

Definition mirror_clone_url (self : GitHubPRBranchCreator)
  (target_repo : string) : string :=
  Py.replace "https://" ("https://" ++ github_token self ++ "@")
    ("https://github.com/" ++ target_org self ++ "/" ++ target_repo ++ ".git").

(** What a [git clone] event of a run on [url] may clone: the repository
    named in the URL, or its mirror. *)
Definition clones_what_the_url_names (self : GitHubPRBranchCreator)
  (url : string) (e : Event) : Prop :=
  forall source : string,
    clone_source e = Some source ->
    exists owner repo n sha,
      _parse_pr_url url = Ok (owner, repo, n, sha)
      /\ (source = source_clone_url owner repo
          \/ source = mirror_clone_url self (owner ++ "-" ++ repo)).



(** The creation and the removal of a scratch directory. *)
Definition is_scratch (e : Event) : bool :=
  match e with
  | EvTempDir _ | EvCleanup _ => true
  | _ => false
  end.

(** The life of the scratch directory in the trace [t] of a materializer
    that returned [r]: its creation failed, nothing else happened and [r]
    is [False]; or it was created first and removed last, and what happened
    in between involved no other scratch directory and no HTTP request. *)
Definition scratch_lifecycle (r : Result bool) (t : list Event) : Prop :=
  (t = [EvTempDir None] /\ r = Ok false)
  \/ exists (d : string) (work : list Event),
       t = (EvTempDir (Some d) :: work ++ [EvCleanup d])%list
       /\ Forall (fun e => is_scratch e = false /\ is_http e = false) work.





(** * Properties *)

(** ** Sanity checks of the Python primitives *)

Example parse_plain :
  _parse_pr_url "https://github.com/octo/widget/pull/42"
  = Ok ("octo", "widget", 42, None).
Proof. reflexivity. Qed.

Example parse_pinned :
  _parse_pr_url "  https://github.com/octo/widget/pull/42/commits/0a1b2c3d4e  "
  = Ok ("octo", "widget", 42, Some "0a1b2c3d4e").
Proof. reflexivity. Qed.

Example parse_junk :
  _parse_pr_url "https://github.com/octo/widget/pull/42/commits/abcXYZ"
  = Ok ("octo", "widget", 42, Some "abc").
Proof. reflexivity. Qed.

Example parse_bad :
  _parse_pr_url "https://gitlab.com/octo/widget/pull/42"
  = Raise (ValueError "Invalid GitHub PR URL format: https://gitlab.com/octo/widget/pull/42").
Proof. reflexivity. Qed.

Example parse_upper_case_commit :
  _parse_pr_url "https://github.com/octo/widget/pull/42/commits/XYZ"
  = Ok ("octo", "widget", 42, None).
Proof. reflexivity. Qed.

Example parse_leading_zeros :
  _parse_pr_url "https://github.com/a b/c.d/pull/007x"
  = Ok ("a b", "c.d", 7, None).
Proof. reflexivity. Qed.

Example parse_empty_owner :
  _parse_pr_url "https://github.com//widget/pull/42"
  = Raise (ValueError
             "Invalid GitHub PR URL format: https://github.com//widget/pull/42").
Proof. reflexivity. Qed.

Example parse_extra_segment :
  _parse_pr_url "https://github.com/o/r/x/pull/42"
  = Raise (ValueError
             "Invalid GitHub PR URL format: https://github.com/o/r/x/pull/42").
Proof. reflexivity. Qed.

Example parse_control_blanks :
  _parse_pr_url
    (String (ascii_of_nat 31)
       ("https://github.com/o/r/pull/1"
        ++ String (ascii_of_nat 133) (String (ascii_of_nat 160) "")))
  = Ok ("o", "r", 1, None).
Proof. reflexivity. Qed.

Example lower_latin1 :
  Py.lower "Already EXISTS" = "already exists"
  /\ Py.lower (String (ascii_of_nat 192) (String (ascii_of_nat 215) ""))
     = String (ascii_of_nat 224) (String (ascii_of_nat 215) "").
Proof. split; reflexivity. Qed.

Example path_join_ex :
  Py.path_join "/tmp/x" "target" = "/tmp/x/target"
  /\ Py.path_join "/tmp/x/" "a" = "/tmp/x/a"
  /\ Py.path_join "" "a" = "a"
  /\ Py.path_join "/tmp" "/abs" = "/abs".
Proof. repeat split; reflexivity. Qed.

Example str_42 :
  Py.str_of_int 42 = "42" /\ Py.str_of_int 0 = "0"
  /\ Py.str_of_int (-5) = "-5".
Proof. repeat split; reflexivity. Qed.

Example replace_ex :
  Py.replace "https://" "https://tok@" "https://github.com/a/https://b"
  = "https://tok@github.com/a/https://tok@b".
Proof. reflexivity. Qed.



(** ** Commit locator *)

(** C1. The commit locator answers with the head repository's owner and
    name when the two full names differ, and with the base repository's
    owner and name when they are equal. *)
Theorem commit_locator_fork_resolution :
  forall (pr_info : Api.PullRequestInfo) (target_commit_sha : option string),
    let head_repo := Api.repo (Api.head pr_info) in
    let base_repo := Api.repo (Api.base pr_info) in
    let located := fst (_get_commit_repo_info pr_info target_commit_sha) in
    (Api.full_name head_repo <> Api.full_name base_repo ->
     located = (Api.login (Api.owner head_repo), Api.name head_repo))
    /\ (Api.full_name head_repo = Api.full_name base_repo ->
        located = (Api.login (Api.owner base_repo), Api.name base_repo)).
Proof.
  intros pr_info target_commit_sha head_repo base_repo located.
  subst located head_repo base_repo.
  unfold _get_commit_repo_info.
  destruct (String.eqb_spec
              (Api.full_name (Api.repo (Api.head pr_info)))
              (Api.full_name (Api.repo (Api.base pr_info)))) as [Heq | Hne];
    simpl; split; intro H; try reflexivity; contradiction.
Qed.

Lemma commit_locator_fork_resolution_witness :
  fst (_get_commit_repo_info fork_pr None) = ("alice", "widget")
  /\ fst (_get_commit_repo_info same_repo_pr None) = ("org", "widget").
Proof.
  split.
  - apply (proj1 (commit_locator_fork_resolution fork_pr None)).
    vm_compute. discriminate.
  - apply (proj2 (commit_locator_fork_resolution same_repo_pr None)).
    vm_compute. reflexivity.
Defined.

(** C2. A supplied, non-empty pinned SHA is the SHA the commit locator
    returns; without one it returns the head SHA of the pull request.  Both
    hold for every pull request, fork-based or not. *)
Theorem commit_locator_pinned_precedence :
  forall (pr_info : Api.PullRequestInfo),
    (forall pinned : string,
        pinned <> "" ->
        snd (_get_commit_repo_info pr_info (Some pinned)) = pinned)
    /\ snd (_get_commit_repo_info pr_info None) = Api.sha (Api.head pr_info).
Proof.
  intro pr_info. unfold _get_commit_repo_info. split.
  - intros pinned Hne. destruct pinned as [| c s]; [contradiction |].
    destruct (negb _); reflexivity.
  - destruct (negb _); reflexivity.
Qed.

Lemma commit_locator_pinned_precedence_witness :
  snd (_get_commit_repo_info fork_pr (Some "0a1b2c3d4e")) = "0a1b2c3d4e"
  /\ snd (_get_commit_repo_info same_repo_pr (Some "0a1b2c3d4e")) = "0a1b2c3d4e".
Proof.
  split.
  - apply (proj1 (commit_locator_pinned_precedence fork_pr)). discriminate.
  - apply (proj1 (commit_locator_pinned_precedence same_repo_pr)). discriminate.
Defined.

(** ** Repository provisioner *)

Section Http.

Context {World : Type} (env : Env World).

Lemma check_repo_exists_run :
  forall (self : GitHubPRBranchCreator) (owner repo : string) (w : World),
    check_repo_exists env self owner repo w
    = let a := requests_get env (repo_url self owner repo) (headers self) w in
      (Ok (answered_200 (fst a)), snd a,
       [EvGet (repo_url self owner repo) (headers self) (fst a)]).
Proof.
  intros self owner repo w.
  unfold check_repo_exists, except_request, try_except, bind, http_get.
  cbv zeta.
  destruct (requests_get env _ (headers self) w) as [[response |] w'];
    reflexivity.
Qed.

Lemma check_branch_exists_run :
  forall (self : GitHubPRBranchCreator) (target_repo branch_name : string)
         (w : World),
    _check_branch_exists env self target_repo branch_name w
    = let a := requests_get env (branch_url self target_repo branch_name)
                 (headers self) w in
      (Ok (answered_200 (fst a)), snd a,
       [EvGet (branch_url self target_repo branch_name) (headers self)
          (fst a)]).
Proof.
  intros self target_repo branch_name w.
  unfold _check_branch_exists, except_request, try_except, bind, http_get.
  cbv zeta.
  destruct (requests_get env _ (headers self) w) as [[response |] w'];
    reflexivity.
Qed.

Lemma create_pull_request_run :
  forall (self : GitHubPRBranchCreator)
         (target_repo head_branch base_branch : string)
         (pr_info : Api.PullRequestInfo) (w : World),
    exists b : bool,
      _create_pull_request env self target_repo head_branch base_branch
        pr_info w
      = let a := requests_post env (pull_request_url self target_repo)
                   (pull_request_data head_branch base_branch pr_info)
                   (headers self) w in
        (Ok b, snd a,
         [EvPost (pull_request_url self target_repo)
            (pull_request_data head_branch base_branch pr_info)
            (headers self) (fst a)]).
Proof.
  intros self target_repo head_branch base_branch pr_info w.
  unfold _create_pull_request, except_request, try_except, bind, http_post.
  cbv zeta.
  destruct (requests_post env _ _ (headers self) w) as [[response |] w'];
    simpl.
  - destruct (Api.status_code response =? 201);
      [| destruct (Api.status_code response =? 422);
         [destruct (Py.contains _ _) |]];
      eexists; reflexivity.
  - eexists; reflexivity.
Qed.

Lemma create_repository_run :
  forall (self : GitHubPRBranchCreator) (owner repo : string) (w : World),
    _create_repository env self owner repo w
    = let a := requests_post env (org_repos_url self)
                 (repository_data owner repo) (headers self) w in
      (Ok (answered_201 (fst a)), snd a,
       [EvPost (org_repos_url self) (repository_data owner repo)
          (headers self) (fst a)]).
Proof.
  intros self owner repo w.
  unfold _create_repository, _create_empty_repository, repository_data,
    except_request, try_except, bind, http_post.
  cbv zeta.
  destruct (requests_post env _ _ (headers self) w) as [[response |] w'];
    cbn [fst snd answered_201]; [| reflexivity].
  destruct (Api.status_code response =? 201); reflexivity.
Qed.

End Http.

(** C9. [check_repo_exists] makes one GET and returns true exactly when it
    is answered with status 200; any other status, and a request that
    raises, give false. *)
Theorem check_repo_exists_iff_200 :
  forall (World : Type) (env : Env World) (self : GitHubPRBranchCreator)
         (owner repo : string) (w : World),
    let url := "https://api.github.com/repos/" ++ target_org self ++ "/"
               ++ owner ++ "-" ++ repo in
    let answer := fst (requests_get env url (headers self) w) in
    trace_of (check_repo_exists env self owner repo w)
    = [EvGet url (headers self) answer]
    /\ (result_of (check_repo_exists env self owner repo w) = Ok true
        \/ result_of (check_repo_exists env self owner repo w) = Ok false)
    /\ (result_of (check_repo_exists env self owner repo w) = Ok true
        <-> exists response,
            answer = Some response /\ Api.status_code response = 200).
Proof.
  intros World env self owner repo w url answer. subst url answer.
  rewrite check_repo_exists_run. unfold repo_url, result_of, trace_of.
  cbv zeta. simpl fst. simpl snd.
  destruct (fst (requests_get env _ (headers self) w)) as [response |];
    simpl.
  - split; [reflexivity |].
    destruct (Z.eqb_spec (Api.status_code response) 200) as [H | H].
    + split; [left; reflexivity |].
      split; [intros _; exists response; auto | reflexivity].
    + split; [right; reflexivity |].
      split; [discriminate |].
      intros [r [Hr Hs]]. injection Hr as <-. contradiction.
  - split; [reflexivity |]. split; [right; reflexivity |].
    split; [discriminate |]. intros [r [Hr _]]. discriminate.
Qed.

(** ** Pull-request opener *)

Lemma startswith_lower :
  forall p s : string,
    Py.startswith p s = true ->
    Py.startswith (Py.lower p) (Py.lower s) = true.
Proof.
  induction p as [| a p IH]; intros s H; [reflexivity |].
  destruct s as [| b s]; [discriminate |].
  simpl in *. apply andb_true_iff in H. destruct H as [Hab Hps].
  apply Ascii.eqb_eq in Hab. subst b.
  rewrite Ascii.eqb_refl. simpl. apply IH. exact Hps.
Qed.

Lemma contains_lower :
  forall sub s : string,
    Py.contains sub s = true ->
    Py.contains (Py.lower sub) (Py.lower s) = true.
Proof.
  intros sub s. induction s as [| c s IH]; intro H.
  - destruct sub; [reflexivity | discriminate].
  - simpl in H. apply orb_true_iff in H. destruct H as [H | H].
    + apply startswith_lower in H. simpl Py.lower.
      unfold Py.contains; fold Py.contains.
      simpl Py.lower in H. rewrite H. reflexivity.
    + simpl Py.lower. unfold Py.contains; fold Py.contains.
      rewrite (IH H). apply orb_true_r.
Qed.

(** C8, as the code has it.  [_create_pull_request] makes one POST and
    returns success on status 201, and on status 422 when the lower-cased
    [message] of the body contains "already exists" (the test ignores case;
    a message that contains "already exists" as written passes it).  A 422
    whose lower-cased message lacks it, every other status, and a request
    that raises, give failure. *)
Theorem create_pull_request_outcome :
  forall (World : Type) (env : Env World) (self : GitHubPRBranchCreator)
         (target_repo head_branch base_branch : string)
         (pr_info : Api.PullRequestInfo) (w : World),
    let answer :=
      fst (requests_post env (pull_request_url self target_repo)
             (pull_request_data head_branch base_branch pr_info)
             (headers self) w) in
    let result :=
      result_of (_create_pull_request env self target_repo head_branch
                   base_branch pr_info w) in
    (forall response,
        answer = Some response ->
        let message := Api.get_message (Api.json response) "" in
        (Api.status_code response = 201 -> result = Ok true)
        /\ (Api.status_code response = 422 ->
            Py.contains "already exists" (Py.lower message) = true ->
            result = Ok true)
        /\ (Api.status_code response = 422 ->
            Py.contains "already exists" message = true ->
            result = Ok true)
        /\ (Api.status_code response = 422 ->
            Py.contains "already exists" (Py.lower message) = false ->
            result = Ok false)
        /\ (Api.status_code response <> 201 ->
            Api.status_code response <> 422 ->
            result = Ok false))
    /\ (answer = None -> result = Ok false).
Proof.
  intros World env self target_repo head_branch base_branch pr_info w.
  unfold _create_pull_request, except_request, try_except, bind, http_post,
    result_of.
  cbv zeta.
  destruct (requests_post env _ _ (headers self) w) as [[response |] w'] eqn:E;
    simpl.
  - split; [| discriminate].
    intros response' Hresp. injection Hresp as <-.
    destruct (Z.eqb_spec (Api.status_code response) 201) as [H201 | H201].
    + simpl. repeat split; intros; try reflexivity; lia.
    + destruct (Z.eqb_spec (Api.status_code response) 422) as [H422 | H422].
      * destruct (Py.contains "already exists"
                    (Py.lower (Api.get_message (Api.json response) "")))
          eqn:Hc; simpl; repeat split; intros; try reflexivity;
          try contradiction; try discriminate.
        match goal with
        | H : Py.contains _ (Api.get_message _ _) = true |- _ =>
            apply contains_lower in H;
            change (Py.lower "already exists") with "already exists" in H;
            rewrite H in Hc; discriminate
        end.
      * simpl. repeat split; intros; try reflexivity; contradiction.
  - split; [discriminate | reflexivity].
Qed.

Lemma create_pull_request_outcome_witness :
  result_of
    (_create_pull_request
       (scripted_env (fun _ => None) (fun _ _ => Some already_exists_422)
          (fun _ => None))
       demo_self "org-widget" "pr-42" "main-42" fork_pr tt)
  = Ok true.
Proof.
  refine (proj1 (proj2 (proj2
    (proj1 (create_pull_request_outcome unit
              (scripted_env (fun _ => None)
                 (fun _ _ => Some already_exists_422) (fun _ => None))
              demo_self "org-widget" "pr-42" "main-42" fork_pr tt)
       already_exists_422 _))) _ _);
    reflexivity.
Defined.

(** C8 as worded fails: this 422 message lacks the substring
    "already exists" (it has "Already Exists"), yet the call succeeds. *)
Lemma create_pull_request_mixed_case_succeeds :
  let response :=
    reply 422
      (Api.JsonObject
         (Api.member "message"
            "A pull request Already Exists for org:pr-42.")) in
  let env := scripted_env (fun _ => None) (fun _ _ => Some response)
               (fun _ => None) in
  Api.status_code response = 422
  /\ Py.contains "already exists" (Api.get_message (Api.json response) "")
     = false
  /\ result_of (_create_pull_request env demo_self "org-widget" "pr-42"
                  "main-42" fork_pr tt)
     <> Ok false.
Proof.
  cbv zeta. split; [reflexivity |]. split; [reflexivity |].
  vm_compute. discriminate.
Qed.
(** ** URL resolver *)

Lemma star_longest_some :
  forall (R : Type) (cls : ascii -> bool) (s : string)
         (k : string -> option R) (r : R),
    k (drop_while cls s) = Some r -> Re.star cls s k = Some r.
Proof.
  intros R cls s k r. induction s as [| c s IH]; simpl; intro H.
  - exact H.
  - destruct (cls c); [rewrite (IH H); reflexivity | exact H].
Qed.

Lemma star_longest_only :
  forall (R : Type) (cls : ascii -> bool) (s : string)
         (k : string -> option R),
    (forall c t, cls c = true -> k (String c t) = None) ->
    Re.star cls s k = k (drop_while cls s).
Proof.
  intros R cls s k Hk. induction s as [| c s IH]; simpl.
  - reflexivity.
  - destruct (cls c) eqn:Hc; [| reflexivity].
    rewrite IH. destruct (k (drop_while cls s)); [reflexivity |].
    apply Hk. exact Hc.
Qed.

Lemma plus_scan :
  forall (R : Type) (cls : ascii -> bool) (s : string)
         (k : string -> option R),
    (k (drop_while cls s) <> None
     \/ forall c t, cls c = true -> k (String c t) = None) ->
    Re.plus cls s k
    = if is_empty (take_while cls s) then None else k (drop_while cls s).
Proof.
  intros R cls s k H. destruct s as [| c s]; simpl; [reflexivity |].
  destruct (cls c) eqn:Hc; simpl; [| reflexivity].
  destruct H as [H | H].
  - simpl in H. rewrite Hc in H.
    destruct (k (drop_while cls s)) as [r |] eqn:E; [| contradiction].
    apply star_longest_some. exact E.
  - apply star_longest_only. exact H.
Qed.

Lemma length_drop_while_le :
  forall (cls : ascii -> bool) (s : string),
    (String.length (drop_while cls s) <= String.length s)%nat.
Proof.
  intros cls s. induction s as [| c s IH]; simpl; [lia |].
  destruct (cls c); simpl; lia.
Qed.

Lemma consumed_drop_while :
  forall (cls : ascii -> bool) (s : string),
    Re.consumed s (drop_while cls s) = take_while cls s.
Proof.
  intros cls s. unfold Re.consumed. induction s as [| c s IH].
  - reflexivity.
  - cbn [drop_while take_while]. destruct (cls c) eqn:Hc.
    + pose proof (length_drop_while_le cls s) as Hle.
      cbn [String.length].
      replace (S (String.length s) - String.length (drop_while cls s))%nat
        with (S (String.length s - String.length (drop_while cls s)))
        by lia.
      cbn [Py.take]. rewrite IH. reflexivity.
    + rewrite Nat.sub_diag. reflexivity.
Qed.

Lemma lit_slash_rejects :
  forall (R : Type) (p : string) (c : ascii) (t : string) (x : option R),
    Re.not_slash c = true ->
    (if Py.startswith (String "/" p) (String c t) then x else None) = None.
Proof.
  intros R p c t x Hc. unfold Re.not_slash in Hc.
  cbn [Py.startswith]. rewrite Ascii.eqb_sym.
  destruct (Ascii.eqb c "/"); [discriminate | reflexivity].
Qed.

(** The pattern computes the scan: on every string, [re.match] with the URL
    pattern and the left-to-right scan agree on success and on the groups. *)
Lemma match_groups_scan :
  forall s : string, Re.match_groups 4 pattern s = scan_pr_url s.
Proof.
  intro s. unfold Re.match_groups, pattern, scan_pr_url.
  cbn [Re.exec].
  change (String.length "https://github.com/") with 19%nat.
  change (String.length "/") with 1%nat.
  change (String.length "/pull/") with 6%nat.
  change (String.length "/commits/") with 9%nat.
  destruct (Py.startswith "https://github.com/" s); [| reflexivity].
  cbv zeta. generalize (Py.drop 19 s) as s1. clear s. intro s1.
  rewrite plus_scan.
  2:{ right. intros c t Hc. apply lit_slash_rejects. exact Hc. }
  destruct (is_empty (take_while Re.not_slash s1)); [reflexivity |].
  rewrite consumed_drop_while.
  destruct (Py.startswith "/" (drop_while Re.not_slash s1)); [| reflexivity].
  generalize (take_while Re.not_slash s1) as owner.
  generalize (Py.drop 1 (drop_while Re.not_slash s1)) as s3.
  clear s1. intros s3 owner.
  rewrite plus_scan.
  2:{ right. intros c t Hc. apply lit_slash_rejects. exact Hc. }
  destruct (is_empty (take_while Re.not_slash s3)); [reflexivity |].
  rewrite consumed_drop_while.
  destruct (Py.startswith "/pull/" (drop_while Re.not_slash s3));
    [| reflexivity].
  generalize (take_while Re.not_slash s3) as repo.
  generalize (Py.drop 6 (drop_while Re.not_slash s3)) as s5.
  clear s3. intros s5 repo.
  assert (Htail :
    forall caps : Re.captures,
      (forall j, j <> 4%nat -> caps j = match j with
                                        | 1%nat => Some owner
                                        | 2%nat => Some repo
                                        | 3%nat => Some (take_while Py.isdigit s5)
                                        | _ => caps j
                                        end) ->
      caps 4%nat = None ->
      match
        (if Py.startswith "/commits/" (drop_while Py.isdigit s5)
         then
           Re.plus Re.lower_hex (Py.drop 9 (drop_while Py.isdigit s5))
             (fun rest =>
                Some (map (Re.set_group 4
                             (Re.consumed
                                (Py.drop 9 (drop_while Py.isdigit s5)) rest)
                             caps) (seq 1 4)))
         else None)
      with
      | Some x => Some x
      | None => Some (map caps (seq 1 4))
      end
      = Some [Some owner; Some repo; Some (take_while Py.isdigit s5);
              scan_commit (drop_while Py.isdigit s5)]).
  { intros caps H123 H4. unfold scan_commit.
    destruct (Py.startswith "/commits/" (drop_while Py.isdigit s5)).
    - rewrite plus_scan by (left; discriminate).
      rewrite consumed_drop_while.
      destruct (is_empty
                  (take_while Re.lower_hex
                     (Py.drop 9 (drop_while Py.isdigit s5)))).
      + simpl. rewrite (H123 1%nat), (H123 2%nat), (H123 3%nat), H4 by lia.
        reflexivity.
      + simpl. unfold Re.set_group. simpl.
        rewrite (H123 1%nat), (H123 2%nat), (H123 3%nat) by lia.
        reflexivity.
    - simpl. rewrite (H123 1%nat), (H123 2%nat), (H123 3%nat), H4 by lia.
      reflexivity. }
  rewrite plus_scan.
  - destruct (is_empty (take_while Py.isdigit s5)); [reflexivity |].
    rewrite consumed_drop_while. apply Htail.
    + intros j Hj. unfold Re.set_group, Re.no_captures.
      destruct j as [| [| [| [| j]]]]; simpl; try reflexivity.
    + reflexivity.
  - left. rewrite consumed_drop_while. rewrite Htail.
    + discriminate.
    + intros j Hj. unfold Re.set_group, Re.no_captures.
      destruct j as [| [| [| [| j]]]]; simpl; try reflexivity.
    + reflexivity.
Qed.

(** *** Strings *)

Lemma append_nil_r : forall s : string, s ++ "" = s.
Proof.
  induction s as [| c s IH]; simpl; [reflexivity | rewrite IH; reflexivity].
Qed.

Lemma append_assoc : forall a b c : string, (a ++ b) ++ c = a ++ b ++ c.
Proof.
  induction a as [| x a IH]; intros b c; simpl;
    [reflexivity | rewrite IH; reflexivity].
Qed.

Lemma startswith_app : forall p s : string, Py.startswith p (p ++ s) = true.
Proof.
  induction p as [| c p IH]; intro s; simpl; [reflexivity |].
  rewrite Ascii.eqb_refl. apply IH.
Qed.

Lemma drop_app : forall p s : string, Py.drop (String.length p) (p ++ s) = s.
Proof.
  induction p as [| c p IH]; intro s; simpl; [reflexivity | apply IH].
Qed.

Lemma startswith_split :
  forall p s : string,
    Py.startswith p s = true -> s = p ++ Py.drop (String.length p) s.
Proof.
  induction p as [| a p IH]; intros s H; [reflexivity |].
  destruct s as [| b s]; [discriminate |].
  simpl in H. apply andb_true_iff in H. destruct H as [Hab Hps].
  apply Ascii.eqb_eq in Hab. subst b. simpl. f_equal. apply IH. exact Hps.
Qed.

Lemma take_drop_while :
  forall (p : ascii -> bool) (s : string),
    s = take_while p s ++ drop_while p s.
Proof.
  intros p s. induction s as [| c s IH]; simpl; [reflexivity |].
  destruct (p c); simpl; [f_equal; exact IH | reflexivity].
Qed.

Lemma all_take_while :
  forall (p : ascii -> bool) (s : string),
    Py.all_chars p (take_while p s) = true.
Proof.
  intros p s. induction s as [| c s IH]; simpl; [reflexivity |].
  destruct (p c) eqn:Hc; simpl; [rewrite Hc; exact IH | reflexivity].
Qed.

Lemma take_while_app :
  forall (p : ascii -> bool) (a b : string),
    Py.all_chars p a = true ->
    take_while p (a ++ b) = a ++ take_while p b.
Proof.
  intros p a b. induction a as [| c a IH]; simpl; intro H; [reflexivity |].
  apply andb_true_iff in H. destruct H as [Hc Ha]. rewrite Hc.
  rewrite (IH Ha). reflexivity.
Qed.

Lemma drop_while_app :
  forall (p : ascii -> bool) (a b : string),
    Py.all_chars p a = true ->
    drop_while p (a ++ b) = drop_while p b.
Proof.
  intros p a b. induction a as [| c a IH]; simpl; intro H; [reflexivity |].
  apply andb_true_iff in H. destruct H as [Hc Ha]. rewrite Hc.
  exact (IH Ha).
Qed.

Lemma take_while_stop :
  forall (p : ascii -> bool) (s : string),
    first_in p s = false -> take_while p s = "".
Proof.
  intros p [| c s]; simpl; intro H; [reflexivity | rewrite H; reflexivity].
Qed.

Lemma drop_while_stop :
  forall (p : ascii -> bool) (s : string),
    first_in p s = false -> drop_while p s = s.
Proof.
  intros p [| c s]; simpl; intro H; [reflexivity | rewrite H; reflexivity].
Qed.

Lemma first_in_drop_while :
  forall (p : ascii -> bool) (s : string),
    first_in p (drop_while p s) = false.
Proof.
  intros p s. induction s as [| c s IH]; simpl; [reflexivity |].
  destruct (p c) eqn:Hc; [exact IH | simpl; exact Hc].
Qed.

Lemma is_empty_app :
  forall a b : string, a <> "" -> is_empty (a ++ b) = false.
Proof. intros [| c a] b H; [contradiction | reflexivity]. Qed.

Lemma is_empty_false : forall s : string, is_empty s = false -> s <> "".
Proof. intros [| c s] H; [discriminate | discriminate]. Qed.

(** *** White space *)

Lemma digit_not_space :
  forall c : ascii, Py.isdigit c = true -> Py.isspace c = false.
Proof.
  intros [[] [] [] [] [] [] [] []]; vm_compute; intro H;
    first [reflexivity | discriminate H].
Qed.

Lemma hex_not_space :
  forall c : ascii, Re.lower_hex c = true -> Py.isspace c = false.
Proof.
  intros [[] [] [] [] [] [] [] []]; vm_compute; intro H;
    first [reflexivity | discriminate H].
Qed.

Lemma rstrip_app :
  forall a b : string,
    Py.rstrip (a ++ b)
    = if is_empty (Py.rstrip b) then Py.rstrip a else a ++ Py.rstrip b.
Proof.
  intros a b. induction a as [| c a IH]; simpl.
  - destruct (Py.rstrip b); reflexivity.
  - rewrite IH. destruct (Py.rstrip b) as [| x r] eqn:Eb; simpl.
    + reflexivity.
    + destruct (a ++ String x r) eqn:E; [| reflexivity].
      destruct a; discriminate.
Qed.

Lemma rstrip_keep :
  forall (p : ascii -> bool) (s : string),
    (forall c, p c = true -> Py.isspace c = false) ->
    Py.all_chars p s = true -> Py.rstrip s = s.
Proof.
  intros p s Hp. induction s as [| c s IH]; simpl; intro H; [reflexivity |].
  apply andb_true_iff in H. destruct H as [Hc Hs].
  rewrite (IH Hs). destruct s; [rewrite (Hp c Hc) |]; reflexivity.
Qed.

Lemma rstrip_after :
  forall (p : ascii -> bool) (a b : string),
    (forall c, p c = true -> Py.isspace c = false) ->
    a <> "" -> Py.all_chars p a = true ->
    Py.rstrip (a ++ b) = a ++ Py.rstrip b.
Proof.
  intros p a b Hp Ha Hall. rewrite rstrip_app.
  destruct (Py.rstrip b); simpl.
  - rewrite append_nil_r. apply (rstrip_keep p); assumption.
  - reflexivity.
Qed.

Lemma rstrip_inside :
  forall a b : string,
    Py.rstrip b <> "" ->
    Py.rstrip (a ++ b) = a ++ Py.rstrip b /\ Py.rstrip (a ++ b) <> "".
Proof.
  intros a b H. rewrite rstrip_app.
  destruct (Py.rstrip b) as [| c r]; [contradiction |].
  split; [reflexivity | destruct a; discriminate].
Qed.


(** Stripping a reference with a well-formed prefix only touches what
    follows the PR number. *)
Lemma strip_reference :
  forall owner repo number rest : string,
    digits number ->
    Py.strip ("https://github.com/" ++ owner ++ "/" ++ repo ++ "/pull/"
              ++ number ++ rest)
    = "https://github.com/" ++ owner ++ "/" ++ repo ++ "/pull/" ++ number
      ++ Py.rstrip rest.
Proof.
  intros owner repo number rest [Hne Hall]. unfold Py.strip.
  change (Py.lstrip ("https://github.com/" ++ owner ++ "/" ++ repo ++ "/pull/"
                     ++ number ++ rest))
    with ("https://github.com/" ++ owner ++ "/" ++ repo ++ "/pull/"
          ++ number ++ rest).
  assert (E0 : Py.rstrip (number ++ rest) = number ++ Py.rstrip rest).
  { apply (rstrip_after Py.isdigit); auto using digit_not_space. }
  assert (N0 : Py.rstrip (number ++ rest) <> "").
  { rewrite E0. destruct number; [contradiction | discriminate]. }
  destruct (rstrip_inside "/pull/" _ N0) as [E1 N1].
  destruct (rstrip_inside repo _ N1) as [E2 N2].
  destruct (rstrip_inside "/" _ N2) as [E3 N3].
  destruct (rstrip_inside owner _ N3) as [E4 N4].
  destruct (rstrip_inside "https://github.com/" _ N4) as [E5 _].
  rewrite E5, E4, E3, E2, E1, E0. reflexivity.
Qed.

(** *** The scan on well-formed and on arbitrary strings *)

Lemma scan_shaped :
  forall owner repo number r : string,
    segment owner -> segment repo -> digits number ->
    scan_pr_url ("https://github.com/" ++ owner ++ "/" ++ repo ++ "/pull/"
                 ++ number ++ r)
    = Some [Some owner; Some repo;
            Some (number ++ take_while Py.isdigit r);
            scan_commit (drop_while Py.isdigit r)].
Proof.
  intros owner repo number r [Ho Hoa] [Hr Hra] [Hn Hna].
  unfold scan_pr_url.
  rewrite startswith_app.
  change 19%nat with (String.length "https://github.com/").
  rewrite (drop_app "https://github.com/"). cbv zeta.
  rewrite (take_while_app _ owner), (drop_while_app _ owner) by assumption.
  rewrite (take_while_stop _ ("/" ++ _)), (drop_while_stop _ ("/" ++ _))
    by reflexivity.
  rewrite append_nil_r.
  destruct owner as [| co owner']; [contradiction |]. cbn [is_empty].
  rewrite startswith_app.
  change 1%nat with (String.length "/"). rewrite (drop_app "/").
  rewrite (take_while_app _ repo), (drop_while_app _ repo) by assumption.
  rewrite (take_while_stop _ ("/pull/" ++ _)),
    (drop_while_stop _ ("/pull/" ++ _)) by reflexivity.
  rewrite append_nil_r.
  destruct repo as [| cr repo']; [contradiction |]. cbn [is_empty].
  rewrite startswith_app.
  change 6%nat with (String.length "/pull/"). rewrite (drop_app "/pull/").
  rewrite (take_while_app _ number), (drop_while_app _ number) by assumption.
  rewrite is_empty_app by assumption.
  reflexivity.
Qed.

Lemma scan_inv :
  forall (s : string) (g : list (option string)),
    scan_pr_url s = Some g ->
    exists owner repo number rest : string,
      s = "https://github.com/" ++ owner ++ "/" ++ repo ++ "/pull/" ++ number
          ++ rest
      /\ segment owner /\ segment repo /\ digits number
      /\ first_in Py.isdigit rest = false
      /\ g = [Some owner; Some repo; Some number; scan_commit rest].
Proof.
  intros s g. unfold scan_pr_url.
  destruct (Py.startswith "https://github.com/" s) eqn:E1; [| discriminate].
  apply startswith_split in E1.
  change (String.length "https://github.com/") with 19%nat in E1.
  cbv zeta. set (s1 := Py.drop 19 s) in *.
  destruct (is_empty (take_while Re.not_slash s1)) eqn:Eo; [discriminate |].
  destruct (Py.startswith "/" (drop_while Re.not_slash s1)) eqn:E2;
    [| discriminate].
  apply startswith_split in E2. change (String.length "/") with 1%nat in E2.
  set (s3 := Py.drop 1 (drop_while Re.not_slash s1)) in *.
  destruct (is_empty (take_while Re.not_slash s3)) eqn:Er; [discriminate |].
  destruct (Py.startswith "/pull/" (drop_while Re.not_slash s3)) eqn:E3;
    [| discriminate].
  apply startswith_split in E3.
  change (String.length "/pull/") with 6%nat in E3.
  set (s5 := Py.drop 6 (drop_while Re.not_slash s3)) in *.
  destruct (is_empty (take_while Py.isdigit s5)) eqn:En; [discriminate |].
  intro H. injection H as <-.
  exists (take_while Re.not_slash s1), (take_while Re.not_slash s3),
    (take_while Py.isdigit s5), (drop_while Py.isdigit s5).
  split.
  { rewrite <- (take_drop_while Py.isdigit s5), <- E3,
      <- (take_drop_while Re.not_slash s3), <- E2,
      <- (take_drop_while Re.not_slash s1).
    exact E1. }
  unfold segment, digits.
  repeat split; auto using is_empty_false, all_take_while,
    first_in_drop_while.
Qed.

Lemma int_of_digits :
  forall s : string,
    digits s -> len s <= max_str_digits -> int s = Ok (Py.int_digits 0 s).
Proof.
  intros s [Hne Hall] Hl. unfold int.
  destruct s as [| c s]; [contradiction |]. rewrite Hall.
  destruct (Z.ltb_spec max_str_digits (Z.of_nat (String.length (String c s))))
    as [H | H]; [unfold len in Hl; lia | reflexivity].
Qed.

Lemma int_over_limit :
  forall s : string,
    digits s -> max_str_digits < len s ->
    int s = Raise (ValueError (digit_limit_message s)).
Proof.
  intros s [Hne Hall] Hl. unfold int.
  destruct s as [| c s]; [contradiction |]. rewrite Hall.
  destruct (Z.ltb_spec max_str_digits (Z.of_nat (String.length (String c s))))
    as [H | H]; [reflexivity | unfold len in Hl; lia].
Qed.

Lemma all_chars_app :
  forall (p : ascii -> bool) (a b : string),
    Py.all_chars p a = true -> Py.all_chars p b = true ->
    Py.all_chars p (a ++ b) = true.
Proof.
  intros p a b. induction a as [| c a IH]; simpl; intros Ha Hb; [exact Hb |].
  apply andb_true_iff in Ha. destruct Ha as [Hc Ha].
  rewrite Hc. simpl. apply IH; assumption.
Qed.

Lemma digits_run :
  forall number rest : string,
    digits number -> digits (number ++ take_while Py.isdigit rest).
Proof.
  intros number rest [Hne Hall]. split.
  - destruct number; [contradiction | discriminate].
  - apply all_chars_app; [exact Hall | apply all_take_while].
Qed.

(** What [_parse_pr_url] returns on a reference with a well-formed prefix,
    whatever follows the digits, when the whole run of digits is within the
    limit of [int]. *)
Lemma parse_shaped :
  forall owner repo number rest : string,
    segment owner -> segment repo -> digits number ->
    len (number ++ take_while Py.isdigit (Py.rstrip rest)) <= max_str_digits ->
    _parse_pr_url ("https://github.com/" ++ owner ++ "/" ++ repo ++ "/pull/"
                   ++ number ++ rest)
    = Ok (owner, repo,
          Py.int_digits 0 (number ++ take_while Py.isdigit (Py.rstrip rest)),
          scan_commit (drop_while Py.isdigit (Py.rstrip rest))).
Proof.
  intros owner repo number rest Ho Hr Hn Hl. unfold _parse_pr_url.
  rewrite strip_reference by assumption.
  rewrite match_groups_scan, scan_shaped by assumption.
  rewrite int_of_digits; [reflexivity | apply digits_run; exact Hn | exact Hl].
Qed.

(** And what it raises when the run is beyond that limit. *)
Lemma parse_oversized :
  forall owner repo number rest : string,
    segment owner -> segment repo -> digits number ->
    max_str_digits < len (number ++ take_while Py.isdigit (Py.rstrip rest)) ->
    _parse_pr_url ("https://github.com/" ++ owner ++ "/" ++ repo ++ "/pull/"
                   ++ number ++ rest)
    = Raise (ValueError
               (digit_limit_message
                  (number ++ take_while Py.isdigit (Py.rstrip rest)))).
Proof.
  intros owner repo number rest Ho Hr Hn Hl. unfold _parse_pr_url.
  rewrite strip_reference by assumption.
  rewrite match_groups_scan, scan_shaped by assumption.
  rewrite int_over_limit; [reflexivity | apply digits_run; exact Hn | exact Hl].
Qed.


Lemma scan_reference_number :
  forall s number : string,
    reference_number s number ->
    exists owner repo rest,
      scan_pr_url s
      = Some [Some owner; Some repo; Some number; scan_commit rest].
Proof.
  intros s number (owner & repo & rest & Hs & Ho & Hr & Hn & Hf).
  exists owner, repo, rest. rewrite Hs, scan_shaped by assumption.
  rewrite take_while_stop, drop_while_stop, append_nil_r by exact Hf.
  reflexivity.
Qed.


(** With a run of digits beyond the limit, the conversion of the number
    raises; the message is the interpreter's and does not show the
    string. *)
Lemma parse_over_limit :
  forall url number : string,
    reference_number (Py.strip url) number ->
    max_str_digits < len number ->
    _parse_pr_url url = Raise (ValueError (digit_limit_message number)).
Proof.
  intros url number Href Hl.
  pose proof Href as (owner & repo & rest & _ & _ & _ & Hn & _).
  destruct (scan_reference_number _ _ Href) as (o & r & rest' & E).
  unfold _parse_pr_url. rewrite match_groups_scan, E.
  rewrite (int_over_limit number Hn Hl). reflexivity.
Qed.


Lemma parse_raises :
  forall url : string,
    ~ reference_prefix (Py.strip url) ->
    _parse_pr_url url
    = Raise (ValueError ("Invalid GitHub PR URL format: " ++ url)).
Proof.
  intros url Hn. unfold _parse_pr_url. rewrite match_groups_scan.
  destruct (scan_pr_url (Py.strip url)) as [g |] eqn:E; [| reflexivity].
  exfalso. apply Hn. apply scan_inv in E.
  destruct E as (owner & repo & number & rest & Hs & Ho & Hr & Hd & _).
  exists owner, repo, number, rest. auto.
Qed.

(** A pinned commit read from a URL is never the empty string. *)
Lemma parse_pinned_nonempty :
  forall (url owner repo : string) (n : Z) (sha : string),
    _parse_pr_url url = Ok (owner, repo, n, Some sha) -> sha <> "".
Proof.
  intros url owner repo n sha H. unfold _parse_pr_url in H.
  rewrite match_groups_scan in H.
  destruct (scan_pr_url (Py.strip url)) as [g |] eqn:E; [| discriminate].
  apply scan_inv in E.
  destruct E as (o & r & num & rest & _ & _ & _ & Hd & _ & ->).
  destruct (int num) as [m | e]; [| discriminate].
  injection H as _ _ _ Hsha.
  unfold scan_commit in Hsha.
  destruct (Py.startswith "/commits/" rest); [| discriminate].
  cbv zeta in Hsha.
  destruct (take_while Re.lower_hex (Py.drop 9 rest)) eqn:Et;
    [discriminate |].
  simpl in Hsha. injection Hsha as <-. discriminate.
Qed.

Section ParseFailure.

Context {World : Type} (env : Env World).


End ParseFailure.





Lemma len_copies :
  forall (n : nat) (c : ascii),
    len (copies n (String c "")) = Z.of_nat n.
Proof.
  intros n c. unfold len. induction n as [| n IH]; [reflexivity |].
  cbn [copies append String.length]. lia.
Qed.

Lemma digits_copies :
  forall n : nat, digits (copies (S n) "7").
Proof.
  intro n. split; [discriminate |].
  induction n as [| n IH]; [reflexivity | exact IH].
Qed.

(** A reference of the shape of the specification whose number has 4301
    digits: the error is that of [int], and its message does not carry the
    reference. *)
Example parse_oversized_number :
  _parse_pr_url ("https://github.com/octo/widget/pull/" ++ copies 4301 "7")
  = Raise (ValueError
      "Exceeds the limit (4300 digits) for integer string conversion: value has 4301 digits; use sys.set_int_max_str_digits() to increase the limit").
Proof.
  rewrite (parse_over_limit _ (copies 4301 "7")).
  - unfold digit_limit_message.
    change (Z.of_nat (String.length (copies 4301 "7")))
      with (len (copies 4301 "7")).
    rewrite len_copies. reflexivity.
  - exists "octo", "widget", "".
    assert (Hs : Py.strip ("https://github.com/octo/widget/pull/"
                           ++ copies 4301 "7")
                 = "https://github.com/" ++ "octo" ++ "/" ++ "widget"
                   ++ "/pull/" ++ copies 4301 "7" ++ "").
    { rewrite <- (append_nil_r (copies 4301 "7")) at 1.
      apply (strip_reference "octo" "widget" (copies 4301 "7") "").
      apply digits_copies. }
    split; [exact Hs |]. unfold segment.
    repeat split; try discriminate; try reflexivity; apply digits_copies.
  - rewrite len_copies. unfold max_str_digits. lia.
Qed.




(** ** Branch materializer *)

Section Traces.

Context {World : Type} (env : Env World).

Lemma emits_ret :
  forall (A : Type) (P : Event -> Prop) (a : A),
    emits P (ret (World := World) a).
Proof. intros A P a w. constructor. Qed.

Lemma emits_raise :
  forall (A : Type) (P : Event -> Prop) (e : exn), emits P (@raise World A e).
Proof. intros A P e w. constructor. Qed.

Lemma emits_bind :
  forall (A B : Type) (P : Event -> Prop) (m : M World A) (k : A -> M World B),
    emits P m -> (forall a, emits P (k a)) -> emits P (bind m k).
Proof.
  intros A B P m k Hm Hk w. specialize (Hm w). unfold bind, trace_of in *.
  destruct (m w) as [[[a | e] w1] t1]; simpl in *; [| exact Hm].
  specialize (Hk a w1). destruct (k a w1) as [[r2 w2] t2]; simpl in *.
  apply Forall_app. split; assumption.
Qed.

Lemma emits_try_except :
  forall (A : Type) (P : Event -> Prop) (m : M World A) (h : exn -> M World A),
    emits P m -> (forall e, emits P (h e)) -> emits P (try_except m h).
Proof.
  intros A P m h Hm Hh w. specialize (Hm w).
  unfold try_except, trace_of in *.
  destruct (m w) as [[[a | e] w1] t1]; simpl in *; [exact Hm |].
  specialize (Hh e w1). destruct (h e w1) as [[r2 w2] t2]; simpl in *.
  apply Forall_app. split; assumption.
Qed.

Lemma emits_run :
  forall (P : Event -> Prop) (argv : list string) (cwd : string)
         (input : option string),
    (forall r, P (EvRun argv cwd input r)) -> emits P (run env argv cwd input).
Proof.
  intros P argv cwd input H w. unfold run, trace_of.
  destruct (subprocess_run env argv cwd input w) as [r w']; simpl.
  constructor; [apply H | constructor].
Qed.

Lemma emits_listdir :
  forall (P : Event -> Prop) (path : string),
    (forall r, P (EvListdir path r)) -> emits P (listdir env path).
Proof.
  intros P path H w. unfold listdir, trace_of.
  destruct (os_listdir env path w) as [r w']; simpl.
  constructor; [apply H | constructor].
Qed.

Lemma emits_isdir :
  forall (P : Event -> Prop) (path : string),
    (forall r, P (EvIsdir path r)) -> emits P (isdir env path).
Proof.
  intros P path H w. unfold isdir, trace_of.
  destruct (os_path_isdir env path w) as [r w']; simpl.
  constructor; [apply H | constructor].
Qed.

Lemma emits_path_exists :
  forall (P : Event -> Prop) (path : string),
    (forall r, P (EvExists path r)) -> emits P (path_exists env path).
Proof.
  intros P path H w. unfold path_exists, trace_of.
  destruct (os_path_exists env path w) as [r w']; simpl.
  constructor; [apply H | constructor].
Qed.

Lemma emits_rmtree :
  forall (P : Event -> Prop) (path : string),
    (forall r, P (EvRmtree path r)) -> emits P (rmtree env path).
Proof.
  intros P path H w. unfold rmtree, trace_of.
  destruct (shutil_rmtree env path w) as [r w']; simpl.
  constructor; [apply H | constructor].
Qed.

Lemma emits_remove :
  forall (P : Event -> Prop) (path : string),
    (forall r, P (EvRemove path r)) -> emits P (remove env path).
Proof.
  intros P path H w. unfold remove, trace_of.
  destruct (os_remove env path w) as [r w']; simpl.
  constructor; [apply H | constructor].
Qed.

Lemma emits_makedirs :
  forall (P : Event -> Prop) (path : string),
    (forall r, P (EvMakedirs path r)) -> emits P (makedirs env path).
Proof.
  intros P path H w. unfold makedirs, trace_of.
  destruct (os_makedirs env path w) as [r w']; simpl.
  constructor; [apply H | constructor].
Qed.

Lemma emits_for_each :
  forall (A : Type) (P : Event -> Prop) (xs : list A) (body : A -> M World unit),
    (forall x, emits P (body x)) -> emits P (for_each xs body).
Proof.
  intros A P xs body H. induction xs as [| x xs IH]; simpl.
  - apply emits_ret.
  - apply emits_bind; [apply H | intros _; exact IH].
Qed.

Lemma emits_with_tempdir :
  forall (A : Type) (P : Event -> Prop) (body : string -> M World A),
    (forall r, P (EvTempDir r)) -> (forall d, P (EvCleanup d)) ->
    (forall d, emits P (body d)) -> emits P (with_tempdir env body).
Proof.
  intros A P body Ht Hc Hb w. unfold with_tempdir, trace_of.
  destruct (tempdir_create env w) as [[d |] w1]; simpl.
  - specialize (Hb d w1). unfold trace_of in Hb.
    destruct (body d w1) as [[res w2] t]; simpl in *.
    constructor; [apply Ht |]. apply Forall_app. split; [exact Hb |].
    constructor; [apply Hc | constructor].
  - constructor; [apply Ht | constructor].
Qed.

Lemma emits_if :
  forall (A : Type) (P : Event -> Prop) (b : bool) (m1 m2 : M World A),
    emits P m1 -> emits P m2 -> emits P (if b then m1 else m2).
Proof. intros A P [] m1 m2 H1 H2; assumption. Qed.

End Traces.

(** Decomposes a goal [emits P m] along the syntax of [m]. *)
Ltac emits_steps :=
  repeat first
    [ apply emits_ret
    | apply emits_raise
    | apply emits_bind; [| intro]
    | apply emits_try_except; [| intro]
    | apply emits_if
    | apply emits_for_each; intro
    | apply emits_with_tempdir; [intro | intro | intro]
    | apply emits_run; intro
    | apply emits_listdir; intro
    | apply emits_isdir; intro
    | apply emits_path_exists; intro
    | apply emits_rmtree; intro
    | apply emits_remove; intro
    | apply emits_makedirs; intro ].

Section Materializers.

Context {World : Type} (env : Env World).

(** Neither materializer lets an exception out. *)
Lemma create_orphan_total :
  forall (self : GitHubPRBranchCreator)
         (owner repo target_repo branch_name commit_sha : string) (w : World),
    exists (b : bool) (w' : World) (t : list Event),
      _create_orphan_branch_with_commit env self owner repo target_repo
        branch_name commit_sha w = (Ok b, w', t).
Proof.
  intros. unfold _create_orphan_branch_with_commit, except_any, try_except.
  match goal with
  | |- context [with_tempdir env ?body w] =>
      destruct (with_tempdir env body w) as [[[b | e] w1] t]
  end; simpl; do 3 eexists; reflexivity.
Qed.

Lemma create_from_base_total :
  forall (self : GitHubPRBranchCreator)
         (owner repo target_repo branch_name commit_sha base_branch : string)
         (w : World),
    exists (b : bool) (w' : World) (t : list Event),
      _create_branch_from_base env self owner repo target_repo branch_name
        commit_sha base_branch w = (Ok b, w', t).
Proof.
  intros. unfold _create_branch_from_base, except_any, try_except.
  match goal with
  | |- context [with_tempdir env ?body w] =>
      destruct (with_tempdir env body w) as [[[b | e] w1] t]
  end; simpl; do 3 eexists; reflexivity.
Qed.

(** Both work through subprocesses and the file system only. *)
Lemma create_orphan_local :
  forall (self : GitHubPRBranchCreator)
         (owner repo target_repo branch_name commit_sha : string),
    emits (fun e => is_http e = false)
      (_create_orphan_branch_with_commit env self owner repo target_repo
         branch_name commit_sha).
Proof.
  intros. unfold _create_orphan_branch_with_commit, except_any,
    git_config_user.
  emits_steps; reflexivity.
Qed.

Lemma create_from_base_local :
  forall (self : GitHubPRBranchCreator)
         (owner repo target_repo branch_name commit_sha base_branch : string),
    emits (fun e => is_http e = false)
      (_create_branch_from_base env self owner repo target_repo branch_name
         commit_sha base_branch).
Proof.
  intros. unfold _create_branch_from_base, except_any, git_config_user.
  emits_steps; reflexivity.
Qed.

(** A call of a materializer is visible: its first event is the creation of
    the scratch directory. *)
Lemma create_orphan_starts :
  forall (self : GitHubPRBranchCreator)
         (owner repo target_repo branch_name commit_sha : string) (w : World),
    exists (r : option string) (t : list Event),
      trace_of (_create_orphan_branch_with_commit env self owner repo
                  target_repo branch_name commit_sha w) = EvTempDir r :: t.
Proof.
  intros. unfold _create_orphan_branch_with_commit, except_any, try_except,
    with_tempdir, trace_of.
  destruct (tempdir_create env w) as [[d |] w1]; simpl.
  - match goal with
    | |- context [bind ?m ?k w1] => destruct (bind m k w1) as [[[b | e] w2] t]
    end; simpl; do 2 eexists; reflexivity.
  - do 2 eexists; reflexivity.
Qed.

Lemma create_from_base_starts :
  forall (self : GitHubPRBranchCreator)
         (owner repo target_repo branch_name commit_sha base_branch : string)
         (w : World),
    exists (r : option string) (t : list Event),
      trace_of (_create_branch_from_base env self owner repo target_repo
                  branch_name commit_sha base_branch w) = EvTempDir r :: t.
Proof.
  intros. unfold _create_branch_from_base, except_any, try_except,
    with_tempdir, trace_of.
  destruct (tempdir_create env w) as [[d |] w1]; simpl.
  - match goal with
    | |- context [bind ?m ?k w1] => destruct (bind m k w1) as [[[b | e] w2] t]
    end; simpl; do 2 eexists; reflexivity.
  - do 2 eexists; reflexivity.
Qed.

End Materializers.

Section CommitStep.

Context {World : Type} (env : Env World).

Variable target : Event -> Prop.
Variable post : Event -> list Event -> bool -> Prop.
Hypothesis target_commit : forall e, target e -> is_commit e = true.

Lemma after_ret :
  forall (b : bool) (w : World), after target post (ret b w).
Proof. intros b w e Hin. destruct Hin. Qed.

Lemma after_bind :
  forall (A : Type) (m : M World A) (k : A -> M World bool),
    emits quiet m ->
    (forall a w, after target post (k a w)) ->
    forall w, after target post (bind m k w).
Proof.
  intros A m k Hm Hk w e Hin Ht. specialize (Hm w).
  unfold bind, trace_of, result_of in *.
  destruct (m w) as [[[a | ex] w1] t1]; simpl in *.
  - specialize (Hk a w1 e). unfold trace_of, result_of in Hk.
    destruct (k a w1) as [[r2 w2] t2]; simpl in *.
    apply in_app_or in Hin. destruct Hin as [Hin | Hin].
    + rewrite Forall_forall in Hm. destruct (Hm e Hin) as [Hc _].
      rewrite (target_commit e Ht) in Hc. discriminate.
    + destruct (Hk Hin Ht) as (pre & suf & Heq & Hq & Hp).
      exists (t1 ++ pre)%list, suf. rewrite Heq, app_assoc.
      split; [reflexivity |]. split; [| exact Hp].
      apply Forall_app. split; assumption.
  - rewrite Forall_forall in Hm. destruct (Hm e Hin) as [Hc _].
    rewrite (target_commit e Ht) in Hc. discriminate.
Qed.

End CommitStep.

(** Steps through the part of a materializer that comes before its commit. *)
Ltac quiet_steps :=
  repeat first
    [ progress cbv beta zeta
    | apply after_bind;
      [ assumption
      | unfold git_config_user; emits_steps; split; reflexivity
      | intros ? ? ]
    | apply after_ret
    | match goal with
      | |- after _ _ ((if ?b then _ else _) _) => destruct b
      end ].

Section NoOpCommit.

Context {World : Type} (env : Env World).

(** From the body of a materializer to the materializer: the scratch
    directory is created first and removed last, and an exception of the
    body becomes the result [False]. *)
Lemma after_materializer :
  forall (target : Event -> Prop)
         (post : Event -> list Event -> bool -> Prop)
         (body : string -> M World bool),
    (forall e, target e -> is_commit e = true) ->
    (forall d w, after target post (body d w)) ->
    forall w e,
      let x := except_any (with_tempdir env body) (ret false) w in
      In e (trace_of x) -> target e ->
      exists (pre suf : list Event) (dir : string),
        trace_of x = (pre ++ e :: suf ++ [EvCleanup dir])%list
        /\ Forall quiet pre
        /\ post e suf (caught (result_of x))
        /\ result_of x = Ok (caught (result_of x)).
Proof.
  intros target post body Htc Hbody w e x Hin Ht. subst x.
  unfold except_any, try_except, with_tempdir, trace_of, result_of in *.
  destruct (tempdir_create env w) as [[d |] w1]; simpl in *.
  - specialize (Hbody d w1 e). unfold trace_of, result_of in Hbody.
    destruct (body d w1) as [[res w2] t] eqn:Eb; simpl in *.
    assert (Hin' : In e t).
    { destruct res; simpl in Hin; try rewrite app_nil_r in Hin;
        (destruct Hin as [Hin | Hin];
         [subst e; apply Htc in Ht; discriminate |]);
        (apply in_app_or in Hin; destruct Hin as [Hin | [Hin | []]];
         [exact Hin | subst e; apply Htc in Ht; discriminate]). }
    destruct (Hbody Hin' Ht) as (pre & suf & Heq & Hq & Hp).
    exists (EvTempDir (Some d) :: pre), suf, d. subst t.
    destruct res as [b | ex]; simpl in *; try rewrite app_nil_r;
      rewrite <- app_assoc; simpl;
      (split; [reflexivity |]);
      (split; [constructor; [split; reflexivity | exact Hq] |]);
      (split; [exact Hp | reflexivity]).
  - destruct Hin as [Hin | []]. subst e. apply Htc in Ht. discriminate.
Qed.

Lemma nothing_to_commit_is_commit :
  forall e, nothing_to_commit e -> is_commit e = true.
Proof. intros e (argv & cwd & p & -> & _). reflexivity. Qed.

Lemma failed_commit_is_commit :
  forall e, failed_commit e -> is_commit e = true.
Proof. intros e (argv & cwd & p & -> & _). reflexivity. Qed.

Lemma failed_returncode :
  forall p : CompletedProcess, failed p = false -> returncode p = 0.
Proof.
  intros p H. unfold failed in H. apply negb_false_iff in H.
  apply Z.eqb_eq. exact H.
Qed.

End NoOpCommit.

(** Case analysis on the answer to the next subprocess call of the run
    described by [H]. *)
Tactic Notation "next_run" hyp(H) ident(q) :=
  match type of H with
  | context [subprocess_run ?env ?argv ?cwd ?input ?w] =>
      destruct (subprocess_run env argv cwd input w) as [[q |] ?];
      simpl in *
  end.

(** C3, as the code has it.  In [_create_branch_from_base], a commit that
    fails reporting "nothing to commit" is followed by the push of the
    branch and by nothing else but the removal of the scratch directory, and
    the function returns the success of that push.  In
    [_create_orphan_branch_with_commit] there is no such case: a commit
    that fails, whatever it reports, ends the run with [False] and nothing
    is pushed. *)
Theorem no_op_commit_handling :
  forall (World : Type) (env : Env World) (self : GitHubPRBranchCreator)
         (owner repo target_repo branch_name commit_sha : string) (w : World),
    (forall (base_branch : string) (e : Event),
        let x := _create_branch_from_base env self owner repo target_repo
                   branch_name commit_sha base_branch w in
        In e (trace_of x) -> nothing_to_commit e ->
        exists (pre : list Event) (answer : option CompletedProcess)
               (dir : string),
          trace_of x
          = (pre ++ [e;
                     EvRun ["git"; "push"; "origin"; branch_name] (cwd_of e)
                       None answer;
                     EvCleanup dir])%list
          /\ Forall quiet pre
          /\ result_of x = Ok (succeeded answer))
    /\ (forall e : Event,
           let y := _create_orphan_branch_with_commit env self owner repo
                      target_repo branch_name commit_sha w in
           In e (trace_of y) -> failed_commit e ->
           exists (pre : list Event) (dir : string),
             trace_of y = (pre ++ [e; EvCleanup dir])%list
             /\ Forall quiet pre
             /\ result_of y = Ok false).
Proof.
  intros World env self owner repo target_repo branch_name commit_sha w.
  split.
  - intros base_branch e x Hin Ht. subst x.
    unfold _create_branch_from_base in *.
    pose proof
      (after_materializer env nothing_to_commit
         (fun e suf b =>
            exists answer,
              suf = [EvRun ["git"; "push"; "origin"; branch_name] (cwd_of e)
                       None answer]
              /\ b = succeeded answer)) as H.
    cbv zeta in H.
    match type of Hin with
    | In e (trace_of (except_any (with_tempdir env ?body) _ w)) =>
        specialize (H body nothing_to_commit_is_commit)
    end.
    cbv beta in H.
    destruct H with (w := w) (e := e)
      as (pre & suf & dir & Heq & Hq & (answer & -> & Hb) & Hres);
      [| exact Hin | exact Ht
       | exists pre, answer, dir; rewrite Heq, Hres, Hb; auto].
    clear H Hin Ht e. intros d w0.
    pose proof nothing_to_commit_is_commit as Htc.
    quiet_steps. clear Htc.
    intros e Hin (argv & cwd & p & -> & Hrc & Hout).
    unfold bind, run, ret, trace_of, result_of in *.
    next_run Hin q.
    + destruct (failed q) eqn:Hf; simpl in *.
      * destruct (Py.contains "nothing to commit" (stdout q)) eqn:Hc;
          simpl in *.
        -- next_run Hin r.
           ++ destruct (failed r) eqn:Hr; simpl in *;
                (destruct Hin as [Hin | [Hin | []]]; [| discriminate]);
                injection Hin as <- <- <-;
                exists [], [EvRun ["git"; "push"; "origin"; branch_name]
                              (Py.path_join d "target") None (Some r)];
                (split; [reflexivity |]); (split; [constructor |]);
                eexists; (split; [reflexivity |]);
                unfold failed in Hr; simpl;
                destruct (returncode r =? 0); first [reflexivity | discriminate].
           ++ destruct Hin as [Hin | [Hin | []]]; [| discriminate].
              injection Hin as <- <- <-.
              exists [], [EvRun ["git"; "push"; "origin"; branch_name]
                            (Py.path_join d "target") None None].
              split; [reflexivity |]. split; [constructor |].
              eexists. split; reflexivity.
        -- destruct Hin as [Hin | []].
           injection Hin as <- <- <-. rewrite Hout in Hc. discriminate.
      * apply failed_returncode in Hf.
        next_run Hin r; try (destruct (failed r); simpl in * );
          (destruct Hin as [Hin | [Hin | []]]; [| discriminate]);
          injection Hin as <- <- <-; contradiction.
    + destruct Hin as [Hin | []]. discriminate.
  - intros e y Hin Ht. subst y.
    unfold _create_orphan_branch_with_commit in *.
    pose proof
      (after_materializer env failed_commit
         (fun e suf b => suf = [] /\ b = false)) as H.
    cbv zeta in H.
    match type of Hin with
    | In e (trace_of (except_any (with_tempdir env ?body) _ w)) =>
        specialize (H body failed_commit_is_commit)
    end.
    cbv beta in H.
    destruct H with (w := w) (e := e)
      as (pre & suf & dir & Heq & Hq & (-> & Hb) & Hres);
      [| exact Hin | exact Ht
       | exists pre, dir; rewrite Heq, Hres, Hb; auto].
    clear H Hin Ht e. intros d w0.
    pose proof failed_commit_is_commit as Htc.
    quiet_steps. clear Htc.
    intros e Hin (argv & cwd & p & -> & Hrc).
    unfold bind, run, ret, trace_of, result_of in *.
    next_run Hin q.
    + destruct (failed q) eqn:Hf; simpl in *.
      * destruct Hin as [Hin | []].
        injection Hin as <- <- <-.
        exists [], []. repeat split; constructor.
      * apply failed_returncode in Hf.
        next_run Hin r.
        -- destruct (failed r); simpl in *.
           ++ destruct Hin as [Hin | [Hin | []]]; [| discriminate].
              injection Hin as <- <- <-. contradiction.
           ++ next_run Hin s; try (destruct (failed s); simpl in * );
                (destruct Hin as [Hin | [Hin | [Hin | []]]];
                 try discriminate);
                injection Hin as <- <- <-; contradiction.
        -- destruct Hin as [Hin | [Hin | []]]; [| discriminate].
           injection Hin as <- <- <-. contradiction.
    + destruct Hin as [Hin | []]. discriminate.
Qed.

Lemma no_op_commit_handling_witness :
  exists (pre : list Event) (answer : option CompletedProcess) (dir : string),
    trace_of (_create_branch_from_base no_op_env demo_self "alice" "widget"
                "org-widget" "pr-42" "cafe0123cafe" "main-42" tt)
    = (pre ++ [no_op_commit "[PR Changes]" "/tmp/work/target";
               EvRun ["git"; "push"; "origin"; "pr-42"] "/tmp/work/target"
                 None answer;
               EvCleanup dir])%list
    /\ Forall quiet pre
    /\ result_of (_create_branch_from_base no_op_env demo_self "alice"
                    "widget" "org-widget" "pr-42" "cafe0123cafe" "main-42" tt)
       = Ok (succeeded answer).
Proof.
  apply (proj1 (no_op_commit_handling unit no_op_env demo_self "alice"
                  "widget" "org-widget" "pr-42" "cafe0123cafe" tt)
           "main-42" (no_op_commit "[PR Changes]" "/tmp/work/target")).
  - vm_compute. repeat first [left; reflexivity | right].
  - exists ["-m"; "[PR Changes] Commit cafe0123cafe"], "/tmp/work/target",
      nothing_to_commit_exit.
    split; [reflexivity |]. split; [discriminate | reflexivity].
Defined.

(** C3 as worded fails for the orphan variant: its commit reports
    "nothing to commit", nothing is pushed and the result is failure. *)
Lemma orphan_no_op_commit_fails :
  let y := _create_orphan_branch_with_commit no_op_env demo_self "org"
             "widget" "org-widget" "main-42" "cafe0123cafe" tt in
  In (no_op_commit "[Orphan]" "/tmp/work/work") (trace_of y)
  /\ nothing_to_commit (no_op_commit "[Orphan]" "/tmp/work/work")
  /\ existsb is_push (trace_of y) = false
  /\ result_of y = Ok false.
Proof.
  cbv zeta. split; [| split; [| split]].
  - vm_compute. repeat first [left; reflexivity | right].
  - exists ["-m"; "[Orphan] Commit cafe0123cafe"], "/tmp/work/work",
      nothing_to_commit_exit.
    split; [reflexivity |]. split; [discriminate | reflexivity].
  - reflexivity.
  - reflexivity.
Qed.

(** ** Orchestrator *)

Section Orchestrator.

Context {World : Type} (env : Env World).

(** One check followed, when the branch is absent, by its materializer:
    the shape of both branch steps.  [success] is the flag before the step
    and [k] is what [process_pr] goes on with. *)
Lemma ensure_step_run :
  forall (B : Type) (self : GitHubPRBranchCreator)
         (target_repo branch_name : string) (create : M World bool)
         (success : bool) (k : bool -> M World B) (w : World),
    (forall w0, exists b w1 t, create w0 = (Ok b, w1, t)) ->
    exists (answer : option Api.Response) (work : list Event) (ok : bool)
           (w' : World),
      ensure_step create answer work ok
      /\ bind (_check_branch_exists env self target_repo branch_name)
           (fun present =>
              bind (if present then ret success
                    else bind create
                           (fun created =>
                              if negb created then ret false
                              else ret success))
                k)
           w
         = (let '(r, w2, t) := k (success && ok)%bool w' in
            (r, w2,
             (EvGet (branch_url self target_repo branch_name) (headers self)
                answer :: work) ++ t)%list).
Proof.
  intros B self target_repo branch_name create success k w Htotal.
  unfold bind at 1. rewrite check_branch_exists_run. cbv zeta.
  destruct (requests_get env (branch_url self target_repo branch_name)
              (headers self) w) as [answer w1]. cbn [fst snd].
  destruct (answered_200 answer) eqn:E.
  - exists answer, [], true, w1. split; [apply step_present; exact E |].
    unfold bind, ret. rewrite andb_true_r.
    destruct (k success w1) as [[r w2] t]. reflexivity.
  - destruct (Htotal w1) as (b & w2 & t & Hc).
    exists answer, t, b, w2.
    split; [apply (step_created create answer w1 w2 b t E Hc) |].
    unfold bind, ret. rewrite Hc.
    destruct b; simpl; [rewrite andb_true_r | rewrite andb_false_r];
      rewrite app_nil_r;
      match goal with
      | |- context [k ?s w2] => destruct (k s w2) as [[r w3] t3]
      end; reflexivity.
Qed.

(** The fetch of the pull request, followed by [k]. *)
Lemma fetch_run :
  forall (B : Type) (self : GitHubPRBranchCreator) (owner repo : string)
         (n : Z) (k : Api.PullRequestInfo -> M World B) (w : World),
    bind (_get_pr_info env self owner repo n)
      (fun fetched => bind (as_pull fetched) k) w
    = let a := requests_get env (pr_info_url owner repo n) (headers self) w in
      let ev := EvGet (pr_info_url owner repo n) (headers self) (fst a) in
      match fst a with
      | None => (Raise RequestException, snd a, [ev])
      | Some response =>
          if ((400 <=? Api.status_code response)
              && (Api.status_code response <? 600))%bool
          then (Raise RequestException, snd a, [ev])
          else
            match Api.json response with
            | Api.JsonPull pr_info =>
                let '(r, w2, t) := k pr_info (snd a) in (r, w2, ev :: t)
            | Api.JsonObject _ => (Raise (KeyError "state"), snd a, [ev])
            end
      end.
Proof.
  intros B self owner repo n k w.
  unfold _get_pr_info, bind, http_get, raise_for_status, as_pull, ret, raise.
  cbv zeta.
  destruct (requests_get env (pr_info_url owner repo n) (headers self) w)
    as [[response |] w1]; cbn [fst snd]; [| reflexivity].
  destruct ((400 <=? Api.status_code response)
            && (Api.status_code response <? 600))%bool; [reflexivity |].
  destruct (Api.json response) as [pr_info | members]; [| reflexivity].
  destruct (k pr_info w1) as [[r w2] t]. reflexivity.
Qed.

(** The run of steps 3 to 6.  When the fetch gives no pull request, it
    ends with an exception and nothing but that GET in the trace; when it
    gives one, the branch steps follow. *)
Lemma from_step3_shape :
  forall (self : GitHubPRBranchCreator) (owner repo : string) (n : Z)
         (sha : option string) (w : World),
    let x := process_pr_from_step3 env self owner repo n sha
               (owner ++ "-" ++ repo) w in
    let fetch := fst (requests_get env (pr_info_url owner repo n)
                        (headers self) w) in
    match fetched fetch with
    | None =>
        (exists e, result_of x = Raise e)
        /\ trace_of x = [EvGet (pr_info_url owner repo n) (headers self) fetch]
    | Some pr_info =>
        exists response b,
          fetch = Some response
          /\ Api.json response = Api.JsonPull pr_info
          /\ branch_steps_of env self owner repo n sha pr_info b
          /\ trace_of x
             = EvGet (pr_info_url owner repo n) (headers self) fetch
               :: steps_trace self (owner ++ "-" ++ repo) b
          /\ result_of x = Ok (main_ok b && pr_ok b)%bool
    end.
Proof.
  intros self owner repo n sha w x fetch. subst x fetch.
  unfold process_pr_from_step3. rewrite fetch_run. cbv zeta.
  destruct (requests_get env (pr_info_url owner repo n) (headers self) w)
    as [[response |] w1]; cbn [fst snd fetched].
  2:{ split; [exists RequestException |]; reflexivity. }
  destruct ((400 <=? Api.status_code response)
            && (Api.status_code response <? 600))%bool.
  { split; [exists RequestException |]; reflexivity. }
  destruct (Api.json response) as [pr_info | members] eqn:Ej.
  2:{ split; [exists (KeyError "state") |]; reflexivity. }
  destruct (_get_commit_repo_info pr_info sha) as [[co cr] pr_sha] eqn:El.
  fold (pr_branch_name_of n sha).
  set (main := Api.ref (Api.base pr_info) ++ "-" ++ Py.str_of_int n).
  set (prb := pr_branch_name_of n sha).
  set (target := owner ++ "-" ++ repo).
  destruct (ensure_step_run bool self target main
              (_create_orphan_branch_with_commit env self owner repo target
                 main (Api.sha (Api.base pr_info)))
              true
              (fun success =>
                 bind (_check_branch_exists env self target prb)
                   (fun pr_exists =>
                      bind (if pr_exists then ret success
                            else bind (_create_branch_from_base env self owner
                                         repo target prb pr_sha main)
                                   (fun created =>
                                      if negb created then ret false
                                      else ret success))
                        (fun success0 =>
                           bind (if success0
                                 then bind (_create_pull_request env self
                                              target prb main pr_info)
                                        (fun _ => ret tt)
                                 else ret tt)
                             (fun _ => ret success0))))
              w1 (create_orphan_total env self owner repo target main _))
    as (a1 & m1 & s1 & w2 & Hstep1 & Hrun1).
  rewrite Hrun1. clear Hrun1. cbn [andb].
  destruct (ensure_step_run bool self target prb
              (_create_branch_from_base env self owner repo target prb pr_sha
                 main)
              s1
              (fun success0 =>
                 bind (if success0
                       then bind (_create_pull_request env self target prb
                                    main pr_info)
                              (fun _ => ret tt)
                       else ret tt)
                   (fun _ => ret success0))
              w2 (create_from_base_total env self owner repo target prb _ _))
    as (a2 & m2 & s2 & w3 & Hstep2 & Hrun2).
  rewrite Hrun2. clear Hrun2.
  destruct (create_pull_request_run env self target prb main pr_info w3)
    as [bpr Hpr].
  cbv zeta in Hpr.
  exists response.
  destruct (s1 && s2)%bool eqn:Es.
  - exists {| main_branch_name := main; pr_branch_name := prb;
              main_answer := a1; main_work := m1; main_ok := s1;
              pr_answer := a2; pr_work := m2; pr_ok := s2;
              opening :=
                [EvPost (pull_request_url self target)
                   (pull_request_data prb main pr_info) (headers self)
                   (fst (requests_post env (pull_request_url self target)
                           (pull_request_data prb main pr_info)
                           (headers self) w3))] |}.
    unfold branch_steps_of, steps_trace. cbn [main_branch_name pr_branch_name
      main_answer main_work main_ok pr_answer pr_work pr_ok opening].
    fold target. rewrite El. cbn [snd]. rewrite Es.
    split; [reflexivity |]. split; [exact Ej |].
    split; [repeat split; try assumption; eexists; reflexivity |].
    unfold bind, ret. rewrite Hpr. cbn [fst snd trace_of result_of app].
    split; [| reflexivity].
    try rewrite !app_nil_r. try rewrite <- !app_assoc. reflexivity.
  - exists {| main_branch_name := main; pr_branch_name := prb;
              main_answer := a1; main_work := m1; main_ok := s1;
              pr_answer := a2; pr_work := m2; pr_ok := s2;
              opening := [] |}.
    unfold branch_steps_of, steps_trace. cbn [main_branch_name pr_branch_name
      main_answer main_work main_ok pr_answer pr_work pr_ok opening].
    fold target. rewrite El. cbn [snd]. rewrite Es.
    split; [reflexivity |]. split; [exact Ej |].
    split; [repeat split; try assumption; exists None; reflexivity |].
    unfold bind, ret. cbn [fst snd trace_of result_of app].
    split; [| reflexivity].
    try rewrite !app_nil_r. try rewrite <- !app_assoc. reflexivity.
Qed.

(** What steps 3 to 6 contribute after the events [pre] of a step 2 that
    succeeded, according to what the fetch gives. *)
Lemma shape_after_provisioning :
  forall (self : GitHubPRBranchCreator) (url owner repo : string) (n : Z)
         (sha : option string) (pre : list Event) (w0 : World)
         (y : Result bool * World * list Event),
    _parse_pr_url url = Ok (owner, repo, n, sha) ->
    provisioning self owner repo pre ->
    (forall r w2 t,
        process_pr_from_step3 env self owner repo n sha (owner ++ "-" ++ repo)
          w0 = (r, w2, t) ->
        result_of y = Ok (caught r) /\ trace_of y = (pre ++ t)%list) ->
    match fetched (fst (requests_get env (pr_info_url owner repo n)
                          (headers self) w0)) with
    | None => early_exit self url y
    | Some pr_info =>
        exists b, reaches_branch_steps env self url y owner repo n sha
                    pr_info b
    end.
Proof.
  intros self url owner repo n sha pre w0 y Ep Hpre Hy.
  pose proof (from_step3_shape self owner repo n sha w0) as H.
  cbv zeta in H. unfold result_of, trace_of in H.
  destruct (process_pr_from_step3 env self owner repo n sha
              (owner ++ "-" ++ repo) w0) as [[r w2] t].
  destruct (Hy r w2 t eq_refl) as [Hres Htr]. cbn [fst snd] in H.
  destruct (fetched (fst (requests_get env (pr_info_url owner repo n)
                            (headers self) w0))) as [pr_info |] eqn:Ef.
  - destruct H as (response & b & Hf & Hj & Hb & -> & ->).
    exists b. unfold reaches_branch_steps.
    split; [exact Ep |]. split; [exact Hb |]. split; [exact Hres |].
    exists pre, response. split; [exact Hpre |].
    split; [rewrite <- Hf; exact Ef |]. split; [exact Hj |].
    rewrite Htr, Hf. reflexivity.
  - destruct H as [[ex ->] ->].
    split; [exact Hres |]. right.
    exists owner, repo, n, sha. split; [exact Ep |]. right.
    exists pre. eexists. split; [exact Hpre |]. split; [exact Ef |].
    exact Htr.
Qed.

(** Every run of [process_pr], read off the answers of the collaborators:
    it ends early when the URL does not parse, when step 2 fails and when
    the fetch gives no pull request, and reaches the branch steps of the
    fetched pull request otherwise. *)
Lemma process_pr_run :
  forall (self : GitHubPRBranchCreator) (url : string) (w : World),
    let x := process_pr env self url w in
    match _parse_pr_url url with
    | Raise _ => early_exit self url x
    | Ok (owner, repo, n, sha) =>
        if provisioned env self owner repo w then
          match fetched (fetch_answer env self owner repo n w) with
          | None => early_exit self url x
          | Some pr_info =>
              exists b, reaches_branch_steps env self url x owner repo n sha
                          pr_info b
          end
        else early_exit self url x
    end.
Proof.
  intros self url w x.
  assert (Hx : x = process_pr env self url w) by reflexivity.
  clearbody x. unfold process_pr, try_except in Hx.
  unfold bind at 1 in Hx. unfold lift in Hx.
  destruct (_parse_pr_url url) as [[[[owner repo] n] sha] | e] eqn:Ep.
  2:{ subst x. split; [destruct e; reflexivity |]. left. exists e.
      split; [exact Ep | destruct e; reflexivity]. }
  unfold bind at 1 in Hx. rewrite check_repo_exists_run in Hx.
  cbv zeta in Hx.
  unfold provisioned, fetch_answer, creation_answer, check_answer.
  destruct (requests_get env (repo_url self owner repo) (headers self) w)
    as [a0 w1]. cbn [fst snd] in *.
  destruct (answered_200 a0) eqn:Ea; cbn [negb orb] in *.
  - apply (shape_after_provisioning self url owner repo n sha
             [EvGet (repo_url self owner repo) (headers self) a0] w1);
      [exact Ep | exists a0; left; split; [exact Ea | reflexivity] |].
    intros r w2 t Hr. rewrite Hx, Hr. unfold result_of, trace_of.
    destruct r as [b | ex]; [| destruct ex]; cbn [fst snd caught ret app];
      rewrite ?app_nil_r; split; reflexivity.
  - unfold bind at 1 in Hx. rewrite create_repository_run in Hx.
    cbv zeta in Hx.
    destruct (requests_post env (org_repos_url self)
                (repository_data owner repo) (headers self) w1)
      as [a1 w2]. cbn [fst snd] in *.
    destruct (answered_201 a1) eqn:Ec; cbn [negb] in Hx.
    + apply (shape_after_provisioning self url owner repo n sha
               [EvGet (repo_url self owner repo) (headers self) a0;
                EvPost (org_repos_url self) (repository_data owner repo)
                  (headers self) a1] w2);
        [exact Ep
        | exists a0; right; split; [exact Ea |]; exists a1;
          split; [exact Ec | reflexivity]
        |].
      intros r w3 t Hr. rewrite Hx, Hr. unfold result_of, trace_of.
      destruct r as [b | ex]; [| destruct ex]; cbn [fst snd caught ret app];
        rewrite ?app_nil_r; split; reflexivity.
    + subst x. split; [reflexivity |]. right.
      exists owner, repo, n, sha. split; [exact Ep |]. left.
      exists a0, a1. split; [exact Ea |]. split; [exact Ec |]. reflexivity.
Qed.

(** Every run of [process_pr] either ends early or reaches the branch
    steps. *)
Lemma process_pr_shape :
  forall (self : GitHubPRBranchCreator) (url : string) (w : World),
    let x := process_pr env self url w in
    early_exit self url x
    \/ exists owner repo n sha pr_info b,
         reaches_branch_steps env self url x owner repo n sha pr_info b.
Proof.
  intros self url w x.
  pose proof (process_pr_run self url w) as H. cbv zeta in H. fold x in H.
  destruct (_parse_pr_url url) as [[[[owner repo] n] sha] | e];
    [| left; exact H].
  destruct (provisioned env self owner repo w); [| left; exact H].
  destruct (fetched (fetch_answer env self owner repo n w)) as [pr_info |];
    [| left; exact H].
  destruct H as [b H]. right. exists owner, repo, n, sha, pr_info, b.
  exact H.
Qed.

(** A run that parses the URL, finds or creates the repository and fetches
    a pull request reaches the branch steps of that pull request. *)
Lemma process_pr_progress :
  forall (self : GitHubPRBranchCreator) (url owner repo : string) (n : Z)
         (sha : option string) (pr_info : Api.PullRequestInfo) (w : World),
    _parse_pr_url url = Ok (owner, repo, n, sha) ->
    provisioned env self owner repo w = true ->
    fetched (fetch_answer env self owner repo n w) = Some pr_info ->
    exists b,
      reaches_branch_steps env self url (process_pr env self url w) owner
        repo n sha pr_info b.
Proof.
  intros self url owner repo n sha pr_info w Ep Hp Hf.
  pose proof (process_pr_run self url w) as H. cbv zeta in H.
  rewrite Ep, Hp, Hf in H. exact H.
Qed.

End Orchestrator.

Lemma ensure_step_present :
  forall (World : Type) (create : M World bool)
         (answer : option Api.Response) (work : list Event) (ok : bool),
    ensure_step create answer work ok ->
    answered_200 answer = true -> work = [] /\ ok = true.
Proof.
  intros World create answer work ok H Ha.
  destruct H as [_ | w w' created work Hn _]; [split; reflexivity |].
  rewrite Ha in Hn. discriminate.
Qed.

Lemma ensure_step_absent :
  forall (World : Type) (create : M World bool)
         (answer : option Api.Response) (work : list Event) (ok : bool),
    ensure_step create answer work ok ->
    answered_200 answer = false ->
    exists w w', create w = (Ok ok, w', work).
Proof.
  intros World create answer work ok H Ha.
  destruct H as [Hp | w w' created work _ Hc].
  - rewrite Ha in Hp. discriminate.
  - exists w, w'. exact Hc.
Qed.

Lemma provisioning_http :
  forall (self : GitHubPRBranchCreator) (owner repo : string)
         (pre : list Event),
    provisioning self owner repo pre ->
    Forall (fun e => is_http e = true) pre.
Proof.
  intros self owner repo pre [a0 [[_ ->] | (_ & a1 & _ & ->)]];
    repeat constructor.
Qed.

(** C7. In every run of [process_pr] that reaches the branch steps, a
    branch the existence check reports present (status 200) is not
    materialized: no event separates its check from the next step.  When
    both branches are reported present the whole run consists of HTTP
    requests, so neither materializer ran.  A branch reported absent is
    materialized, which shows as the creation of a scratch directory. *)
Theorem existing_branches_are_not_materialized :
  forall (World : Type) (env : Env World) (self : GitHubPRBranchCreator)
         (url : string) (w : World),
    let x := process_pr env self url w in
    early_exit self url x
    \/ exists owner repo n sha pr_info b,
         reaches_branch_steps env self url x owner repo n sha pr_info b
         /\ (answered_200 (main_answer b) = true -> main_work b = [])
         /\ (answered_200 (pr_answer b) = true -> pr_work b = [])
         /\ (answered_200 (main_answer b) = true ->
             answered_200 (pr_answer b) = true ->
             Forall (fun e => is_http e = true) (trace_of x))
         /\ (answered_200 (main_answer b) = false ->
             exists r t, main_work b = EvTempDir r :: t)
         /\ (answered_200 (pr_answer b) = false ->
             exists r t, pr_work b = EvTempDir r :: t).
Proof.
  intros World env self url w x.
  destruct (process_pr_shape env self url w)
    as [H | (owner & repo & n & sha & pr_info & b & H)]; [left; exact H |].
  right. exists owner, repo, n, sha, pr_info, b. split; [exact H |].
  destruct H as (Hp & (Hm & Hn & Hs1 & Hs2 & answer & Ho) & Hres
                 & pre & response & Hpre & Hfetched & Hj & Htr).
  split; [intro Ha; apply (ensure_step_present _ _ _ _ _ Hs1 Ha) |].
  split; [intro Ha; apply (ensure_step_present _ _ _ _ _ Hs2 Ha) |].
  split; [| split].
  - intros Ha1 Ha2. fold x in Htr. rewrite Htr.
    destruct (ensure_step_present _ _ _ _ _ Hs1 Ha1) as [Hw1 Hk1].
    destruct (ensure_step_present _ _ _ _ _ Hs2 Ha2) as [Hw2 Hk2].
    unfold steps_trace. rewrite Hw1, Hw2, Ho, Hk1, Hk2. simpl.
    apply Forall_app. split; [apply (provisioning_http _ _ _ _ Hpre) |].
    repeat constructor.
  - intro Ha. destruct (ensure_step_absent _ _ _ _ _ Hs1 Ha) as (w0 & w1 & Hc).
    destruct (create_orphan_starts env self owner repo (owner ++ "-" ++ repo)
                (main_branch_name b) (Api.sha (Api.base pr_info)) w0)
      as (r & t & Hst).
    rewrite Hc in Hst. exists r, t. exact Hst.
  - intro Ha. destruct (ensure_step_absent _ _ _ _ _ Hs2 Ha) as (w0 & w1 & Hc).
    destruct (create_from_base_starts env self owner repo
                (owner ++ "-" ++ repo) (pr_branch_name b)
                (snd (_get_commit_repo_info pr_info sha))
                (main_branch_name b) w0)
      as (r & t & Hst).
    rewrite Hc in Hst. exists r, t. exact Hst.
Qed.

(** C4. A run of [process_pr] ends early, for one of the three causes of
    [early_exit], or reaches the branch steps; it reaches them whenever the
    URL parses, the repository is found or created and the fetch gives a
    pull request.  In every run that reaches them, the PR-state branch is
    checked, and materialized if absent, whatever the base-state step gave;
    the pull request is opened exactly when both steps succeeded; and the
    result is the conjunction of the two steps, so that it is success
    whenever the opening was attempted, whatever the answer to it. *)
Theorem branch_steps_are_independent :
  forall (World : Type) (env : Env World) (self : GitHubPRBranchCreator)
         (url : string) (w : World),
    let x := process_pr env self url w in
    (early_exit self url x
     \/ exists owner repo n sha pr_info b,
          reaches_branch_steps env self url x owner repo n sha pr_info b)
    /\ (forall owner repo n sha pr_info,
           _parse_pr_url url = Ok (owner, repo, n, sha) ->
           provisioned env self owner repo w = true ->
           fetched (fetch_answer env self owner repo n w) = Some pr_info ->
           exists b,
             reaches_branch_steps env self url x owner repo n sha pr_info b)
    /\ forall owner repo n sha pr_info b,
         reaches_branch_steps env self url x owner repo n sha pr_info b ->
         In (EvGet (branch_url self (owner ++ "-" ++ repo)
                      (pr_branch_name b))
               (headers self) (pr_answer b))
           (trace_of x)
         /\ (main_ok b = false ->
             answered_200 (pr_answer b) = false ->
             exists w0 w1,
               _create_branch_from_base env self owner repo
                 (owner ++ "-" ++ repo) (pr_branch_name b)
                 (snd (_get_commit_repo_info pr_info sha))
                 (main_branch_name b) w0
               = (Ok (pr_ok b), w1, pr_work b))
         /\ (opening b <> [] -> main_ok b = true /\ pr_ok b = true)
         /\ (main_ok b = true -> pr_ok b = true ->
             exists answer,
               opening b
               = [EvPost (pull_request_url self (owner ++ "-" ++ repo))
                    (pull_request_data (pr_branch_name b)
                       (main_branch_name b) pr_info)
                    (headers self) answer])
         /\ result_of x = Ok (main_ok b && pr_ok b)%bool
         /\ (opening b <> [] -> result_of x = Ok true).
Proof.
  intros World env self url w x.
  split; [apply process_pr_shape |].
  split; [intros owner repo n sha pr_info;
          apply (process_pr_progress env self url owner repo n sha pr_info w) |].
  intros owner repo n sha pr_info b H.
  destruct H as (Hp & (Hm & Hn & Hs1 & Hs2 & answer & Ho) & Hres
                 & pre & response & Hpre & Hfetched & Hj & Htr).
  split.
  { rewrite Htr. unfold steps_trace. apply in_or_app. right. right.
    apply in_or_app. right. apply in_or_app. left. left. reflexivity. }
  split.
  { intros _ Ha. apply (ensure_step_absent _ _ _ _ _ Hs2 Ha). }
  split.
  { intro Hne. rewrite Ho in Hne.
    destruct (main_ok b), (pr_ok b); simpl in Hne;
      first [split; reflexivity | contradiction]. }
  split.
  { intros H1 H2. exists answer. rewrite Ho, H1, H2. reflexivity. }
  split; [exact Hres |].
  intro Hne. rewrite Hres. rewrite Ho in Hne.
  destruct (main_ok b), (pr_ok b); simpl in Hne;
    first [reflexivity | contradiction].
Qed.

Lemma branch_steps_are_independent_witness :
  exists b,
    reaches_branch_steps broken_git_env demo_self
      "https://github.com/org/widget/pull/42/commits/0a1b2c3d4e5f"
      (process_pr broken_git_env demo_self
         "https://github.com/org/widget/pull/42/commits/0a1b2c3d4e5f" tt)
      "org" "widget" 42 (Some "0a1b2c3d4e5f") same_repo_pr b.
Proof.
  apply (proj1 (proj2 (branch_steps_are_independent unit broken_git_env
                         demo_self
                         "https://github.com/org/widget/pull/42/commits/0a1b2c3d4e5f"
                         tt))
           "org" "widget" 42 (Some "0a1b2c3d4e5f") same_repo_pr);
    reflexivity.
Defined.

(** C5. A run of [process_pr] ends early, for one of the three causes of
    [early_exit], or reaches the branch steps; it reaches them whenever the
    URL parses, the repository is found or created and the fetch gives a
    pull request.  In every run that reaches them, for the base ref [B] of
    the pull request, the PR number [N] and the pinned SHA [S] read from
    the URL, the base-state branch is named [B-N] and the PR-state branch
    [pr-N], or [pr-N-] followed by the first 8 characters of [S] when the
    URL pins a commit.  These are the names of the existence checks, of the
    materializer calls and of the pull request. *)
Theorem branch_names :
  forall (World : Type) (env : Env World) (self : GitHubPRBranchCreator)
         (url : string) (w : World),
    let x := process_pr env self url w in
    (early_exit self url x
     \/ exists owner repo n sha pr_info b,
          reaches_branch_steps env self url x owner repo n sha pr_info b)
    /\ (forall owner repo n sha pr_info,
           _parse_pr_url url = Ok (owner, repo, n, sha) ->
           provisioned env self owner repo w = true ->
           fetched (fetch_answer env self owner repo n w) = Some pr_info ->
           exists b,
             reaches_branch_steps env self url x owner repo n sha pr_info b)
    /\ forall owner repo n sha pr_info b,
         reaches_branch_steps env self url x owner repo n sha pr_info b ->
         main_branch_name b
         = Api.ref (Api.base pr_info) ++ "-" ++ Py.str_of_int n
         /\ pr_branch_name b
            = match sha with
              | None => "pr-" ++ Py.str_of_int n
              | Some s => "pr-" ++ Py.str_of_int n ++ "-" ++ Py.take 8 s
              end.
Proof.
  intros World env self url w x.
  split; [apply process_pr_shape |].
  split; [intros owner repo n sha pr_info;
          apply (process_pr_progress env self url owner repo n sha pr_info w) |].
  intros owner repo n sha pr_info b H.
  destruct H as (Hp & (Hm & Hn & _) & _). split; [exact Hm |].
  rewrite Hn. unfold pr_branch_name_of.
  destruct sha as [s |]; [| reflexivity].
  pose proof (parse_pinned_nonempty url owner repo n s Hp) as Hne.
  destruct s as [| c s]; [contradiction |].
  cbn [Py.truthy py_or].
  rewrite (append_assoc "pr-"). reflexivity.
Qed.

Lemma branch_names_witness :
  exists b,
    reaches_branch_steps rerun_env demo_self
      "https://github.com/org/widget/pull/42"
      (process_pr rerun_env demo_self "https://github.com/org/widget/pull/42"
         tt)
      "org" "widget" 42 None same_repo_pr b.
Proof.
  apply (proj1 (proj2 (branch_names unit rerun_env demo_self
                         "https://github.com/org/widget/pull/42" tt))
           "org" "widget" 42 None same_repo_pr);
    reflexivity.
Defined.

(** *** Two concrete runs *)

(** A rerun: both branches exist, five HTTP requests are made and nothing
    else, and the branches checked are [main-42] and [pr-42]. *)
Example rerun_skips_materialization :
  let x := process_pr rerun_env demo_self
             "https://github.com/org/widget/pull/42" tt in
  result_of x = Ok true
  /\ forallb is_http (trace_of x) = true
  /\ List.length (trace_of x) = 5%nat
  /\ In (EvGet
           "https://api.github.com/repos/JulianEgbertMasterThesis/org-widget/branches/main-42"
           (headers demo_self)
           (Some (reply 200 (Api.JsonObject Api.no_members))))
        (trace_of x)
  /\ In (EvGet
           "https://api.github.com/repos/JulianEgbertMasterThesis/org-widget/branches/pr-42"
           (headers demo_self)
           (Some (reply 200 (Api.JsonObject Api.no_members))))
        (trace_of x).
Proof.
  cbv zeta. repeat split; try reflexivity;
    vm_compute; repeat first [left; reflexivity | right].
Qed.

(** A first run with a broken [git] and a pinned commit: the base-state
    branch cannot be created, the PR-state branch [pr-42-0a1b2c3d] is
    checked and attempted all the same, no pull request is opened and the
    result is failure. *)
Example both_branches_attempted :
  let x := process_pr broken_git_env demo_self
             "https://github.com/org/widget/pull/42/commits/0a1b2c3d4e5f" tt in
  result_of x = Ok false
  /\ List.length
       (filter (fun e => match e with EvTempDir _ => true | _ => false end)
          (trace_of x)) = 2%nat
  /\ existsb (fun e => match e with EvPost _ _ _ _ => true | _ => false end)
       (trace_of x) = false
  /\ In (EvGet
           "https://api.github.com/repos/JulianEgbertMasterThesis/org-widget/branches/pr-42-0a1b2c3d"
           (headers demo_self)
           (Some (reply 404
                    (Api.JsonObject (Api.member "message" "Not Found")))))
        (trace_of x).
Proof.
  cbv zeta. repeat split; try reflexivity;
    vm_compute; repeat first [left; reflexivity | right].
Qed.

(** * Further properties *)

(** ** URL resolver *)

Lemma digit_value_range :
  forall c : ascii, Py.isdigit c = true -> 0 <= Py.digit_value c <= 9.
Proof.
  intros [[] [] [] [] [] [] [] []]; vm_compute; intro H;
    first [discriminate H | split; discriminate].
Qed.

Lemma int_digits_nonneg :
  forall (s : string) (acc : Z),
    0 <= acc -> Py.all_chars Py.isdigit s = true ->
    0 <= Py.int_digits acc s.
Proof.
  induction s as [| c s IH]; cbn [Py.int_digits Py.all_chars];
    intros acc Hacc H; [exact Hacc |].
  apply andb_true_iff in H. destruct H as [Hc Hs].
  apply IH; [| exact Hs]. pose proof (digit_value_range c Hc). lia.
Qed.

Lemma int_ok_inv :
  forall (s : string) (m : Z),
    int s = Ok m -> m = Py.int_digits 0 s /\ len s <= max_str_digits.
Proof.
  intros s m. unfold int, len.
  destruct s as [| c s]; [discriminate |].
  destruct (Py.all_chars Py.isdigit (String c s)); [| discriminate].
  destruct (Z.ltb_spec max_str_digits (Z.of_nat (String.length (String c s))))
    as [H | H]; [discriminate |].
  intro E. injection E as <-. split; [reflexivity | exact H].
Qed.

(** X1. Whatever [_parse_pr_url] returns satisfies the invariant of a PR
    reference: owner and repository are non-empty and free of slashes, the
    number is a natural number (zero included), and a pinned commit is a
    non-empty string of lower-case hexadecimal digits. *)
Theorem parse_pr_url_invariant :
  forall (url owner repo : string) (n : Z) (sha : option string),
    _parse_pr_url url = Ok (owner, repo, n, sha) ->
    segment owner /\ segment repo /\ 0 <= n
    /\ forall s, sha = Some s ->
                 s <> "" /\ Py.all_chars Re.lower_hex s = true.
Proof.
  intros url owner repo n sha H. unfold _parse_pr_url in H.
  rewrite match_groups_scan in H.
  destruct (scan_pr_url (Py.strip url)) as [g |] eqn:E; [| discriminate].
  apply scan_inv in E.
  destruct E as (o & r & num & rest & _ & Ho & Hr & Hd & _ & ->).
  destruct (int num) as [m | e] eqn:Ei; [| discriminate].
  apply int_ok_inv in Ei. destruct Ei as [-> _].
  injection H as <- <- <- <-.
  split; [exact Ho |]. split; [exact Hr |]. split.
  - apply int_digits_nonneg; [lia | apply Hd].
  - intros s Hs. unfold scan_commit in Hs.
    destruct (Py.startswith "/commits/" rest); [| discriminate].
    cbv zeta in Hs.
    destruct (is_empty (take_while Re.lower_hex (Py.drop 9 rest))) eqn:Ee;
      [discriminate |].
    injection Hs as <-. split; [apply is_empty_false; exact Ee |].
    apply all_take_while.
Qed.

Lemma parse_pr_url_invariant_witness :
  segment "octo" /\ segment "widget" /\ 0 <= 42
  /\ forall s, Some "0a1b2c" = Some s ->
               s <> "" /\ Py.all_chars Re.lower_hex s = true.
Proof.
  apply (parse_pr_url_invariant
           "https://github.com/octo/widget/pull/42/commits/0a1b2c").
  reflexivity.
Defined.

Lemma lstrip_app :
  forall u b : string,
    Py.lstrip (u ++ b)
    = if is_empty (Py.lstrip u) then Py.lstrip b else Py.lstrip u ++ b.
Proof.
  intros u b. induction u as [| c u IH]; simpl.
  - destruct (Py.lstrip b); reflexivity.
  - destruct (Py.isspace c); [exact IH | reflexivity].
Qed.

Lemma lstrip_blank :
  forall a : string, Py.all_chars Py.isspace a = true -> Py.lstrip a = "".
Proof.
  induction a as [| c a IH]; simpl; intro H; [reflexivity |].
  apply andb_true_iff in H. destruct H as [Hc Ha]. rewrite Hc. exact (IH Ha).
Qed.

Lemma rstrip_blank :
  forall b : string, Py.all_chars Py.isspace b = true -> Py.rstrip b = "".
Proof.
  induction b as [| c b IH]; simpl; intro H; [reflexivity |].
  apply andb_true_iff in H. destruct H as [Hc Hb].
  rewrite (IH Hb), Hc. reflexivity.
Qed.

(** White space around a string does not survive [strip]. *)
Lemma strip_padded :
  forall a url b : string,
    Py.all_chars Py.isspace a = true -> Py.all_chars Py.isspace b = true ->
    Py.strip (a ++ url ++ b) = Py.strip url.
Proof.
  intros a url b Ha Hb. unfold Py.strip.
  rewrite lstrip_app, (lstrip_blank a Ha). cbn [is_empty].
  rewrite lstrip_app. destruct (Py.lstrip url) as [| c u] eqn:E; cbn [is_empty].
  - rewrite (lstrip_blank b Hb). reflexivity.
  - rewrite rstrip_app, (rstrip_blank b Hb). reflexivity.
Qed.

(** X2. White space before and after a reference does not change what
    [_parse_pr_url] makes of it: the padded string parses to the same
    result; when the number of the reference is too long for [int], both
    raise the same error; and when the reference is rejected so is the
    padded string, with an error that carries the padded string. *)
Theorem parse_pr_url_ignores_padding :
  forall a url b : string,
    Py.all_chars Py.isspace a = true ->
    Py.all_chars Py.isspace b = true ->
    (forall x, _parse_pr_url (a ++ url ++ b) = Ok x <-> _parse_pr_url url = Ok x)
    /\ (forall number : string,
           reference_number (Py.strip url) number ->
           max_str_digits < len number ->
           _parse_pr_url (a ++ url ++ b) = _parse_pr_url url)
    /\ (~ reference_prefix (Py.strip url) ->
        _parse_pr_url (a ++ url ++ b)
        = Raise (ValueError
                   ("Invalid GitHub PR URL format: " ++ a ++ url ++ b))).
Proof.
  intros a url b Ha Hb.
  pose proof (strip_padded a url b Ha Hb) as Hs. split; [| split].
  - intro x. unfold _parse_pr_url. rewrite Hs.
    destruct (Re.match_groups 4 pattern (Py.strip url))
      as [[| [o |] [| [r |] [| [num |] [| sha [|]]]]] |];
      try (split; discriminate); try reflexivity.
  - intros number Href Hl.
    rewrite (parse_over_limit url number Href Hl).
    apply parse_over_limit; [rewrite Hs; exact Href | exact Hl].
  - intro Hfail. apply parse_raises. rewrite Hs. exact Hfail.
Qed.

Lemma parse_pr_url_ignores_padding_witness :
  _parse_pr_url ("  " ++ "https://github.com/octo/widget/pull/42" ++ " ")
  = Ok ("octo", "widget", 42, None).
Proof.
  apply (proj1 (parse_pr_url_ignores_padding "  "
                  "https://github.com/octo/widget/pull/42" " "
                  eq_refl eq_refl)).
  reflexivity.
Defined.

(** *** Decimal numerals *)

Lemma string_of_uint_digits :
  forall d : Decimal.uint,
    Py.all_chars Py.isdigit (NilEmpty.string_of_uint d) = true.
Proof. induction d; simpl; auto. Qed.

(** Evaluates the value of a literal digit in the goal. *)
Ltac eval_digit :=
  match goal with
  | |- context [Py.digit_value ?c] =>
      let v := eval vm_compute in (Py.digit_value c) in
      change (Py.digit_value c) with v
  end.

Lemma int_digits_acc :
  forall (d : Decimal.uint) (acc : positive),
    Py.int_digits (Zpos acc) (NilEmpty.string_of_uint d)
    = Zpos (Pos.of_uint_acc d acc).
Proof.
  induction d; intro acc;
    cbn [NilEmpty.string_of_uint Py.int_digits Pos.of_uint_acc];
    try reflexivity;
    rewrite <- IHd; f_equal; eval_digit; lia.
Qed.

Lemma int_digits_uint :
  forall d : Decimal.uint,
    Py.int_digits 0 (NilEmpty.string_of_uint d) = Z.of_N (Pos.of_uint d).
Proof.
  induction d;
    cbn [NilEmpty.string_of_uint Py.int_digits Pos.of_uint Z.of_N];
    try reflexivity;
    try (rewrite <- IHd; f_equal; eval_digit; lia);
    rewrite <- int_digits_acc; f_equal; eval_digit; lia.
Qed.

(** [int(str(n)) = n] for a natural number, and [str(n)] is a numeral. *)
Lemma int_of_str :
  forall n : Z,
    0 <= n ->
    digits (Py.str_of_int n)
    /\ Py.int_digits 0 (Py.str_of_int n) = n.
Proof.
  intros n Hn. unfold Py.str_of_int.
  destruct n as [| p | p]; [| | lia].
  - split; [split; [discriminate | reflexivity] | reflexivity].
  - cbn [Z.to_int NilZero.string_of_int].
    pose proof (DecimalPos.Unsigned.to_uint_nonnil p) as Hnn.
    pose proof (DecimalPos.Unsigned.of_to p) as Hot.
    assert (Hs : NilZero.string_of_uint (Pos.to_uint p)
                 = NilEmpty.string_of_uint (Pos.to_uint p)).
    { destruct (Pos.to_uint p); [contradiction | reflexivity ..]. }
    rewrite Hs. split; [split |].
    + destruct (Pos.to_uint p); [contradiction | discriminate ..].
    + apply string_of_uint_digits.
    + rewrite int_digits_uint, Hot. reflexivity.
Qed.

Lemma take_while_all :
  forall (p : ascii -> bool) (s : string),
    Py.all_chars p s = true -> take_while p s = s.
Proof.
  intros p s. induction s as [| c s IH]; simpl; intro H; [reflexivity |].
  apply andb_true_iff in H. destruct H as [Hc Hs].
  rewrite Hc, (IH Hs). reflexivity.
Qed.

Lemma parse_with_commit :
  forall owner repo number hex : string,
    segment owner -> segment repo -> digits number ->
    len number <= max_str_digits ->
    hex <> "" -> Py.all_chars Re.lower_hex hex = true ->
    _parse_pr_url ("https://github.com/" ++ owner ++ "/" ++ repo ++ "/pull/"
                   ++ number ++ "/commits/" ++ hex)
    = Ok (owner, repo, Py.int_digits 0 number, Some hex).
Proof.
  intros owner repo number hex Ho Hr Hn Hl Hne Hall.
  assert (Eh : Py.rstrip hex = hex).
  { apply (rstrip_keep Re.lower_hex); auto using hex_not_space. }
  assert (Er : Py.rstrip ("/commits/" ++ hex) = "/commits/" ++ hex).
  { rewrite (proj1 (rstrip_inside "/commits/" hex
                      ltac:(rewrite Eh; exact Hne))).
    rewrite Eh. reflexivity. }
  rewrite parse_shaped; try assumption.
  2:{ rewrite Er, take_while_stop, append_nil_r by reflexivity. exact Hl. }
  rewrite Er.
  rewrite take_while_stop, drop_while_stop, append_nil_r by reflexivity.
  unfold scan_commit. rewrite startswith_app.
  change 9%nat with (String.length "/commits/").
  rewrite (drop_app "/commits/"). cbv zeta.
  rewrite take_while_all by assumption.
  destruct hex; [contradiction | reflexivity].
Qed.

Lemma parse_without_commit :
  forall owner repo number : string,
    segment owner -> segment repo -> digits number ->
    len number <= max_str_digits ->
    _parse_pr_url ("https://github.com/" ++ owner ++ "/" ++ repo ++ "/pull/"
                   ++ number)
    = Ok (owner, repo, Py.int_digits 0 number, None).
Proof.
  intros owner repo number Ho Hr Hn Hl.
  rewrite <- (append_nil_r number) at 1.
  rewrite parse_shaped; try assumption.
  - cbn [Py.rstrip take_while drop_while]. rewrite append_nil_r. reflexivity.
  - cbn [Py.rstrip take_while]. rewrite append_nil_r. exact Hl.
Qed.

Lemma parse_long_number :
  forall owner repo number : string,
    segment owner -> segment repo -> digits number ->
    max_str_digits < len number ->
    _parse_pr_url ("https://github.com/" ++ owner ++ "/" ++ repo ++ "/pull/"
                   ++ number)
    = Raise (ValueError (digit_limit_message number)).
Proof.
  intros owner repo number Ho Hr Hn Hl.
  rewrite <- (append_nil_r number) at 1.
  rewrite parse_oversized; try assumption.
  - cbn [Py.rstrip take_while]. rewrite append_nil_r. reflexivity.
  - cbn [Py.rstrip take_while]. rewrite append_nil_r. exact Hl.
Qed.

(** X3. Parsing inverts the canonical spelling of a PR reference, up to
    the limit of [int].  For an owner and a repository without slashes and
    a natural number [n] of at most 4300 digits, the URL
    [https://github.com/<owner>/<repo>/pull/<n>] parses to the owner, the
    repository and [n] with no pinned commit, and the same URL followed by
    [/commits/<sha>], for a non-empty lower-case hexadecimal [sha], parses
    to them with the commit pinned.  With more digits the URL is
    refused. *)
Theorem parse_pr_url_round_trip :
  forall (owner repo : string) (n : Z),
    segment owner -> segment repo -> 0 <= n ->
    let url := "https://github.com/" ++ owner ++ "/" ++ repo ++ "/pull/"
               ++ Py.str_of_int n in
    (len (Py.str_of_int n) <= max_str_digits ->
     _parse_pr_url url = Ok (owner, repo, n, None)
     /\ forall sha : string,
          sha <> "" -> Py.all_chars Re.lower_hex sha = true ->
          _parse_pr_url ("https://github.com/" ++ owner ++ "/" ++ repo
                         ++ "/pull/" ++ Py.str_of_int n ++ "/commits/" ++ sha)
          = Ok (owner, repo, n, Some sha))
    /\ (max_str_digits < len (Py.str_of_int n) ->
        _parse_pr_url url
        = Raise (ValueError (digit_limit_message (Py.str_of_int n)))).
Proof.
  intros owner repo n Ho Hr Hn url. subst url.
  destruct (int_of_str n Hn) as [Hd Hv]. split.
  - intro Hl. split.
    + rewrite parse_without_commit by assumption. rewrite Hv. reflexivity.
    + intros sha Hne Hall.
      rewrite parse_with_commit by assumption. rewrite Hv. reflexivity.
  - intro Hl. apply parse_long_number; assumption.
Qed.

Lemma parse_pr_url_round_trip_witness :
  _parse_pr_url ("https://github.com/" ++ "octo" ++ "/" ++ "widget" ++ "/pull/"
                 ++ Py.str_of_int 1234 ++ "/commits/" ++ "0a1b2c3d")
  = Ok ("octo", "widget", 1234, Some "0a1b2c3d").
Proof.
  refine (proj2 (proj1 (parse_pr_url_round_trip "octo" "widget" 1234 _ _ _) _)
            "0a1b2c3d" _ _);
    unfold segment; repeat split; try discriminate; try reflexivity.
Defined.

(** ** Construction and entry point *)

(** X4. [__init__] succeeds exactly when a non-empty token is given or found
    in the environment, the given one taking precedence; the object it
    builds holds that token, sends it in the [Authorization] header of
    every request and targets the fixed organization.  With no token it
    raises a [ValueError]. *)
Theorem init_token :
  forall arg environ : option string,
    (forall self,
        __init__ arg environ = Ok self ->
        github_token self <> ""
        /\ (Py.truthy arg = true -> arg = Some (github_token self))
        /\ (Py.truthy arg = false -> environ = Some (github_token self))
        /\ target_org self = "JulianEgbertMasterThesis"
        /\ headers self
           = [("Authorization", "token " ++ github_token self);
              ("Accept", "application/vnd.github.v3+json")])
    /\ ((exists self, __init__ arg environ = Ok self)
        <-> Py.truthy arg = true \/ Py.truthy environ = true)
    /\ (Py.truthy arg = false -> Py.truthy environ = false ->
        __init__ arg environ
        = Raise (ValueError
            "GitHub token is required. Set GITHUB_TOKEN environment variable.")).
Proof.
  intros arg environ. unfold __init__.
  destruct arg as [[| c t] |]; destruct environ as [[| c' t'] |];
    cbn [Py.truthy];
    (split; [intros self H; try discriminate H; injection H as <-;
             cbn [github_token target_org headers];
             repeat split; intros; try discriminate; try reflexivity
            | split; [split; [intros [self H]; try discriminate H; auto
                             | intros [H | H]; try discriminate H;
                               eexists; reflexivity]
                     | intros; try discriminate; reflexivity]]).
Qed.

Lemma init_token_witness :
  __init__ (Some "") None
  = Raise (ValueError
      "GitHub token is required. Set GITHUB_TOKEN environment variable.").
Proof.
  apply (proj2 (proj2 (init_token (Some "") None))); reflexivity.
Defined.

(** X5. The script exits with status 0 exactly when a token is set, the
    line read is not blank and [process_pr] returns [True] on the stripped
    line; otherwise it exits with status 1.  A blank line ends it before
    anything is done, and so does a missing token, with an uncaught
    [ValueError]: in neither case is a collaborator called. *)
Theorem main_exit_status :
  forall (World : Type) (env : Env World) (environ : option string)
         (line : string) (w : World),
    let x := main env environ line w in
    let status := exit_status (fst (fst x)) in
    (status = 0 \/ status = 1)
    /\ (Py.strip line = "" -> x = (SystemExit 1, w, []))
    /\ (Py.strip line <> "" -> Py.truthy environ = false ->
        exists msg, x = (Uncaught (ValueError msg), w, []))
    /\ (status = 0 <->
        Py.strip line <> ""
        /\ exists self,
             __init__ environ environ = Ok self
             /\ process_pr env self (Py.strip line) w
                = (Ok true, snd (fst x), snd x)).
Proof.
  intros World env environ line w x status. subst status x. unfold main.
  destruct (Py.strip line) as [| c s] eqn:Es; cbn [Py.truthy negb].
  { cbn. split; [right; reflexivity |]. split; [reflexivity |].
    split; [intro H; contradiction |].
    split; [discriminate | intros [H _]; contradiction]. }
  assert (Hnone : Py.truthy environ = false ->
                  exists msg, __init__ environ environ
                              = Raise (ValueError msg)).
  { intro Ht. eexists.
    apply (proj2 (proj2 (init_token environ environ)) Ht Ht). }
  destruct (__init__ environ environ) as [self | e] eqn:Ei.
  - destruct (process_pr env self (String c s) w) as [[[[] | e] w'] t] eqn:Ep;
      cbn [fst snd exit_status].
    + split; [left; reflexivity |]. split; [discriminate |].
      split; [intros _ Ht; destruct (Hnone Ht) as [msg Hm]; discriminate |].
      split; [| reflexivity].
      intros _. split; [discriminate |]. exists self.
      split; [reflexivity | exact Ep].
    + split; [right; reflexivity |]. split; [discriminate |].
      split; [intros _ Ht; destruct (Hnone Ht) as [msg Hm]; discriminate |].
      split; [discriminate |].
      intros [_ (self' & H1 & H2)]. injection H1 as <-.
      rewrite Ep in H2. discriminate H2.
    + split; [right; reflexivity |]. split; [discriminate |].
      split; [intros _ Ht; destruct (Hnone Ht) as [msg Hm]; discriminate |].
      split; [discriminate |].
      intros [_ (self' & H1 & H2)]. injection H1 as <-.
      rewrite Ep in H2. discriminate H2.
  - cbn [fst snd exit_status].
    split; [right; reflexivity |]. split; [discriminate |].
    split.
    + intros _ Ht. destruct (Hnone Ht) as [msg Hm].
      injection Hm as ->. exists msg. reflexivity.
    + split; [discriminate |].
      intros [_ (self' & H1 & _)]. discriminate H1.
Qed.

Lemma main_exit_status_witness :
  main rerun_env None "   " tt = (SystemExit 1, tt, []).
Proof.
  apply (proj1 (proj2 (main_exit_status unit rerun_env None "   " tt))).
  reflexivity.
Defined.

(** ** REST requests *)

(** X6. [_check_branch_exists] makes one GET, for the branch of the mirror
    repository, and returns true exactly when it is answered with status
    200; any other status, and a request that raises, give false. *)
Theorem check_branch_exists_iff_200 :
  forall (World : Type) (env : Env World) (self : GitHubPRBranchCreator)
         (target_repo branch_name : string) (w : World),
    let url := "https://api.github.com/repos/" ++ target_org self ++ "/"
               ++ target_repo ++ "/branches/" ++ branch_name in
    let answer := fst (requests_get env url (headers self) w) in
    let x := _check_branch_exists env self target_repo branch_name w in
    trace_of x = [EvGet url (headers self) answer]
    /\ (result_of x = Ok true \/ result_of x = Ok false)
    /\ (result_of x = Ok true
        <-> exists response,
            answer = Some response /\ Api.status_code response = 200).
Proof.
  intros World env self target_repo branch_name w url answer x.
  subst url answer x.
  rewrite check_branch_exists_run. unfold branch_url, result_of, trace_of.
  cbv zeta. cbn [fst snd].
  destruct (fst (requests_get env _ (headers self) w)) as [response |];
    cbn [answered_200].
  - split; [reflexivity |].
    destruct (Z.eqb_spec (Api.status_code response) 200) as [H | H].
    + split; [left; reflexivity |].
      split; [intros _; exists response; auto | reflexivity].
    + split; [right; reflexivity |].
      split; [discriminate |].
      intros [r [Hr Hs]]. injection Hr as <-. contradiction.
  - split; [reflexivity |]. split; [right; reflexivity |].
    split; [discriminate |]. intros [r [Hr _]]. discriminate.
Qed.

(** X7. [_create_repository] makes one POST to the organization: a private
    repository named [<owner>-<repo>], described as a copy of
    [<owner>/<repo>], with issues on and projects and wiki off.  It returns
    true exactly when the answer has status 201, and false on any other
    status and when the request raises. *)
Theorem create_repository_outcome :
  forall (World : Type) (env : Env World) (self : GitHubPRBranchCreator)
         (owner repo : string) (w : World),
    let url := "https://api.github.com/orgs/" ++ target_org self ++ "/repos" in
    let data := RepoData (owner ++ "-" ++ repo)
                  ("Copy of " ++ owner ++ "/" ++ repo)
                  true true false false in
    let answer := requests_post env url data (headers self) w in
    _create_repository env self owner repo w
    = (Ok (answered_201 (fst answer)), snd answer,
       [EvPost url data (headers self) (fst answer)]).
Proof.
  intros World env self owner repo w url data answer. subst url data answer.
  apply (create_repository_run env self owner repo w).
Qed.

(** X8. [_get_pr_info] makes one GET for the pull request of the source
    repository.  It returns the body of the answer unless the status lies
    in 400..599; for such a status, and when the request raises, it raises
    itself.  A status below 400, even outside 200..299, is let through. *)
Theorem get_pr_info_outcome :
  forall (World : Type) (env : Env World) (self : GitHubPRBranchCreator)
         (owner repo : string) (pr_number : Z) (w : World),
    let url := "https://api.github.com/repos/" ++ owner ++ "/" ++ repo
               ++ "/pulls/" ++ Py.str_of_int pr_number in
    let answer := fst (requests_get env url (headers self) w) in
    let x := _get_pr_info env self owner repo pr_number w in
    trace_of x = [EvGet url (headers self) answer]
    /\ (answer = None -> result_of x = Raise RequestException)
    /\ forall response,
         answer = Some response ->
         (400 <= Api.status_code response < 600 ->
          result_of x = Raise RequestException)
         /\ (Api.status_code response < 400
             \/ 600 <= Api.status_code response ->
             result_of x = Ok (Api.json response)).
Proof.
  intros World env self owner repo pr_number w url answer x.
  subst url answer x.
  unfold _get_pr_info, pr_info_url, bind, http_get, raise_for_status,
    result_of, trace_of.
  cbv zeta.
  destruct (requests_get env _ (headers self) w) as [[response |] w'];
    cbn [fst snd].
  - destruct ((400 <=? Api.status_code response)
              && (Api.status_code response <? 600))%bool eqn:E;
      cbn [fst snd ret raise app].
    + apply andb_true_iff in E. destruct E as [E1 E2].
      apply Z.leb_le in E1. apply Z.ltb_lt in E2.
      split; [reflexivity |]. split; [discriminate |].
      intros r Hr. injection Hr as <-.
      split; [reflexivity | intros [H | H]; lia].
    + apply andb_false_iff in E.
      split; [reflexivity |]. split; [discriminate |].
      intros r Hr. injection Hr as <-.
      split; [| reflexivity].
      intros [H1 H2]. destruct E as [E | E];
        [apply Z.leb_gt in E | apply Z.ltb_ge in E]; lia.
  - split; [reflexivity |]. split; [reflexivity |]. discriminate.
Qed.

Lemma get_pr_info_outcome_witness :
  result_of (_get_pr_info rerun_env demo_self "org" "widget" 42 tt)
  = Ok (Api.JsonPull same_repo_pr).
Proof.
  refine (proj2 (proj2 (proj2
    (get_pr_info_outcome unit rerun_env demo_self "org" "widget" 42 tt))
    (reply 200 (Api.JsonPull same_repo_pr)) _) _).
  - reflexivity.
  - left. reflexivity.
Defined.

(** X9. The name of the mirror repository does not tell the owner from the
    repository: [<a>-<b>/<c>] and [<a>/<b>-<c>] have the same mirror, so the
    existence check and every branch check of the one are those of the
    other. *)
Theorem mirror_name_collision :
  forall (World : Type) (env : Env World) (self : GitHubPRBranchCreator)
         (a b c branch_name : string) (w : World),
    (a ++ "-" ++ b) ++ "-" ++ c = a ++ "-" ++ (b ++ "-" ++ c)
    /\ check_repo_exists env self (a ++ "-" ++ b) c w
       = check_repo_exists env self a (b ++ "-" ++ c) w
    /\ _check_branch_exists env self ((a ++ "-" ++ b) ++ "-" ++ c)
         branch_name w
       = _check_branch_exists env self (a ++ "-" ++ (b ++ "-" ++ c))
           branch_name w.
Proof.
  intros World env self a b c branch_name w.
  assert (H : (a ++ "-" ++ b) ++ "-" ++ c = a ++ "-" ++ (b ++ "-" ++ c)).
  { rewrite append_assoc. f_equal. }
  split; [exact H |]. split.
  - unfold check_repo_exists, repo_url. cbv zeta. rewrite H. reflexivity.
  - rewrite H. reflexivity.
Qed.

(** ** The orchestrator's requests *)

Section Requests.

Context {World : Type} (env : Env World).

Lemma emits_http_get :
  forall (P : Event -> Prop) (url : string) (hdrs : Headers),
    (forall r, P (EvGet url hdrs r)) -> emits P (http_get env url hdrs).
Proof.
  intros P url hdrs H w. unfold http_get, trace_of.
  destruct (requests_get env url hdrs w) as [r w']; simpl.
  constructor; [apply H | constructor].
Qed.

Lemma emits_http_post :
  forall (P : Event -> Prop) (url : string) (data : PostData)
         (hdrs : Headers),
    (forall r, P (EvPost url data hdrs r)) ->
    emits P (http_post env url data hdrs).
Proof.
  intros P url data hdrs H w. unfold http_post, trace_of.
  destruct (requests_post env url data hdrs w) as [r w']; simpl.
  constructor; [apply H | constructor].
Qed.

(** The events of a bind that starts with a pure step. *)
Lemma emits_bind_lift :
  forall (A B : Type) (P : Event -> Prop) (r : Result A)
         (k : A -> M World B),
    (forall a, r = Ok a -> emits P (k a)) -> emits P (bind (lift r) k).
Proof.
  intros A B P r k H w. unfold bind, lift, trace_of.
  destruct r as [a | e]; [| constructor].
  specialize (H a eq_refl w). unfold trace_of in H.
  destruct (k a w) as [[r2 w2] t2]. exact H.
Qed.

Lemma emits_weaken :
  forall (A : Type) (P Q : Event -> Prop) (m : M World A),
    (forall e, P e -> Q e) -> emits P m -> emits Q m.
Proof.
  intros A P Q m H Hm w. apply (Forall_impl Q H). apply Hm.
Qed.

Lemma emits_from_step3 :
  forall (P : Event -> Prop) (self : GitHubPRBranchCreator)
         (owner repo : string) (n : Z) (sha : option string),
    holds_from_step3 env P self owner repo n ->
    emits P (process_pr_from_step3 env self owner repo n sha
               (owner ++ "-" ++ repo)).
Proof.
  intros P self owner repo n sha (H3 & H4 & H5 & H6 & H7).
  unfold process_pr_from_step3, _get_pr_info, as_pull, raise_for_status,
    _check_branch_exists, _create_pull_request, except_request.
  apply emits_bind.
  { emits_steps. apply emits_http_get. apply H3. }
  intro fetched.
  apply emits_bind; [destruct fetched; emits_steps | intro pr_info].
  destruct (_get_commit_repo_info pr_info sha) as [[co cr] pr_sha].
  repeat first
    [ apply H6
    | apply H7
    | apply emits_ret
    | apply emits_raise
    | apply emits_bind; [| intro]
    | apply emits_try_except; [| intros []]
    | apply emits_if
    | apply emits_http_get; apply H4
    | apply emits_http_post; apply H5 ].
Qed.

Lemma emits_process_pr :
  forall (P : Event -> Prop) (self : GitHubPRBranchCreator) (url : string),
    (forall owner repo n sha,
        _parse_pr_url url = Ok (owner, repo, n, sha) ->
        holds_of_the_parts env P self owner repo n) ->
    emits P (process_pr env self url).
Proof.
  intros P self url H. unfold process_pr.
  apply emits_try_except; [| intros []; apply emits_ret].
  apply emits_bind_lift. intros [[[owner repo] n] sha] Ep.
  destruct (H owner repo n sha Ep) as (H1 & H2 & H3).
  pose proof (emits_from_step3 P self owner repo n sha H3) as Hstep3.
  unfold check_repo_exists, _create_repository, _create_empty_repository,
    except_request.
  repeat first
    [ exact Hstep3
    | apply emits_ret
    | apply emits_raise
    | apply emits_bind; [| intro]
    | apply emits_try_except; [| intros []]
    | apply emits_if
    | apply emits_http_get; apply H1
    | apply emits_http_post; apply H2 ].
Qed.

End Requests.


Section Provisioning.

Context {World : Type} (env : Env World).

(** Steps 3 to 6 start with the fetch of the pull request. *)
Lemma from_step3_starts :
  forall (self : GitHubPRBranchCreator) (owner repo : string) (n : Z)
         (sha : option string) (w : World),
    exists rest,
      trace_of (process_pr_from_step3 env self owner repo n sha
                  (owner ++ "-" ++ repo) w)
      = EvGet (pr_info_url owner repo n) (headers self)
          (fst (requests_get env (pr_info_url owner repo n) (headers self)
                  w))
        :: rest.
Proof.
  intros self owner repo n sha w.
  pose proof (from_step3_shape env self owner repo n sha w) as H.
  cbv zeta in H.
  destruct (fetched _) as [pr_info |];
    [destruct H as (response & b & _ & _ & _ & H & _) | destruct H as [_ H]];
    rewrite H; eexists; reflexivity.
Qed.

(** Past step 2 no repository is created. *)
Lemma from_step3_creates_no_repository :
  forall (self : GitHubPRBranchCreator) (owner repo : string) (n : Z)
         (sha : option string),
    emits (fun e => is_repo_creation e = false)
      (process_pr_from_step3 env self owner repo n sha (owner ++ "-" ++ repo)).
Proof.
  intros self owner repo n sha. apply emits_from_step3.
  assert (Hlocal : forall e, is_http e = false -> is_repo_creation e = false).
  { intros [] H; try reflexivity; discriminate H. }
  repeat split; try reflexivity.
  - intros branch commit_sha.
    apply (emits_weaken _ _ _ _ Hlocal), create_orphan_local.
  - intros branch commit_sha base.
    apply (emits_weaken _ _ _ _ Hlocal), create_from_base_local.
Qed.

End Provisioning.

(** X11. Step 2 of [process_pr] provisions the mirror repository at most
    once.  The run starts with the existence check; answered with status
    200, no repository is created and the pull request is fetched next.
    Otherwise one creation request follows, for the private repository
    [<owner>-<repo>]: answered with status 201 it is followed by the fetch
    of the pull request, and answered otherwise it ends the run with
    [False].  No other creation request is made. *)
Theorem repository_provisioning :
  forall (World : Type) (env : Env World) (self : GitHubPRBranchCreator)
         (url owner repo : string) (n : Z) (sha : option string) (w : World),
    _parse_pr_url url = Ok (owner, repo, n, sha) ->
    let x := process_pr env self url w in
    let check := fst (check_answer env self owner repo w) in
    let creation := fst (creation_answer env self owner repo w) in
    let fetch_next (rest : list Event) :=
      (exists rest',
          rest = EvGet (pr_info_url owner repo n) (headers self)
                   (fetch_answer env self owner repo n w) :: rest')
      /\ Forall (fun e => is_repo_creation e = false) rest in
    (answered_200 check = true ->
     exists rest,
       trace_of x
       = EvGet (repo_url self owner repo) (headers self) check :: rest
       /\ fetch_next rest)
    /\ (answered_200 check = false ->
        exists rest,
          trace_of x
          = EvGet (repo_url self owner repo) (headers self) check
            :: EvPost (org_repos_url self)
                 (RepoData (owner ++ "-" ++ repo)
                    ("Copy of " ++ owner ++ "/" ++ repo)
                    true true false false)
                 (headers self) creation
            :: rest
          /\ (answered_201 creation = true -> fetch_next rest)
          /\ (answered_201 creation = false ->
              rest = [] /\ result_of x = Ok false)).
Proof.
  intros World env self url owner repo n sha w Ep x check creation
    fetch_next.
  assert (Hx : x = process_pr env self url w) by reflexivity.
  clearbody x. unfold process_pr, try_except in Hx.
  unfold bind at 1 in Hx. unfold lift in Hx. rewrite Ep in Hx.
  unfold bind at 1 in Hx. rewrite check_repo_exists_run in Hx.
  cbv zeta in Hx.
  assert (Hnext : forall w1 r w2 t,
             process_pr_from_step3 env self owner repo n sha
               (owner ++ "-" ++ repo) w1 = (r, w2, t) ->
             (exists rest',
                 t = EvGet (pr_info_url owner repo n) (headers self)
                       (fst (requests_get env (pr_info_url owner repo n)
                               (headers self) w1)) :: rest')
             /\ Forall (fun e => is_repo_creation e = false) t).
  { intros w1 r w2 t Hr. split.
    - destruct (from_step3_starts env self owner repo n sha w1)
        as (rest' & H).
      rewrite Hr in H. exists rest'. exact H.
    - pose proof (from_step3_creates_no_repository env self owner repo n sha
                    w1) as H.
      rewrite Hr in H. exact H. }
  subst fetch_next check creation.
  unfold fetch_answer, creation_answer, check_answer in *.
  fold (repository_data owner repo).
  destruct (requests_get env (repo_url self owner repo) (headers self) w)
    as [a0 w1]. cbn [fst snd] in *.
  destruct (answered_200 a0) eqn:Ea; cbn [negb] in Hx.
  - split; [intros _ | discriminate].
    destruct (process_pr_from_step3 env self owner repo n sha
                (owner ++ "-" ++ repo) w1) as [[r w2] t] eqn:Hr.
    exists t. split; [| apply (Hnext _ _ _ _ Hr)].
    subst x. destruct r as [b | ex]; [| destruct ex];
      cbn [trace_of snd ret app]; rewrite ?app_nil_r; reflexivity.
  - split; [discriminate | intros _].
    unfold bind at 1 in Hx. rewrite create_repository_run in Hx.
    cbv zeta in Hx.
    destruct (requests_post env (org_repos_url self)
                (repository_data owner repo) (headers self) w1)
      as [a1 w2]. cbn [fst snd] in *.
    destruct (answered_201 a1) eqn:Ec; cbn [negb] in Hx.
    + destruct (process_pr_from_step3 env self owner repo n sha
                  (owner ++ "-" ++ repo) w2) as [[r w3] t] eqn:Hr.
      exists t. split; [| split; [intros _; apply (Hnext _ _ _ _ Hr)
                                 | discriminate]].
      subst x. destruct r as [b | ex]; [| destruct ex];
        cbn [trace_of snd ret app]; rewrite ?app_nil_r; reflexivity.
    + exists []. subst x. cbn [trace_of result_of fst snd ret app].
      split; [reflexivity |]. split; [discriminate |].
      intros _. split; reflexivity.
Qed.

Lemma repository_provisioning_witness :
  exists rest,
    trace_of (process_pr rerun_env demo_self
                "https://github.com/org/widget/pull/42" tt)
    = EvGet (repo_url demo_self "org" "widget") (headers demo_self)
        (Some (reply 200 (Api.JsonObject Api.no_members)))
      :: rest.
Proof.
  destruct (proj1 (repository_provisioning unit rerun_env demo_self
                     "https://github.com/org/widget/pull/42" "org" "widget"
                     42 None tt eq_refl) eq_refl)
    as (rest & H & _).
  exists rest. exact H.
Defined.

Section Clones.

Context {World : Type} (env : Env World).

Lemma process_pr_clones :
  forall (self : GitHubPRBranchCreator) (url : string),
    emits (clones_what_the_url_names self url) (process_pr env self url).
Proof.
  intros self url. apply emits_process_pr. intros owner repo n sha Ep.
  assert (Hother : forall e,
             clone_source e = None -> clones_what_the_url_names self url e).
  { intros e He source Hs. rewrite He in Hs. discriminate Hs. }
  assert (Hclone : forall source dir cwd input r,
             source = source_clone_url owner repo
             \/ source = mirror_clone_url self (owner ++ "-" ++ repo) ->
             clones_what_the_url_names self url
               (EvRun ["git"; "clone"; source; dir] cwd input r)).
  { intros source dir cwd input r H s Hs. injection Hs as <-.
    exists owner, repo, n, sha. split; [exact Ep | exact H]. }
  split; [intro; apply Hother; reflexivity |].
  split; [intro; apply Hother; reflexivity |].
  split; [intro; apply Hother; reflexivity |].
  split; [intros; apply Hother; reflexivity |].
  split; [intros; apply Hother; reflexivity |].
  split.
  - intros branch commit_sha.
    unfold _create_orphan_branch_with_commit, except_any, git_config_user.
    emits_steps;
      first [ apply Hother; reflexivity
            | apply Hclone; left; reflexivity ].
  - intros branch commit_sha base.
    unfold _create_branch_from_base, except_any, git_config_user.
    emits_steps;
      first [ apply Hother; reflexivity
            | match goal with
              | |- context [Py.replace] =>
                  apply Hclone; right; unfold mirror_clone_url; reflexivity
              | |- _ => apply Hclone; left; reflexivity
              end ].
Qed.

End Clones.

(** X12. The only repositories a run of [process_pr] clones are the one
    named in the URL and its mirror.  The repository the commit locator
    works out, the head repository of a pull request from a fork, is not
    cloned: both materializers are given the owner and the name read from
    the URL. *)
Theorem only_the_url_repository_is_cloned :
  forall (World : Type) (env : Env World) (self : GitHubPRBranchCreator)
         (url : string) (w : World) (e : Event) (source : string),
    In e (trace_of (process_pr env self url w)) ->
    clone_source e = Some source ->
    exists owner repo n sha,
      _parse_pr_url url = Ok (owner, repo, n, sha)
      /\ (source = source_clone_url owner repo
          \/ source = mirror_clone_url self (owner ++ "-" ++ repo)).
Proof.
  intros World env self url w e source Hin Hs.
  pose proof (process_pr_clones env self url w) as H.
  rewrite Forall_forall in H. apply (H e Hin source Hs).
Qed.

Lemma only_the_url_repository_is_cloned_witness :
  exists owner repo n sha,
    _parse_pr_url "https://github.com/org/widget/pull/42"
    = Ok (owner, repo, n, sha)
    /\ ("https://github.com/org/widget.git" = source_clone_url owner repo
        \/ "https://github.com/org/widget.git"
           = mirror_clone_url demo_self (owner ++ "-" ++ repo)).
Proof.
  apply (only_the_url_repository_is_cloned unit broken_git_env demo_self
           "https://github.com/org/widget/pull/42" tt
           (EvRun ["git"; "clone"; "https://github.com/org/widget.git";
                   "source"]
              "/tmp/work" None (Some (exit_code 128 "")))).
  - vm_compute. repeat first [left; reflexivity | right].
  - reflexivity.
Defined.



(** ** Positions in the trace of a materializer *)

Section AtEvent.

Context {World : Type} (env : Env World).

Local Open Scope list_scope.

Variable target : Event -> bool.

(** Where a target event lies in a trace that starts with events that are
    not. *)
Lemma split_at_target :
  forall (t1 t2 pre : list Event) (e : Event) (suf : list Event),
    t1 ++ t2 = pre ++ e :: suf ->
    Forall (fun e => target e = false) t1 ->
    target e = true ->
    exists pre', pre = t1 ++ pre' /\ t2 = pre' ++ e :: suf.
Proof.
  induction t1 as [| a t1 IH]; intros t2 pre e suf Heq Hs He.
  - exists pre. split; [reflexivity | exact Heq].
  - inversion Hs as [| a' t1' Ha Ht1]; subst.
    destruct pre as [| b pre]; simpl in Heq; injection Heq as <- Heq.
    + rewrite He in Ha. discriminate.
    + destruct (IH t2 pre e suf Heq Ht1 He) as (pre' & -> & ->).
      exists pre'. split; reflexivity.
Qed.

(** And in one that ends with an event that is not. *)
Lemma split_before_last :
  forall (t pre : list Event) (c e : Event) (suf : list Event),
    t ++ [c] = pre ++ e :: suf ->
    target c = false -> target e = true ->
    exists suf', suf = suf' ++ [c] /\ t = pre ++ e :: suf'.
Proof.
  intros t pre c e suf Heq Hc He.
  destruct suf as [| s suf] using rev_ind.
  - change (pre ++ [e]) with (pre ++ [e]) in Heq.
    apply app_inj_tail in Heq. destruct Heq as [_ <-].
    rewrite He in Hc. discriminate.
  - clear IHsuf. exists suf.
    change (pre ++ e :: suf ++ [s]) with (pre ++ (e :: suf) ++ [s]) in Heq.
    rewrite app_assoc in Heq. apply app_inj_tail in Heq.
    destruct Heq as [-> <-]. split; reflexivity.
Qed.

Variable P : list Event -> Event -> list Event -> bool -> Prop.

Lemma at_ret :
  forall (t0 : list Event) (b : bool) (w : World),
    at_event target P t0 (ret b w).
Proof. intros t0 b w [| a pre] e suf Heq; discriminate Heq. Qed.

(** A step without target events: the statement moves past its events. *)
Lemma at_bind_silent :
  forall (A : Type) (m : M World A) (k : A -> M World bool)
         (t0 : list Event) (w : World),
    emits (fun e => target e = false) m ->
    (forall a w1 t1,
        m w = (Ok a, w1, t1) -> at_event target P (t0 ++ t1) (k a w1)) ->
    at_event target P t0 (bind m k w).
Proof.
  intros A m k t0 w Hm Hk pre e suf Heq He. specialize (Hm w).
  unfold bind, trace_of, result_of in *.
  destruct (m w) as [[[a | ex] w1] t1]; cbn [fst snd] in *.
  - specialize (Hk a w1 t1 eq_refl).
    unfold at_event, trace_of, result_of in Hk.
    destruct (k a w1) as [[r2 w2] t2]; cbn [fst snd] in *.
    destruct (split_at_target t1 t2 pre e suf Heq Hm He) as (pre' & -> & Ht2).
    rewrite app_assoc. apply (Hk pre' e suf Ht2 He).
  - exfalso. rewrite Forall_forall in Hm.
    assert (Hin : In e t1) by (rewrite Heq; apply in_elt).
    rewrite (Hm e Hin) in He. discriminate.
Qed.

(** A step of one event, which may be a target: [oracle] answers, [ev] is
    the event recorded and [res] what the call gives the program. *)
Lemma at_bind_event :
  forall (A R : Type) (oracle : World -> R * World) (res : R -> Result A)
         (ev : R -> Event) (k : A -> M World bool) (t0 : list Event)
         (w : World),
    (forall r w1,
        oracle w = (r, w1) -> target (ev r) = true ->
        match res r with
        | Ok a =>
            P t0 (ev r) (trace_of (k a w1)) (caught (result_of (k a w1)))
        | Raise _ => P t0 (ev r) [] false
        end) ->
    (forall r a w1,
        oracle w = (r, w1) -> res r = Ok a ->
        at_event target P (t0 ++ [ev r]) (k a w1)) ->
    at_event target P t0
      (bind (fun w => let '(r, w') := oracle w in (res r, w', [ev r])) k w).
Proof.
  intros A R oracle res ev k t0 w Hhere Hnext pre e suf Heq He.
  unfold bind, trace_of, result_of in *.
  destruct (oracle w) as [r w1].
  specialize (Hhere r w1 eq_refl). specialize (Hnext r).
  destruct (res r) as [a | ex]; cbn [fst snd] in *.
  - specialize (Hnext a w1 eq_refl eq_refl).
    unfold at_event, trace_of, result_of in Hnext.
    destruct (k a w1) as [[r2 w2] t2]; cbn [fst snd app] in *.
    destruct pre as [| b pre]; simpl in Heq; injection Heq as <- Heq.
    + subst t2. rewrite app_nil_r. apply Hhere. exact He.
    + subst t2. specialize (Hnext pre e suf eq_refl He).
      rewrite <- app_assoc in Hnext. exact Hnext.
  - destruct pre as [| b pre]; simpl in Heq; injection Heq as <- Heq.
    + subst suf. rewrite app_nil_r. apply Hhere. exact He.
    + destruct pre; discriminate Heq.
Qed.

(** From the body of a materializer to the materializer: the scratch
    directory is created first and removed last, and an exception of the
    body becomes the result [False]. *)
Lemma at_materializer :
  forall body : string -> M World bool,
    (forall r, target (EvTempDir r) = false) ->
    (forall d, target (EvCleanup d) = false) ->
    (forall d w,
        at_event target (fun pre e suf b => P pre e (suf ++ [EvCleanup d]) b)
          [EvTempDir (Some d)] (body d w)) ->
    forall w,
      at_event target P [] (except_any (with_tempdir env body) (ret false) w).
Proof.
  intros body Ht Hc Hbody w pre e suf Heq He.
  unfold except_any, try_except, with_tempdir, trace_of, result_of in *.
  destruct (tempdir_create env w) as [[d |] w1]; cbn [fst snd] in *.
  - specialize (Hbody d w1). unfold at_event, trace_of, result_of in Hbody.
    destruct (body d w1) as [[res w2] t]; cbn [fst snd] in *.
    assert (Heq' : EvTempDir (Some d) :: t ++ [EvCleanup d] = pre ++ e :: suf).
    { destruct res; cbn [fst snd ret app] in Heq; rewrite ?app_nil_r in Heq;
        exact Heq. }
    assert (Hres : caught (fst (fst
              (match res with
               | Ok a =>
                   (Ok a, tempdir_cleanup env d w2,
                    EvTempDir (Some d) :: t ++ [EvCleanup d])
               | Raise _ =>
                   let '(r2, w3, t2) := ret false (tempdir_cleanup env d w2) in
                   (r2, w3, (EvTempDir (Some d) :: t ++ [EvCleanup d]) ++ t2)
               end)))
            = caught res).
    { destruct res; reflexivity. }
    rewrite Hres. clear Heq Hres.
    destruct pre as [| b pre]; simpl in Heq'; injection Heq' as <- Heq'.
    + rewrite Ht in He. discriminate.
    + destruct (split_before_last t pre (EvCleanup d) e suf Heq' (Hc d) He)
        as (suf' & -> & ->).
      apply (Hbody pre e suf' eq_refl He).
  - destruct pre as [| b pre]; simpl in Heq; injection Heq as <- Heq.
    + rewrite Ht in He. discriminate.
    + destruct pre; discriminate Heq.
Qed.

End AtEvent.

Section AtEventMore.

Context {World : Type} (env : Env World).

Local Open Scope list_scope.

Variable target : Event -> bool.
Variable P : list Event -> Event -> list Event -> bool -> Prop.

(** A computation without target events. *)
Lemma at_silent :
  forall (m : M World bool) (t0 : list Event) (w : World),
    emits (fun e => target e = false) m -> at_event target P t0 (m w).
Proof.
  intros m t0 w Hm pre e suf Heq He. exfalso. specialize (Hm w).
  rewrite Forall_forall in Hm.
  assert (Hin : In e (trace_of (m w))) by (rewrite Heq; apply in_elt).
  rewrite (Hm e Hin) in He. discriminate.
Qed.

Lemma at_bind_ret :
  forall (A : Type) (a : A) (k : A -> M World bool) (t0 : list Event)
         (w : World),
    at_event target P t0 (k a w) -> at_event target P t0 (bind (ret a) k w).
Proof.
  intros A a k t0 w H. apply at_bind_silent; [apply emits_ret |].
  intros a' w1 t1 E. unfold ret in E. injection E as <- <- <-.
  rewrite app_nil_r. exact H.
Qed.

End AtEventMore.

(** One step of a materializer that has no target event. *)
Ltac silent_step :=
  first
    [ apply at_bind_silent;
      [ unfold git_config_user; emits_steps; reflexivity | intros ? ? ? _ ]
    | match goal with
      | |- at_event _ _ _ ((if ?b then _ else _) _) =>
          destruct b; try apply at_ret
      end ].

(** The next step of a materializer, a subprocess or a call to the file
    system, as a step of one event. *)
Ltac event_step :=
  match goal with
  | |- at_event _ _ _ (bind (run ?env ?argv ?cwd ?input) ?k _) =>
      apply (at_bind_event _ _ _ _ (subprocess_run env argv cwd input)
               (fun r => match r with Some x => Ok x | None => Raise OSError end)
               (EvRun argv cwd input) k)
  | |- at_event _ _ _ (bind (path_exists ?env ?path) ?k _) =>
      apply (at_bind_event _ _ _ _ (os_path_exists env path)
               (fun r => Ok r) (EvExists path) k)
  | |- at_event _ _ _ (bind (rmtree ?env ?path) ?k _) =>
      apply (at_bind_event _ _ _ _ (shutil_rmtree env path)
               (fun r => match r with Some x => Ok x | None => Raise OSError end)
               (EvRmtree path) k)
  | |- at_event _ _ _ (bind (makedirs ?env ?path) ?k _) =>
      apply (at_bind_event _ _ _ _ (os_makedirs env path)
               (fun r => match r with Some x => Ok x | None => Raise OSError end)
               (EvMakedirs path) k)
  | |- at_event _ _ _ (bind (listdir ?env ?path) ?k _) =>
      apply (at_bind_event _ _ _ _ (os_listdir env path)
               (fun r => match r with Some x => Ok x | None => Raise OSError end)
               (EvListdir path) k)
  end.

Section Staging.

Context {World : Type} (env : Env World).

Local Open Scope list_scope.

(** What both materializers do between the extraction and the commit:
    look for the workflow folder, remove it if it is there, stage. *)
Lemma staging_clears_workflows :
  forall (dir : string) (argv : list string)
         (k : CompletedProcess -> M World bool) (t0 : list Event) (w : World),
    (forall p, emits (fun e => is_add e = false) (k p)) ->
    at_event is_add (fun pre e _ _ => workflows_cleared pre e) t0
      (bind (path_exists env (Py.path_join dir ".github"))
         (fun has_github =>
            bind (if has_github
                  then rmtree env (Py.path_join dir ".github")
                  else ret tt)
              (fun _ => bind (run env ("git" :: "add" :: argv) dir None) k))
         w).
Proof.
  intros dir argv k t0 w Hk.
  event_step; [intros r w1 _ H; discriminate H |].
  intros r a w1 _ E. injection E as <-.
  assert (Hadd : forall t1 w2,
             t1 = [EvExists (Py.path_join dir ".github") false]
             \/ t1 = [EvExists (Py.path_join dir ".github") true;
                      EvRmtree (Py.path_join dir ".github") (Some tt)] ->
             at_event is_add (fun pre e _ _ => workflows_cleared pre e)
               (t0 ++ t1)
               (bind (run env ("git" :: "add" :: argv) dir None) k w2)).
  { intros t1 w2 Ht1. event_step.
    - intros p w3 _ _.
      assert (Hc : forall p', workflows_cleared (t0 ++ t1)
                                (EvRun ("git" :: "add" :: argv) dir None p')).
      { intro p'. unfold workflows_cleared. cbn [cwd_of]. exists t0.
        destruct Ht1 as [-> | ->]; [left | right]; reflexivity. }
      destruct p; apply Hc.
    - intros p a w3 _ _. apply at_silent. apply Hk. }
  destruct r.
  - event_step; [intros r w2 _ H; discriminate H |].
    intros [[] |] a w2 _ E; [| discriminate E].
    rewrite <- app_assoc. apply Hadd. right. reflexivity.
  - apply at_bind_ret. apply Hadd. left. reflexivity.
Qed.

(** Steps of a materializer up to the search for the workflow folder. *)
Ltac steps_to_staging :=
  repeat
    lazymatch goal with
    | |- at_event _ _ _ (bind (path_exists _ _) _ _) => fail
    | |- _ => silent_step
    end.

Lemma orphan_clears_workflows :
  forall (self : GitHubPRBranchCreator)
         (owner repo target_repo branch_name commit_sha : string) (w : World),
    at_event is_add (fun pre e _ _ => workflows_cleared pre e) []
      (_create_orphan_branch_with_commit env self owner repo target_repo
         branch_name commit_sha w).
Proof.
  intros. unfold _create_orphan_branch_with_commit.
  apply at_materializer; [reflexivity | reflexivity |].
  intros d w0. cbv beta zeta. steps_to_staging.
  apply staging_clears_workflows. intro p. emits_steps; reflexivity.
Qed.

Lemma from_base_clears_workflows :
  forall (self : GitHubPRBranchCreator)
         (owner repo target_repo branch_name commit_sha base_branch : string)
         (w : World),
    at_event is_add (fun pre e _ _ => workflows_cleared pre e) []
      (_create_branch_from_base env self owner repo target_repo branch_name
         commit_sha base_branch w).
Proof.
  intros. unfold _create_branch_from_base.
  apply at_materializer; [reflexivity | reflexivity |].
  intros d w0. cbv beta zeta. steps_to_staging.
  apply staging_clears_workflows. intro p. emits_steps; reflexivity.
Qed.

End Staging.

(** X14. Neither materializer stages a tree with workflows in it.  Every
    [git add] of a run is immediately preceded by the search for the
    [.github] folder of the directory it runs in, answered "absent", or by
    that search answered "present" and the removal of the folder, which
    succeeded. *)
Theorem workflows_are_removed_before_staging :
  forall (World : Type) (env : Env World) (self : GitHubPRBranchCreator)
         (owner repo target_repo branch_name commit_sha base_branch : string)
         (w : World) (pre : list Event) (e : Event) (suf : list Event),
    trace_of (_create_orphan_branch_with_commit env self owner repo
                target_repo branch_name commit_sha w)
    = (pre ++ e :: suf)%list
    \/ trace_of (_create_branch_from_base env self owner repo target_repo
                   branch_name commit_sha base_branch w)
       = (pre ++ e :: suf)%list ->
    is_add e = true ->
    workflows_cleared pre e.
Proof.
  intros World env self owner repo target_repo branch_name commit_sha
    base_branch w pre e suf [H | H] He.
  - apply (orphan_clears_workflows env self owner repo target_repo branch_name
             commit_sha w pre e suf H He).
  - apply (from_base_clears_workflows env self owner repo target_repo
             branch_name commit_sha base_branch w pre e suf H He).
Qed.

Lemma workflows_are_removed_before_staging_witness :
  let t := trace_of (_create_branch_from_base no_op_env demo_self "alice"
                       "widget" "org-widget" "pr-42" "cafe0123cafe" "main-42"
                       tt) in
  workflows_cleared (firstn 13 t) (nth 13 t (EvCleanup "")).
Proof.
  intro t.
  apply (workflows_are_removed_before_staging unit no_op_env demo_self
           "alice" "widget" "org-widget" "pr-42" "cafe0123cafe" "main-42" tt
           (firstn 13 t) (nth 13 t (EvCleanup "")) (skipn 14 t)).
  - right. reflexivity.
  - reflexivity.
Defined.

Section Success.

Context {World : Type} (env : Env World).

Local Open Scope list_scope.

Variable Q : Event -> Prop.




End Success.


Section Pushed.

Context {World : Type} (env : Env World).

Local Open Scope list_scope.




End Pushed.

Section PushIsLast.

Context {World : Type} (env : Env World).

Local Open Scope list_scope.




End PushIsLast.



(** ** Failing steps *)

Section Fragile.

Context {World : Type} (env : Env World).

Local Open Scope list_scope.

Variable target : Event -> bool.

Lemma fragile_ret :
  forall (A : Type) (a : A), fragile target (ret (World := World) a).
Proof. intros A a w. constructor. Qed.

Lemma fragile_bind :
  forall (A B : Type) (m : M World A) (k : A -> M World B),
    fragile target m -> (forall a, fragile target (k a)) ->
    fragile target (bind m k).
Proof.
  intros A B m k Hm Hk w. specialize (Hm w). unfold bind.
  destruct (m w) as [[[a | ex] w1] t1]; [| exact Hm].
  specialize (Hk a w1). destruct (k a w1) as [[[b | ex] w2] t2].
  - apply Forall_app. split; assumption.
  - destruct Hk as (pre & e & -> & Hpre).
    exists (t1 ++ pre), e. rewrite app_assoc. split; [reflexivity |].
    apply Forall_app. split; assumption.
Qed.

Lemma fragile_if :
  forall (A : Type) (b : bool) (m1 m2 : M World A),
    fragile target m1 -> fragile target m2 ->
    fragile target (if b then m1 else m2).
Proof. intros A [] m1 m2 H1 H2; assumption. Qed.

Lemma fragile_for_each :
  forall (A : Type) (xs : list A) (body : A -> M World unit),
    (forall x, fragile target (body x)) -> fragile target (for_each xs body).
Proof.
  intros A xs body H. induction xs as [| x xs IH]; simpl.
  - apply fragile_ret.
  - apply fragile_bind; [apply H | intros _; exact IH].
Qed.

(** A call of one event is fragile when the event of a call that returns
    is no target. *)
Lemma fragile_event :
  forall (A R : Type) (oracle : World -> R * World) (res : R -> Result A)
         (ev : R -> Event),
    (forall r a, res r = Ok a -> target (ev r) = false) ->
    fragile target (fun w => let '(r, w') := oracle w in (res r, w', [ev r])).
Proof.
  intros A R oracle res ev H w. destruct (oracle w) as [r w1].
  specialize (H r). destruct (res r) as [a | ex].
  - constructor; [apply (H a eq_refl) | constructor].
  - exists [], (ev r). split; [reflexivity | constructor].
Qed.

Lemma fragile_run :
  forall (argv : list string) (cwd : string) (input : option string),
    (forall p, target (EvRun argv cwd input (Some p)) = false) ->
    fragile target (run env argv cwd input).
Proof.
  intros argv cwd input H.
  apply (fragile_event _ _ (subprocess_run env argv cwd input)
           (fun r => match r with Some x => Ok x | None => Raise OSError end)
           (EvRun argv cwd input)).
  intros [p |] a E; [apply H | discriminate E].
Qed.

Lemma fragile_isdir :
  forall path : string,
    (forall r, target (EvIsdir path r) = false) ->
    fragile target (isdir env path).
Proof.
  intros path H.
  apply (fragile_event _ _ (os_path_isdir env path) (fun r => Ok r)
           (EvIsdir path)).
  intros r a _. apply H.
Qed.

Lemma fragile_path_exists :
  forall path : string,
    (forall r, target (EvExists path r) = false) ->
    fragile target (path_exists env path).
Proof.
  intros path H.
  apply (fragile_event _ _ (os_path_exists env path) (fun r => Ok r)
           (EvExists path)).
  intros r a _. apply H.
Qed.

Lemma fragile_rmtree :
  forall path : string,
    target (EvRmtree path (Some tt)) = false ->
    fragile target (rmtree env path).
Proof.
  intros path H.
  apply (fragile_event _ _ (shutil_rmtree env path)
           (fun r => match r with Some x => Ok x | None => Raise OSError end)
           (EvRmtree path)).
  intros [[] |] a E; [exact H | discriminate E].
Qed.

Lemma fragile_remove :
  forall path : string,
    target (EvRemove path (Some tt)) = false ->
    fragile target (remove env path).
Proof.
  intros path H.
  apply (fragile_event _ _ (os_remove env path)
           (fun r => match r with Some x => Ok x | None => Raise OSError end)
           (EvRemove path)).
  intros [[] |] a E; [exact H | discriminate E].
Qed.

Lemma fragile_makedirs :
  forall path : string,
    target (EvMakedirs path (Some tt)) = false ->
    fragile target (makedirs env path).
Proof.
  intros path H.
  apply (fragile_event _ _ (os_makedirs env path)
           (fun r => match r with Some x => Ok x | None => Raise OSError end)
           (EvMakedirs path)).
  intros [[] |] a E; [exact H | discriminate E].
Qed.

Lemma fragile_listdir :
  forall path : string,
    (forall l, target (EvListdir path (Some l)) = false) ->
    fragile target (listdir env path).
Proof.
  intros path H.
  apply (fragile_event _ _ (os_listdir env path)
           (fun r => match r with Some x => Ok x | None => Raise OSError end)
           (EvListdir path)).
  intros [l |] a E; [apply H | discriminate E].
Qed.

Variable P : list Event -> Event -> list Event -> bool -> Prop.

(** A fragile step: a target event ends it, with an exception. *)
Lemma at_bind_fragile :
  forall (A : Type) (m : M World A) (k : A -> M World bool)
         (t0 : list Event) (w : World),
    fragile target m ->
    (forall pre e, P pre e [] false) ->
    (forall a w1 t1,
        m w = (Ok a, w1, t1) -> at_event target P (t0 ++ t1) (k a w1)) ->
    at_event target P t0 (bind m k w).
Proof.
  intros A m k t0 w Hm Hlast Hk pre e suf Heq He. specialize (Hm w).
  unfold bind, trace_of, result_of in *.
  destruct (m w) as [[[a | ex] w1] t1]; cbn [fst snd] in *.
  - specialize (Hk a w1 t1 eq_refl).
    unfold at_event, trace_of, result_of in Hk.
    destruct (k a w1) as [[r2 w2] t2]; cbn [fst snd] in *.
    destruct (split_at_target target t1 t2 pre e suf Heq Hm He)
      as (pre' & -> & Ht2).
    rewrite app_assoc. apply (Hk pre' e suf Ht2 He).
  - destruct Hm as (pre1 & e1 & -> & Hpre1).
    destruct (split_at_target target pre1 [e1] pre e suf Heq Hpre1 He)
      as (pre' & -> & Hlast1).
    destruct pre' as [| b pre']; simpl in Hlast1; injection Hlast1 as <- Hs.
    + subst suf. apply Hlast.
    + destruct pre'; discriminate Hs.
Qed.

End Fragile.

(** Decomposes a goal [fragile target m] along the syntax of [m]. *)
Ltac fragile_steps :=
  repeat first
    [ apply fragile_ret
    | apply fragile_bind; [| intro]
    | apply fragile_if
    | apply fragile_for_each; intro
    | apply fragile_run; intro
    | apply fragile_isdir; intro
    | apply fragile_path_exists; intro
    | apply fragile_rmtree
    | apply fragile_remove
    | apply fragile_makedirs
    | apply fragile_listdir; intro ].

(** The statement of a failing step, for the body of a materializer that
    works in the scratch directory [d]. *)
Ltac ends_the_run d :=
  cbn [ret trace_of result_of fst snd caught app];
  split; [exists d; reflexivity | reflexivity].

(** One step of a materializer, each of whose events may fail. *)
Ltac failing_step d :=
  first
    [ apply at_ret
    | match goal with
      | |- at_event _ _ _ ((if ?b then _ else _) _) => destruct b eqn:?
      end
    | match goal with
      | |- at_event _ _ _ (bind (run _ _ _ _) _ _) =>
          event_step;
          [ intros [p |] ? _ Hf;
            [ cbn [step_failed] in Hf; apply andb_true_iff in Hf;
              destruct Hf as [Hrc Htol];
              change (failed p = true) in Hrc; cbv beta iota; rewrite Hrc;
              try (cbn [from_base_tolerates orphan_tolerates is_config
                        is_commit_argv orb andb] in Htol;
                   apply negb_true_iff in Htol; rewrite Htol);
              ends_the_run d
            | ends_the_run d ]
          | intros ? ? ? _ _ ]
      end
    | apply at_bind_fragile;
      [ unfold git_config_user; fragile_steps;
        first [ reflexivity
              | cbn [step_failed orphan_tolerates from_base_tolerates
                     is_config orb negb];
                apply andb_false_r ]
      | intros; ends_the_run d
      | intros ? ? ? _ ] ].

Section FailFast.

Context {World : Type} (env : Env World).

Local Open Scope list_scope.

Lemma orphan_fails_fast :
  forall (self : GitHubPRBranchCreator)
         (owner repo target_repo branch_name commit_sha : string) (w : World),
    at_event (step_failed orphan_tolerates)
      (fun _ _ suf b => (exists d, suf = [EvCleanup d]) /\ b = false) []
      (_create_orphan_branch_with_commit env self owner repo target_repo
         branch_name commit_sha w).
Proof.
  intros. unfold _create_orphan_branch_with_commit.
  apply at_materializer; [reflexivity | reflexivity |].
  intros d w0. cbv beta zeta.
  repeat failing_step d.
Qed.

Lemma from_base_fails_fast :
  forall (self : GitHubPRBranchCreator)
         (owner repo target_repo branch_name commit_sha base_branch : string)
         (w : World),
    at_event (step_failed from_base_tolerates)
      (fun _ _ suf b => (exists d, suf = [EvCleanup d]) /\ b = false) []
      (_create_branch_from_base env self owner repo target_repo branch_name
         commit_sha base_branch w).
Proof.
  intros. unfold _create_branch_from_base.
  apply at_materializer; [reflexivity | reflexivity |].
  intros d w0. cbv beta zeta.
  repeat failing_step d.
Qed.

End FailFast.

(** X16. Both materializers stop at the first step that fails.  A step
    fails when the call raises or, for a subprocess, when it exits with a
    status other than 0; the exit status of [git config] is not looked at,
    and [_create_branch_from_base] lets pass a commit that reports "nothing
    to commit".  After a failing step nothing is run but the removal of
    the scratch directory, and the result is [False]. *)
Theorem materializers_stop_at_the_first_failure :
  forall (World : Type) (env : Env World) (self : GitHubPRBranchCreator)
         (owner repo target_repo branch_name commit_sha base_branch : string)
         (w : World),
    let y := _create_orphan_branch_with_commit env self owner repo target_repo
               branch_name commit_sha w in
    let x := _create_branch_from_base env self owner repo target_repo
               branch_name commit_sha base_branch w in
    (forall pre e suf,
        trace_of y = (pre ++ e :: suf)%list ->
        step_failed orphan_tolerates e = true ->
        (exists d, suf = [EvCleanup d]) /\ result_of y = Ok false)
    /\ (forall pre e suf,
           trace_of x = (pre ++ e :: suf)%list ->
           step_failed from_base_tolerates e = true ->
           (exists d, suf = [EvCleanup d]) /\ result_of x = Ok false).
Proof.
  intros World env self owner repo target_repo branch_name commit_sha
    base_branch w y x.
  assert (Hcaught : forall (z : Result bool * World * list Event) b w' t,
             z = (Ok b, w', t) -> caught (result_of z) = false ->
             result_of z = Ok false).
  { intros z b w' t -> H. cbn in *. rewrite H. reflexivity. }
  split; intros pre e suf Htr He.
  - destruct (orphan_fails_fast env self owner repo target_repo branch_name
                commit_sha w pre e suf Htr He) as [Hs Hb].
    split; [exact Hs |].
    destruct (create_orphan_total env self owner repo target_repo branch_name
                commit_sha w) as (b & w' & t & Hz).
    apply (Hcaught y b w' t Hz Hb).
  - destruct (from_base_fails_fast env self owner repo target_repo branch_name
                commit_sha base_branch w pre e suf Htr He) as [Hs Hb].
    split; [exact Hs |].
    destruct (create_from_base_total env self owner repo target_repo
                branch_name commit_sha base_branch w) as (b & w' & t & Hz).
    apply (Hcaught x b w' t Hz Hb).
Qed.

Lemma materializers_stop_at_the_first_failure_witness :
  (exists d, [EvCleanup "/tmp/work"] = [EvCleanup d])
  /\ result_of (_create_orphan_branch_with_commit broken_git_env demo_self
                  "org" "widget" "org-widget" "main-42" "b0b0b0b0b0b0" tt)
     = Ok false.
Proof.
  apply (proj1 (materializers_stop_at_the_first_failure unit broken_git_env
                  demo_self "org" "widget" "org-widget" "main-42"
                  "b0b0b0b0b0b0" "main-42" tt)
           [EvTempDir (Some "/tmp/work")]
           (EvRun ["git"; "clone"; "https://github.com/org/widget.git";
                   "source"]
              "/tmp/work" None (Some (exit_code 128 "")))
           [EvCleanup "/tmp/work"]);
    reflexivity.
Defined.

Section Scratch.

Context {World : Type} (env : Env World).

Local Open Scope list_scope.

(** The scratch directory around a body that touches no other and makes
    no HTTP request. *)
Lemma scratch_around :
  forall (body : string -> M World bool) (w : World),
    (forall d,
        emits (fun e => is_scratch e = false /\ is_http e = false) (body d)) ->
    let x := except_any (with_tempdir env body) (ret false) w in
    (exists b, result_of x = Ok b)
    /\ scratch_lifecycle (result_of x) (trace_of x).
Proof.
  intros body w Hbody x. subst x.
  unfold except_any, try_except, with_tempdir, scratch_lifecycle, result_of,
    trace_of.
  destruct (tempdir_create env w) as [[d |] w1]; cbn [fst snd].
  - specialize (Hbody d w1). unfold trace_of in Hbody.
    destruct (body d w1) as [[[b | ex] w2] t]; cbn [fst snd ret] in *;
      rewrite ?app_nil_r;
      (split; [eexists; reflexivity |]); right; exists d, t;
      (split; [reflexivity | exact Hbody]).
  - split; [eexists; reflexivity |]. left. split; reflexivity.
Qed.

End Scratch.

(** X17. Both materializers work in one scratch directory, which they
    create first and remove last on every path, failures and exceptions
    included; they never let an exception out.  When the directory cannot
    be created nothing else is done and the result is [False].  In between
    they make no HTTP request. *)
Theorem scratch_directory_lifecycle :
  forall (World : Type) (env : Env World) (self : GitHubPRBranchCreator)
         (owner repo target_repo branch_name commit_sha base_branch : string)
         (w : World),
    let y := _create_orphan_branch_with_commit env self owner repo target_repo
               branch_name commit_sha w in
    let x := _create_branch_from_base env self owner repo target_repo
               branch_name commit_sha base_branch w in
    ((exists b, result_of y = Ok b)
     /\ scratch_lifecycle (result_of y) (trace_of y))
    /\ ((exists b, result_of x = Ok b)
        /\ scratch_lifecycle (result_of x) (trace_of x)).
Proof.
  intros World env self owner repo target_repo branch_name commit_sha
    base_branch w y x. subst y x. split.
  - unfold _create_orphan_branch_with_commit. apply scratch_around.
    intro d. cbv zeta. unfold git_config_user.
    emits_steps; split; reflexivity.
  - unfold _create_branch_from_base. apply scratch_around.
    intro d. cbv zeta. unfold git_config_user.
    emits_steps; split; reflexivity.
Qed.

(** ** What is committed *)




Section Provenance.

Context {World : Type} (env : Env World).

Local Open Scope list_scope.



End Provenance.


